(** * sphinx-tribes: tickets, features, chat and metrics

    A shallow embedding of the storage functions of [db/tickets.go] and
    [db/metrics.go] and of the HTTP handlers of [handlers/features.go] and of
    the chat handler, over an in-memory relational store.

    Conventions.
    - A Go function returning [(T, error)] returns a pair [T * option error]
      ([None] is [nil]); the value returned next to an error is the zero value
      the source returns there.
    - Code that talks to the store runs in a state monad over [database].
      Every SQL statement may be failed by the driver: the store carries the
      outcomes of the statements still to come ([faults]).
    - [uint] and [int64] are [Z] with the wrap-around written out; [time.Time]
      is a number of seconds, the zero time being [0]; [uuid.UUID] is the
      canonical text of the identifier. *)

From Stdlib Require Import ZArith List String Bool Lia Sorted Permutation.
From ExtLib Require Import Structures.Monad Structures.MonadState.
From ExtLib Require Import Data.Monads.StateMonad.
Import ListNotations.
Import MonadNotation.
Local Open Scope monad_scope.
Local Open Scope string_scope.
Local Open Scope Z_scope.

(** ** Go values *)

Module Go.

(** [error] values as the code builds and inspects them. *)
Inductive error : Type :=
| ErrRecordNotFound                              (* gorm.ErrRecordNotFound *)
| ErrDriver (msg : string)                       (* reported by the SQL driver *)
| ErrNew (msg : string)                          (* errors.New, fmt.Errorf without %w *)
| ErrWrap (prefix : string) (cause : error).     (* fmt.Errorf("prefix%w", cause) *)

(** [err.Error()] *)
Fixpoint Error (e : error) : string :=
  match e with
  | ErrRecordNotFound => "record not found"
  | ErrDriver msg => msg
  | ErrNew msg => msg
  | ErrWrap prefix cause => prefix ++ Error cause
  end.

(** [errors.Is(e, gorm.ErrRecordNotFound)] on a non-nil error: the chain of
    wrapped causes is searched. *)
Fixpoint is_ErrRecordNotFound (e : error) : bool :=
  match e with
  | ErrRecordNotFound => true
  | ErrWrap _ cause => is_ErrRecordNotFound cause
  | _ => false
  end.

(** [errors.Is(err, gorm.ErrRecordNotFound)], [err] possibly nil. *)
Definition errors_Is_ErrRecordNotFound (err : option error) : bool :=
  match err with
  | Some e => is_ErrRecordNotFound e
  | None => false
  end.

(** [err != nil] *)
Definition not_nil (err : option error) : bool :=
  match err with Some _ => true | None => false end.

Definition time := Z.
Definition zero_time : time := 0.

Definition uuid_t := string.
(** [uuid.Nil] *)
Definition uuid_Nil : uuid_t := "00000000-0000-0000-0000-000000000000".

(** Machine integers: [uint] values are kept in [N], [int64] values in [Z];
    both are 64 bits wide. A division by zero is a run-time panic. *)
Inductive outcome (A : Type) : Type :=
| Returns (a : A)
| Panics (msg : string).
Arguments Returns {A} a.
Arguments Panics {A} msg.

Definition uint_modulus : N := 2 ^ 64.
Definition uint_wrap (n : N) : N := (n mod uint_modulus)%N.
Definition uint_mul (a b : N) : N := uint_wrap (a * b).
Definition uint_div (a b : N) : outcome N :=
  if N.eqb b 0 then Panics "runtime error: integer divide by zero"
  else Returns (a / b)%N.

Definition int64_wrap (z : Z) : Z := (z + 2 ^ 63) mod 2 ^ 64 - 2 ^ 63.
Definition int64_mul (a b : Z) : Z := int64_wrap (a * b).
Definition int64_div (a b : Z) : outcome Z :=
  if Z.eqb b 0 then Panics "runtime error: integer divide by zero"
  else Returns (Z.quot a b).

(** [float64(n)] for a [uint] or [int64]: the nearest double, ties to even.
    Every double this code handles is a whole number and is kept as that
    number. Below [2^53] the conversion is exact; from there on a double
    has 53 significant bits. *)
Definition float64_of_N (n : N) : N :=
  if (n <? 2 ^ 53)%N then n
  else
    let e := (N.log2 n - 52)%N in
    let q := (n / 2 ^ e)%N in
    let r := (n mod 2 ^ e)%N in
    let half := (2 ^ (e - 1))%N in
    let q' := if (r <? half)%N then q
              else if (half <? r)%N then (q + 1)%N
              else if N.even q then q else (q + 1)%N in
    (q' * 2 ^ e)%N.

Definition float64_of_int64 (z : Z) : Z :=
  if z <? 0 then - Z.of_N (float64_of_N (Z.abs_N z))
  else Z.of_N (float64_of_N (Z.abs_N z)).

(** [math.Round] leaves a whole number as it is. *)
Definition math_Round (x : Z) : Z := x.

(** HTTP status codes of net/http. *)
Definition StatusOK : Z := 200.
Definition StatusCreated : Z := 201.
Definition StatusBadRequest : Z := 400.
Definition StatusUnauthorized : Z := 401.
Definition StatusNotFound : Z := 404.
Definition StatusNotAcceptable : Z := 406.
Definition StatusInternalServerError : Z := 500.

End Go.
Import Go.

(** ** Rows

    The struct declarations live outside the files at hand; each record has
    the fields that the functions and their tests read or write. *)

Definition TicketStatus := string.

Record Tickets : Type := mkTickets {
  UUID : Go.uuid_t;
  TicketGroup : option Go.uuid_t;
  FeatureUUID : string;
  PhaseUUID : string;
  Name : string;
  Sequence : Z;
  Description : string;
  Status : TicketStatus;
  Version : Z;
  Author : option string;
  AuthorID : option string;
  CreatedAt : time;
  UpdatedAt : time
}.

(** [Tickets{}] *)
Definition Tickets_zero : Tickets :=
  mkTickets uuid_Nil None "" "" "" 0 "" "" 0 None None zero_time zero_time.

Record Workspace : Type := mkWorkspace {
  ws_ID : Z;
  ws_Uuid : string;
  ws_Name : string;
  ws_OwnerPubKey : string;
  ws_Description : string
}.

Definition Workspace_zero : Workspace := mkWorkspace 0 "" "" "" "".

Record WorkspaceFeatures : Type := mkWorkspaceFeatures {
  wf_ID : Z;
  wf_Uuid : string;
  wf_WorkspaceUuid : string;
  wf_Name : string;
  wf_Url : string;
  wf_Priority : Z;
  wf_CreatedBy : string;
  wf_UpdatedBy : string
}.

Definition WorkspaceFeatures_zero : WorkspaceFeatures :=
  mkWorkspaceFeatures 0 "" "" "" "" 0 "" "".

Record FeaturePhase : Type := mkFeaturePhase {
  fp_Uuid : string;
  fp_FeatureUuid : string;
  fp_Name : string;
  fp_Priority : Z
}.

Record FeatureStory : Type := mkFeatureStory {
  fs_ID : Z;
  fs_Uuid : string;
  fs_FeatureUuid : string;
  fs_Description : string;
  fs_Priority : Z;
  fs_Created : option time;
  fs_Updated : option time;
  fs_CreatedBy : string;
  fs_UpdatedBy : string
}.

Definition FeatureStory_zero : FeatureStory :=
  mkFeatureStory 0 "" "" "" 0 None None "" "".

Record NewBounty : Type := mkNewBounty {
  b_ID : Z;
  b_OwnerID : string;
  b_Paid : bool;
  b_Show : bool;
  b_Completed : bool;
  b_Type : string;
  b_Price : N;
  b_Title : string;
  b_Assignee : string;
  b_WorkspaceUuid : string;
  b_Description : string;
  b_WantedType : string;
  b_Created : Z;
  b_Updated : option time;
  b_CodingLanguages : list string;
  b_PhaseUuid : string;
  b_FeatureUuid : string
}.

Record ChatMessage : Type := mkChatMessage {
  cm_ID : string;
  cm_ChatID : string;
  cm_Message : string;
  cm_Role : string;
  cm_Timestamp : time;
  cm_Status : string;
  cm_Source : string
}.

Definition ChatMessage_zero : ChatMessage :=
  mkChatMessage "" "" "" "" zero_time "" "".

(** ** The store *)

Module Store.

Record tables : Type := mkTables {
  tickets : list Tickets;
  workspaces : list Workspace;
  workspace_features : list WorkspaceFeatures;
  feature_phases : list FeaturePhase;
  feature_stories : list FeatureStory;
  bounty : list NewBounty;
  chat_messages : list ChatMessage
}.

(** [faults] holds, for each statement still to be sent, whether the driver
    fails it ([Some msg]) or runs it ([None]); past its end every statement
    runs. *)
Record database : Type := mkDatabase {
  tbl : tables;
  faults : list (option string)
}.

Definition M := state database.

Definition with_tickets (ts : list Tickets) (t : tables) : tables :=
  mkTables ts (workspaces t) (workspace_features t) (feature_phases t)
           (feature_stories t) (bounty t) (chat_messages t).

Definition with_workspace_features (fs : list WorkspaceFeatures) (t : tables) : tables :=
  mkTables (tickets t) (workspaces t) fs (feature_phases t)
           (feature_stories t) (bounty t) (chat_messages t).

Definition with_feature_stories (ss : list FeatureStory) (t : tables) : tables :=
  mkTables (tickets t) (workspaces t) (workspace_features t) (feature_phases t)
           ss (bounty t) (chat_messages t).

Definition with_bounty (bs : list NewBounty) (t : tables) : tables :=
  mkTables (tickets t) (workspaces t) (workspace_features t) (feature_phases t)
           (feature_stories t) bs (chat_messages t).

Definition with_chat_messages (ms : list ChatMessage) (t : tables) : tables :=
  mkTables (tickets t) (workspaces t) (workspace_features t) (feature_phases t)
           (feature_stories t) (bounty t) ms.

(** Sending one statement: the driver's verdict on it. *)
Definition send : M (option error) :=
  d <- get ;;
  match faults d with
  | [] => ret None
  | f :: rest =>
      put (mkDatabase (tbl d) rest) ;;
      ret (option_map ErrDriver f)
  end.

(** The driver's verdict on the next statement, and the store once that
    statement has been sent and has changed no table. *)
Definition verdict (d : database) : option error :=
  match faults d with
  | [] => None
  | f :: _ => option_map ErrDriver f
  end.

Definition sent (d : database) : database :=
  mkDatabase (tbl d) (tl (faults d)).

(** A statement that reads: [q] computes its answer from the tables. *)
Definition query {A : Type} (q : tables -> A) : M (A + error) :=
  verdict <- send ;;
  match verdict with
  | Some e => ret (inr e)
  | None => d <- get ;; ret (inl (q (tbl d)))
  end.

(** A statement that writes: [w] is its effect on the tables. *)
Definition exec (w : tables -> tables) : M (option error) :=
  verdict <- send ;;
  match verdict with
  | Some e => ret (Some e)
  | None => d <- get ;; put (mkDatabase (w (tbl d)) (faults d)) ;; ret None
  end.

(** The next value of a serial primary key. *)
Definition next_id (ids : list Z) : Z := 1 + fold_right Z.max 0 ids.

End Store.
Import Store.

(** ** db: the feature, workspace, bounty and chat queries

    These functions of package [db] are called by the code at hand but their
    bodies are not part of it. *)

Module DbSpec.

(** Modelled from the spec: [GetWorkspaceByUuid], whose body is missing; "a
    Feature's Workspace must exist before a Feature can be created", the
    handler telling existence by comparing the UUID of the row it gets back.
    A lookup that finds nothing, or that the driver fails, leaves the zero
    value. *)
Definition GetWorkspaceByUuid (uuid : string) : M Workspace :=
  r <- query (fun t => find (fun w => String.eqb (ws_Uuid w) uuid) (workspaces t)) ;;
  match r with
  | inl (Some w) => ret w
  | _ => ret Workspace_zero
  end.

(** Modelled from the spec: [GetFeatureByUuid], whose body is missing;
    "bounty conversion reads the Feature to obtain its Workspace". A lookup
    that finds nothing, or that the driver fails, leaves the zero value. *)
Definition GetFeatureByUuid (uuid : string) : M WorkspaceFeatures :=
  r <- query (fun t => find (fun f => String.eqb (wf_Uuid f) uuid) (workspace_features t)) ;;
  match r with
  | inl (Some f) => ret f
  | _ => ret WorkspaceFeatures_zero
  end.

(** Modelled from the spec: [CreateOrEditFeature], whose body is missing;
    a feature is "created via upsert-by-UUID": an unknown UUID inserts a row
    under the next serial id, a known one overwrites the row's fields other
    than its id. *)
Definition set_wf_ID (id : Z) (f : WorkspaceFeatures) : WorkspaceFeatures :=
  mkWorkspaceFeatures id (wf_Uuid f) (wf_WorkspaceUuid f) (wf_Name f) (wf_Url f)
                      (wf_Priority f) (wf_CreatedBy f) (wf_UpdatedBy f).

Definition CreateOrEditFeature (m : WorkspaceFeatures)
  : M (WorkspaceFeatures * option error) :=
  r <- query (fun t => (find (fun f => String.eqb (wf_Uuid f) (wf_Uuid m))
                             (workspace_features t),
                        next_id (map wf_ID (workspace_features t)))) ;;
  match r with
  | inr e => ret (WorkspaceFeatures_zero, Some e)
  | inl (None, id) =>
      let row := set_wf_ID id m in
      err <- exec (fun t => with_workspace_features (workspace_features t ++ [row]) t) ;;
      match err with
      | Some e => ret (WorkspaceFeatures_zero, Some e)
      | None => ret (row, None)
      end
  | inl (Some old, _) =>
      let row := set_wf_ID (wf_ID old) m in
      err <- exec (fun t =>
               with_workspace_features
                 (map (fun f => if String.eqb (wf_Uuid f) (wf_Uuid m) then row else f)
                      (workspace_features t)) t) ;;
      match err with
      | Some e => ret (WorkspaceFeatures_zero, Some e)
      | None => ret (row, None)
      end
  end.

(** Modelled from the spec: [CreateOrEditFeatureStory], whose body is
    missing; a story "belongs to exactly one Feature" and is upserted by its
    UUID like a feature. *)
Definition set_fs_ID (id : Z) (s : FeatureStory) : FeatureStory :=
  mkFeatureStory id (fs_Uuid s) (fs_FeatureUuid s) (fs_Description s)
                 (fs_Priority s) (fs_Created s) (fs_Updated s) (fs_CreatedBy s)
                 (fs_UpdatedBy s).

Definition CreateOrEditFeatureStory (story : FeatureStory)
  : M (FeatureStory * option error) :=
  r <- query (fun t => (find (fun s => String.eqb (fs_Uuid s) (fs_Uuid story))
                             (feature_stories t),
                        next_id (map fs_ID (feature_stories t)))) ;;
  match r with
  | inr e => ret (FeatureStory_zero, Some e)
  | inl (None, id) =>
      let row := set_fs_ID id story in
      err <- exec (fun t => with_feature_stories (feature_stories t ++ [row]) t) ;;
      match err with
      | Some e => ret (FeatureStory_zero, Some e)
      | None => ret (row, None)
      end
  | inl (Some old, _) =>
      let row := set_fs_ID (fs_ID old) story in
      err <- exec (fun t =>
               with_feature_stories
                 (map (fun s => if String.eqb (fs_Uuid s) (fs_Uuid story) then row else s)
                      (feature_stories t)) t) ;;
      match err with
      | Some e => ret (FeatureStory_zero, Some e)
      | None => ret (row, None)
      end
  end.

(** [r.URL.Query().Get]: the value of a key, [""] when the key is absent. *)
Definition url_values := string -> string.

Fixpoint insert_by {A : Type} (le : A -> A -> bool) (x : A) (l : list A) : list A :=
  match l with
  | [] => [x]
  | y :: l' => if le x y then x :: l else y :: insert_by le x l'
  end.

Definition sort_by {A : Type} (le : A -> A -> bool) (l : list A) : list A :=
  fold_right (insert_by le) [] l.

Section BountyQuery.

(** What the URL query of a listing request asks for: the rows it keeps
    (status, language, tag and search filters), their order (sort key and
    direction) and the page (offset and limit, when there is one). *)
Variable keeps : url_values -> NewBounty -> bool.
Variable before : url_values -> NewBounty -> NewBounty -> bool.
Variable page : url_values -> option (nat * nat).

(** Modelled from the spec: which bounties belong to a feature/phase pair,
    for the missing [GetBountiesByFeatureAndPhaseUuid]; a bounty is "linked
    to Feature/Phase via UUID foreign references": it points at the phase,
    and the phase is one of the feature. *)
Definition of_feature_phase (featureUuid phaseUuid : string) (t : tables)
           (b : NewBounty) : bool :=
  String.eqb (b_PhaseUuid b) phaseUuid
  && existsb (fun p => String.eqb (fp_Uuid p) phaseUuid
                       && String.eqb (fp_FeatureUuid p) featureUuid)
             (feature_phases t).

(** Modelled from the spec: the "offset/limit pagination" of that query. *)
Definition paginate (q : url_values) (rows : list NewBounty) : list NewBounty :=
  match page q with
  | Some (offset, limit) => firstn limit (skipn offset rows)
  | None => rows
  end.

(** Modelled from the spec: the rows of that query; the filters "compose
    conjunctively", then comes the sort, then the page. *)
Definition select_bounties (featureUuid phaseUuid : string) (q : url_values)
           (t : tables) : list NewBounty :=
  paginate q
    (sort_by (before q)
       (filter (fun b => of_feature_phase featureUuid phaseUuid t b && keeps q b)
               (bounty t))).

(** Modelled from the spec: [GetBountiesByFeatureAndPhaseUuid] of package
    [db], whose body is missing; it "supports filter composition", sort
    and "offset/limit pagination", and "UUIDs for a feature/phase pair
    with zero matching bounties ... are both reported as not-found": a
    selection without rows is an error. *)
Definition GetBountiesByFeatureAndPhaseUuid
           (featureUuid phaseUuid : string) (q : url_values)
  : M (list NewBounty * option error) :=
  r <- query (select_bounties featureUuid phaseUuid q) ;;
  match r with
  | inr e => ret ([], Some e)
  | inl [] => ret ([], Some (ErrNew "no bounty found"))
  | inl rows => ret (rows, None)
  end.

End BountyQuery.

(** Modelled from the spec: [GetChatMessagesForChatID], whose body is
    missing; a "ChatMessage belongs to a Chat" and "messages are
    append-only": the history of a chat is its messages in the order they
    were appended. *)
Definition GetChatMessagesForChatID (chatID : string)
  : M (list ChatMessage * option error) :=
  r <- query (fun t => filter (fun m => String.eqb (cm_ChatID m) chatID)
                              (chat_messages t)) ;;
  match r with
  | inl rows => ret (rows, None)
  | inr e => ret ([], Some e)
  end.

(** Modelled from the spec: [AddChatMessage], whose body is missing; it
    "persists the new user message": the message is appended as it is. *)
Definition AddChatMessage (message : ChatMessage)
  : M (ChatMessage * option error) :=
  err <- exec (fun t => with_chat_messages (chat_messages t ++ [message]) t) ;;
  match err with
  | Some e => ret (ChatMessage_zero, Some e)
  | None => ret (message, None)
  end.

(** Modelled from the spec: [UpdateChatMessage], whose body is missing;
    "status transitions happen in place": the stored message of the same id
    is replaced. *)
Definition UpdateChatMessage (message : ChatMessage)
  : M (ChatMessage * option error) :=
  err <- exec (fun t =>
           with_chat_messages
             (map (fun m => if String.eqb (cm_ID m) (cm_ID message) then message else m)
                  (chat_messages t)) t) ;;
  match err with
  | Some e => ret (ChatMessage_zero, Some e)
  | None => ret (message, None)
  end.

End DbSpec.

(** ** db/tickets.go *)

Module TicketsDb.

(** Modelled from the spec: the constant [DraftTicket], declared outside the
    files at hand like the six that follow; the spec lists the statuses as
    "draft, ready, in-progress, test, deploy, pay, completed". *)
Definition DraftTicket : TicketStatus := "draft".
(** Modelled from the spec: the constant [ReadyTicket], "ready". *)
Definition ReadyTicket : TicketStatus := "ready".
(** Modelled from the spec: the constant [InProgressTicket], "in-progress". *)
Definition InProgressTicket : TicketStatus := "in-progress".
(** Modelled from the spec: the constant [TestTicket], "test". *)
Definition TestTicket : TicketStatus := "test".
(** Modelled from the spec: the constant [DeployTicket], "deploy". *)
Definition DeployTicket : TicketStatus := "deploy".
(** Modelled from the spec: the constant [PayTicket], "pay". *)
Definition PayTicket : TicketStatus := "pay".
(** Modelled from the spec: the constant [CompletedTicket], "completed". *)
Definition CompletedTicket : TicketStatus := "completed".

(** The seven values that the switch of [IsValidTicketStatus] lists. *)
Definition ticket_statuses : list TicketStatus :=
  [DraftTicket; ReadyTicket; InProgressTicket; TestTicket; DeployTicket;
   PayTicket; CompletedTicket].

Definition IsValidTicketStatus (status : TicketStatus) : bool :=
  if String.eqb status DraftTicket then true
  else if String.eqb status ReadyTicket then true
  else if String.eqb status InProgressTicket then true
  else if String.eqb status TestTicket then true
  else if String.eqb status DeployTicket then true
  else if String.eqb status PayTicket then true
  else if String.eqb status CompletedTicket then true
  else false.

(** *** The gorm calls on the tickets table *)

Definition has_uuid (u : Go.uuid_t) (t : Tickets) : bool := String.eqb (UUID t) u.

(** [db.Where("uuid = ?", u).First(&dest)]: the row and [result.Error]. *)
Definition First (u : Go.uuid_t) : M (Tickets * option error) :=
  r <- query (fun t => find (has_uuid u) (tickets t)) ;;
  match r with
  | inl (Some row) => ret (row, None)
  | inl None => ret (Tickets_zero, Some ErrRecordNotFound)
  | inr e => ret (Tickets_zero, Some e)
  end.

(** [db.Model(&Tickets{}).Where("uuid = ?", u).Find(&dest)]: the row,
    [results.RowsAffected] and [results.Error]. *)
Definition Find (u : string) : M (Tickets * Z * option error) :=
  r <- query (fun t => find (has_uuid u) (tickets t)) ;;
  match r with
  | inl (Some row) => ret (row, 1, None)
  | inl None => ret (Tickets_zero, 0, None)
  | inr e => ret (Tickets_zero, 0, Some e)
  end.

(** [db.Create(&ticket)] *)
Definition Create (ticket : Tickets) : M (option error) :=
  exec (fun t => with_tickets (tickets t ++ [ticket]) t).

(** The fields of [ticket] that gorm's [Updates] writes are those that are
    not the zero value of their type. *)
Definition pick_string (new old : string) : string :=
  if String.eqb new "" then old else new.
Definition pick_int (new old : Z) : Z :=
  if Z.eqb new 0 then old else new.
Definition pick_ptr {A : Type} (new old : option A) : option A :=
  match new with Some _ => new | None => old end.
Definition pick_uuid (new old : Go.uuid_t) : Go.uuid_t :=
  if String.eqb new uuid_Nil then old else new.

Definition assign_nonzero (ticket row : Tickets) : Tickets :=
  {| UUID := pick_uuid (UUID ticket) (UUID row);
     TicketGroup := pick_ptr (TicketGroup ticket) (TicketGroup row);
     FeatureUUID := pick_string (FeatureUUID ticket) (FeatureUUID row);
     PhaseUUID := pick_string (PhaseUUID ticket) (PhaseUUID row);
     Name := pick_string (Name ticket) (Name row);
     Sequence := pick_int (Sequence ticket) (Sequence row);
     Description := pick_string (Description ticket) (Description row);
     Status := pick_string (Status ticket) (Status row);
     Version := pick_int (Version ticket) (Version row);
     Author := pick_ptr (Author ticket) (Author row);
     AuthorID := pick_ptr (AuthorID ticket) (AuthorID row);
     CreatedAt := pick_int (CreatedAt ticket) (CreatedAt row);
     UpdatedAt := pick_int (UpdatedAt ticket) (UpdatedAt row) |}.

(** [db.Model(&existing).Updates(ticket)]: the rows with the primary key of
    [existing] get the non-zero fields of [ticket]. *)
Definition Updates (existing ticket : Tickets) : M (option error) :=
  exec (fun t =>
    with_tickets
      (map (fun row => if has_uuid (UUID existing) row
                       then assign_nonzero ticket row else row)
           (tickets t)) t).

Definition set_UpdatedAt (now : time) (t : Tickets) : Tickets :=
  mkTickets (UUID t) (TicketGroup t) (FeatureUUID t) (PhaseUUID t) (Name t)
            (Sequence t) (Description t) (Status t) (Version t) (Author t)
            (AuthorID t) (CreatedAt t) now.

Definition set_CreatedAt (now : time) (t : Tickets) : Tickets :=
  mkTickets (UUID t) (TicketGroup t) (FeatureUUID t) (PhaseUUID t) (Name t)
            (Sequence t) (Description t) (Status t) (Version t) (Author t)
            (AuthorID t) now (UpdatedAt t).

Definition set_Status (s : TicketStatus) (t : Tickets) : Tickets :=
  mkTickets (UUID t) (TicketGroup t) (FeatureUUID t) (PhaseUUID t) (Name t)
            (Sequence t) (Description t) s (Version t) (Author t)
            (AuthorID t) (CreatedAt t) (UpdatedAt t).

(** *** The functions of the file *)

(** [now] is what [time.Now()] returns during the call. The stamps that the
    function writes into the caller's ticket show in the ticket it returns. *)
Definition CreateOrEditTicket (now : time) (ticket : Tickets)
  : M (Tickets * option error) :=
  if String.eqb (UUID ticket) uuid_Nil then
    ret (Tickets_zero, Some (ErrNew "ticket UUID is required"))
  else if negb (String.eqb (Status ticket) "")
          && negb (IsValidTicketStatus (Status ticket)) then
    ret (Tickets_zero, Some (ErrNew "invalid ticket status"))
  else
    '(existingTicket, result_Error) <- First (UUID ticket) ;;
    let ticket := set_UpdatedAt now ticket in
    if errors_Is_ErrRecordNotFound result_Error then
      let ticket := set_CreatedAt now ticket in
      let ticket :=
        if String.eqb (Status ticket) "" then set_Status DraftTicket ticket
        else ticket in
      err <- Create ticket ;;
      match err with
      | Some e => ret (Tickets_zero, Some (ErrWrap "failed to create ticket: " e))
      | None => ret (ticket, None)
      end
    else
      match result_Error with
      | Some e => ret (Tickets_zero, Some (ErrWrap "database error: " e))
      | None =>
          err <- Updates existingTicket ticket ;;
          match err with
          | Some e => ret (Tickets_zero, Some (ErrWrap "failed to update ticket: " e))
          | None =>
              '(updatedTicket, err) <- First (UUID ticket) ;;
              match err with
              | Some e =>
                  ret (Tickets_zero,
                       Some (ErrWrap "failed to fetch updated ticket: " e))
              | None => ret (updatedTicket, None)
              end
          end
      end.

Definition GetTicket (uuid : string) : M (Tickets * option error) :=
  '(ticket, RowsAffected, results_Error) <- Find uuid ;;
  match results_Error with
  | Some e => ret (Tickets_zero, Some (ErrWrap "failed to get ticket: " e))
  | None =>
      if Z.eqb RowsAffected 0 then
        ret (Tickets_zero, Some (ErrNew "ticket not found"))
      else ret (ticket, None)
  end.

Definition UpdateTicket (now : time) (ticket : Tickets)
  : M (Tickets * option error) :=
  if String.eqb (UUID ticket) uuid_Nil then
    ret (Tickets_zero, Some (ErrNew "ticket UUID is required"))
  else if negb (String.eqb (Status ticket) "")
          && negb (IsValidTicketStatus (Status ticket)) then
    ret (Tickets_zero, Some (ErrNew "invalid ticket status"))
  else
    '(existingTicket, result_Error) <- First (UUID ticket) ;;
    let ticket := set_UpdatedAt now ticket in
    match result_Error with
    | Some e =>
        if is_ErrRecordNotFound e then
          let ticket := set_CreatedAt now ticket in
          let ticket :=
            if String.eqb (Status ticket) "" then set_Status DraftTicket ticket
            else ticket in
          err <- Create ticket ;;
          match err with
          | Some e' => ret (Tickets_zero, Some (ErrWrap "failed to create ticket: " e'))
          | None => ret (ticket, None)
          end
        else ret (Tickets_zero, Some (ErrWrap "database error: " e))
    | None =>
        err <- Updates existingTicket ticket ;;
        match err with
        | Some e => ret (Tickets_zero, Some (ErrWrap "failed to update ticket: " e))
        | None =>
            '(updatedTicket, err) <- First (UUID ticket) ;;
            match err with
            | Some e =>
                ret (Tickets_zero,
                     Some (ErrWrap "failed to fetch updated ticket: " e))
            | None => ret (updatedTicket, None)
            end
        end
    end.

(** [db.Create(bounty)] on the bounty table: the row gets the next serial
    id, which is written back into [bounty]. *)
Definition set_b_ID (id : Z) (b : NewBounty) : NewBounty :=
  mkNewBounty id (b_OwnerID b) (b_Paid b) (b_Show b) (b_Completed b) (b_Type b)
              (b_Price b) (b_Title b) (b_Assignee b) (b_WorkspaceUuid b)
              (b_Description b) (b_WantedType b) (b_Created b) (b_Updated b)
              (b_CodingLanguages b) (b_PhaseUuid b) (b_FeatureUuid b).

Definition stored_bounty (b : NewBounty) (t : tables) : NewBounty :=
  if Z.eqb (b_ID b) 0 then set_b_ID (next_id (map b_ID (bounty t))) b else b.

Definition CreateBounty (b : NewBounty) : M (NewBounty * option error) :=
  d <- get ;;
  let row := stored_bounty b (tbl d) in
  err <- exec (fun t => with_bounty (bounty t ++ [row]) t) ;;
  match err with
  | Some e => ret (b, Some e)
  | None => ret (row, None)
  end.

(** A nil [*NewBounty] is [None]. *)
Definition CreateBountyFromTicket (now : time) (ticket : Tickets) (pubkey : string)
  : M (option NewBounty * option error) :=
  feature <- DbSpec.GetFeatureByUuid (FeatureUUID ticket) ;;
  let bounty :=
    {| b_ID := 0;
       b_OwnerID := pubkey;
       b_Paid := false;
       b_Show := true;
       b_Completed := false;
       b_Type := "freelance_job_request";
       b_Price := 21%N;
       b_Title := Name ticket;
       b_Assignee := "";
       b_WorkspaceUuid := wf_WorkspaceUuid feature;
       b_Description := Description ticket;
       b_WantedType := "Other";
       b_Created := now;
       b_Updated := Some now;
       b_CodingLanguages := [];
       b_PhaseUuid := PhaseUUID ticket;
       b_FeatureUuid := FeatureUUID ticket |} in
  '(bounty, err) <- CreateBounty bounty ;;
  match err with
  | Some e => ret (None, Some (ErrWrap "failed to create bounty: " e))
  | None => ret (Some bounty, None)
  end.

(** *** The other functions of the file *)

(** [ticket_group = ?]: a NULL group equals nothing. *)
Definition in_group (g : string) (t : Tickets) : bool :=
  match TicketGroup t with
  | Some g' => String.eqb g' g
  | None => false
  end.

(** A [Find(&tickets)] into a slice: the rows that [q] selects, in the order
    in which it gives them, [result.RowsAffected] and [result.Error]. *)
Definition FindAll (q : tables -> list Tickets) : M (list Tickets * Z * option error) :=
  r <- query q ;;
  match r with
  | inl rows => ret (rows, Z.of_nat (List.length rows), None)
  | inr e => ret ([], 0, Some e)
  end.

Definition GetTicketsByGroup (ticketGroupUUID : string)
  : M (list Tickets * option error) :=
  '(tickets, _, result_Error) <-
    FindAll (fun t => filter (in_group ticketGroupUUID) (Store.tickets t)) ;;
  match result_Error with
  | Some e => ret ([], Some (ErrWrap "failed to fetch tickets by group: " e))
  | None => ret (tickets, None)
  end.

(** [db.Where("uuid = ?", u).Delete(&Tickets{})]: the rows of that UUID go;
    [result.RowsAffected] counts them. *)
Definition Delete (u : string) : M (Z * option error) :=
  d <- get ;;
  let n := List.length (filter (has_uuid u) (tickets (tbl d))) in
  err <- exec (fun t => with_tickets (filter (fun row => negb (has_uuid u row)) (tickets t)) t) ;;
  match err with
  | Some e => ret (0, Some e)
  | None => ret (Z.of_nat n, None)
  end.

Definition DeleteTicket (uuid : string) : M (option error) :=
  '(RowsAffected, result_Error) <- Delete uuid ;;
  match result_Error with
  | Some e => ret (Some (ErrWrap "failed to delete ticket: " e))
  | None =>
      if Z.eqb RowsAffected 0 then ret (Some (ErrNew "ticket not found"))
      else ret None
  end.

(** [ORDER BY sequence ASC]; rows of one sequence number come in the order
    of the store. *)
Definition by_sequence (a b : Tickets) : bool := Z.leb (Sequence a) (Sequence b).

Definition of_phase (featureUUID phaseUUID : string) (t : Tickets) : bool :=
  String.eqb (FeatureUUID t) featureUUID && String.eqb (PhaseUUID t) phaseUUID.

Definition GetTicketsByPhaseUUID (featureUUID phaseUUID : string)
  : M (list Tickets * option error) :=
  '(tickets, RowsAffected, result_Error) <-
    FindAll (fun t => DbSpec.sort_by by_sequence
                        (filter (of_phase featureUUID phaseUUID) (Store.tickets t))) ;;
  match result_Error with
  | Some e => ret ([], Some (ErrWrap "failed to fetch tickets: " e))
  | None =>
      if Z.eqb RowsAffected 0 then ret ([], None)
      else ret (tickets, None)
  end.

(** [ticket_group IS NULL OR ticket_group = uuid.Nil] *)
Definition without_group (t : Tickets) : bool :=
  match TicketGroup t with
  | None => true
  | Some g => String.eqb g uuid_Nil
  end.

Definition GetTicketsWithoutGroup : M (list Tickets * option error) :=
  '(tickets, RowsAffected, result_Error) <-
    FindAll (fun t => filter without_group (Store.tickets t)) ;;
  match result_Error with
  | Some e => ret ([], Some (ErrWrap "failed to fetch tickets: " e))
  | None =>
      if Z.eqb RowsAffected 0 then ret ([], None)
      else ret (tickets, None)
  end.

(** The map that [UpdateTicketsWithoutGroup] hands to [Updates]: the keys
    ["ticket_group"], ["author_id"] and ["author"], the last two present
    only when the function puts them. *)
Record group_data : Type := mkGroupData {
  data_ticket_group : Go.uuid_t;
  data_author_id : option string;
  data_author : option string
}.

(** [Updates] with a map writes every key of the map and, the model having
    an [UpdatedAt] field, the time of the update, [now]. *)
Definition assign_data (now : time) (data : group_data) (row : Tickets) : Tickets :=
  mkTickets (UUID row) (Some (data_ticket_group data)) (FeatureUUID row)
            (PhaseUUID row) (Name row) (Sequence row) (Description row)
            (Status row) (Version row)
            (match data_author data with Some a => Some a | None => Author row end)
            (match data_author_id data with Some a => Some a | None => AuthorID row end)
            (CreatedAt row) now.

Definition UpdateTicketsWithoutGroup (now : time) (ticket : Tickets) : M (option error) :=
  let data :=
    {| data_ticket_group := UUID ticket;
       data_author_id := match AuthorID ticket with
                         | None => Some "12345"
                         | Some _ => None
                         end;
       data_author := match Author ticket with
                      | None => Some "HUMAN"
                      | Some _ => None
                      end |} in
  result_Error <-
    exec (fun t =>
      with_tickets
        (map (fun row => if has_uuid (UUID ticket) row then assign_data now data row
                        else row)
             (tickets t)) t) ;;
  match result_Error with
  | Some e => ret (Some (ErrWrap "failed to update ticket: " e))
  | None => ret None
  end.

(** [ORDER BY version DESC], to which [First] adds the primary key, the
    UUID, as the last sort key; UUIDs compare as their texts do. *)
Definition by_version_desc (a b : Tickets) : bool :=
  Z.ltb (Version b) (Version a)
  || (Z.eqb (Version a) (Version b) && String.leb (UUID a) (UUID b)).

Definition GetLatestTicketByGroup (ticketGroup : Go.uuid_t)
  : M (Tickets * option error) :=
  r <- query (fun t => hd_error (DbSpec.sort_by by_version_desc
                                   (filter (in_group ticketGroup) (tickets t)))) ;;
  match r with
  | inl (Some ticket) => ret (ticket, None)
  | inl None =>
      ret (Tickets_zero, Some (ErrNew ("no tickets found for group " ++ ticketGroup)))
  | inr e => ret (Tickets_zero, Some (ErrWrap "failed to fetch latest ticket: " e))
  end.

(** [SELECT DISTINCT ticket_group ... WHERE ticket_group IS NOT NULL] *)
Fixpoint groups_of (rows : list Tickets) : list Go.uuid_t :=
  match rows with
  | [] => []
  | row :: rest =>
      match TicketGroup row with
      | Some g => g :: groups_of rest
      | None => groups_of rest
      end
  end.

Definition GetAllTicketGroups : M (list Go.uuid_t * option error) :=
  r <- query (fun t => nodup string_dec (groups_of (tickets t))) ;;
  match r with
  | inl groups => ret (groups, None)
  | inr e => ret ([], Some (ErrWrap "failed to fetch ticket groups: " e))
  end.

(** The ticket that an upsert of an unknown UUID stores: stamped with the
    time of the call, a draft when it names no status. *)
Definition created_ticket (now : time) (ticket : Tickets) : Tickets :=
  let ticket := set_CreatedAt now (set_UpdatedAt now ticket) in
  if String.eqb (Status ticket) "" then set_Status DraftTicket ticket else ticket.

(** The fields that a payload leaves at their zero value keep the value of the
    row; [UpdatedAt] is not among them: the function stamps it. *)
Definition retains (ticket old new : Tickets) : Prop :=
  (Name ticket = "" -> Name new = Name old)
  /\ (FeatureUUID ticket = "" -> FeatureUUID new = FeatureUUID old)
  /\ (PhaseUUID ticket = "" -> PhaseUUID new = PhaseUUID old)
  /\ (Description ticket = "" -> Description new = Description old)
  /\ (Status ticket = "" -> Status new = Status old)
  /\ (Sequence ticket = 0 -> Sequence new = Sequence old)
  /\ (Version ticket = 0 -> Version new = Version old)
  /\ (TicketGroup ticket = None -> TicketGroup new = TicketGroup old)
  /\ (Author ticket = None -> Author new = Author old)
  /\ (AuthorID ticket = None -> AuthorID new = AuthorID old)
  /\ (CreatedAt ticket = zero_time -> CreatedAt new = CreatedAt old).

End TicketsDb.

(** ** HTTP requests and responses *)

Module Http.

(** What a handler reads of a request: the caller's public key that the
    auth middleware put in the context ([""] when there is none), the route
    parameters, the URL query and the JSON body as the decoder reads it
    ([None] when it is not valid JSON for the target type). *)
Record Request (B : Type) : Type := mkRequest {
  ctx_pubkey : string;
  URLParam : string -> string;
  URL_Query : DbSpec.url_values;
  json_body : option B
}.
Arguments mkRequest {B}.
Arguments ctx_pubkey {B}.
Arguments URLParam {B}.
Arguments URL_Query {B}.
Arguments json_body {B}.

(** What was written as JSON: a string or a value. *)
Inductive Json (A : Type) : Type :=
| JString (s : string)
| JValue (a : A).
Arguments JString {A}.
Arguments JValue {A}.

(** The status code given to [WriteHeader] and the body written after it. *)
Record Response (A : Type) : Type := mkResponse {
  code : Z;
  written : option (Json A)
}.
Arguments mkResponse {A}.
Arguments code {A}.
Arguments written {A}.

End Http.
Import Http.

(** ** handlers/features.go *)

Module FeatureHandlers.

Definition set_wf_CreatedBy (k : string) (f : WorkspaceFeatures) : WorkspaceFeatures :=
  mkWorkspaceFeatures (wf_ID f) (wf_Uuid f) (wf_WorkspaceUuid f) (wf_Name f)
                      (wf_Url f) (wf_Priority f) k (wf_UpdatedBy f).
Definition set_wf_UpdatedBy (k : string) (f : WorkspaceFeatures) : WorkspaceFeatures :=
  mkWorkspaceFeatures (wf_ID f) (wf_Uuid f) (wf_WorkspaceUuid f) (wf_Name f)
                      (wf_Url f) (wf_Priority f) (wf_CreatedBy f) k.
Definition set_wf_Uuid (u : string) (f : WorkspaceFeatures) : WorkspaceFeatures :=
  mkWorkspaceFeatures (wf_ID f) u (wf_WorkspaceUuid f) (wf_Name f)
                      (wf_Url f) (wf_Priority f) (wf_CreatedBy f) (wf_UpdatedBy f).

(** The webhook payload of the story generator. *)
Record FeatureStories : Type := mkFeatureStories {
  UserStory : string;
  Rationale : string;
  Order : Z
}.
Record FeatureOutput : Type := mkFeatureOutput {
  FeatureContext : string;
  FeatureUuid : string;
  Stories : list FeatureStories
}.
Record FeatureStoriesReponse : Type := mkFeatureStoriesReponse {
  Output : FeatureOutput
}.

Section Handlers.

(** [db.Validate.Struct] on a feature: the rules are the struct tags of
    [WorkspaceFeatures], declared outside the files at hand. *)
Variable Validate_Struct : WorkspaceFeatures -> option error.

(** The identifiers that [xid.New().String()] yields, and the times that
    [time.Now()] returns, call after call during one request. *)
Variable xid_New : nat -> string.
Variable time_Now : nat -> time.

(** The decoded feature as the handler completes it before validating
    it: the caller becomes its creator; without a UUID it gets a fresh
    one, with a UUID the caller becomes its updater as well. *)
Definition stamped (pubKeyFromAuth : string) (features : WorkspaceFeatures)
  : WorkspaceFeatures :=
  let features := set_wf_CreatedBy pubKeyFromAuth features in
  if String.eqb (wf_Uuid features) "" then set_wf_Uuid (xid_New 0) features
  else set_wf_UpdatedBy pubKeyFromAuth features.

Definition CreateOrEditFeatures (r : Request WorkspaceFeatures)
  : M (Response WorkspaceFeatures) :=
  let pubKeyFromAuth := ctx_pubkey r in
  if String.eqb pubKeyFromAuth "" then
    ret (mkResponse StatusUnauthorized None)
  else
    match json_body r with
    | None => ret (mkResponse StatusNotAcceptable None)
    | Some features =>
        let features := stamped pubKeyFromAuth features in
        match Validate_Struct features with
        | Some err =>
            ret (mkResponse StatusBadRequest
                   (Some (JString ("Error: did not pass validation test : "
                                   ++ Error err))))
        | None =>
            workpace <- DbSpec.GetWorkspaceByUuid (wf_WorkspaceUuid features) ;;
            if negb (String.eqb (ws_Uuid workpace) (wf_WorkspaceUuid features)) then
              ret (mkResponse StatusUnauthorized
                     (Some (JString "Workspace does not exists")))
            else
              '(p, err) <- DbSpec.CreateOrEditFeature features ;;
              match err with
              | Some _ => ret (mkResponse StatusBadRequest None)
              | None => ret (mkResponse StatusOK (Some (JValue p)))
              end
        end
    end.

Section Bounties.

Variable keeps : DbSpec.url_values -> NewBounty -> bool.
Variable before : DbSpec.url_values -> NewBounty -> NewBounty -> bool.
Variable page : DbSpec.url_values -> option (nat * nat).

(** The [generateBountyHandler] field of the handler. *)
Variable BountyResponse : Type.
Variable generateBountyHandler : list NewBounty -> list BountyResponse.

Definition GetBountiesByFeatureAndPhaseUuid {B : Type} (r : Request B)
  : M (Response (list BountyResponse)) :=
  let featureUuid := URLParam r "feature_uuid" in
  let phaseUuid := URLParam r "phase_uuid" in
  let pubKeyFromAuth := ctx_pubkey r in
  if String.eqb pubKeyFromAuth "" then
    ret (mkResponse StatusUnauthorized None)
  else
    '(bounties, err) <-
      DbSpec.GetBountiesByFeatureAndPhaseUuid keeps before page
        featureUuid phaseUuid (URL_Query r) ;;
    match err with
    | Some _ => ret (mkResponse StatusNotFound None)
    | None =>
        let bountyResponses := generateBountyHandler bounties in
        ret (mkResponse StatusOK (Some (JValue bountyResponses)))
    end.

End Bounties.

(** The loop of [GetFeatureStories] over the stories still to go; [calls]
    counts the stories stored so far, each of which took one identifier
    and one reading of the clock. *)
Fixpoint store_stories (featureUuid : string) (stories : list FeatureStories)
         (calls : nat) : M unit :=
  match stories with
  | [] => ret tt
  | story :: rest =>
      feature <- DbSpec.GetFeatureByUuid featureUuid ;;
      if Z.eqb (wf_ID feature) 0 then
        store_stories featureUuid rest calls
      else
        let now := time_Now calls in
        let featureStory :=
          {| fs_ID := 0;
             fs_Uuid := xid_New calls;
             fs_FeatureUuid := featureUuid;
             fs_Description := UserStory story;
             fs_Priority := 0;
             fs_Created := Some now;
             fs_Updated := Some now;
             fs_CreatedBy := "";
             fs_UpdatedBy := "" |} in
        _ <- DbSpec.CreateOrEditFeatureStory featureStory ;;
        store_stories featureUuid rest (S calls)
  end.

Definition GetFeatureStories (r : Request FeatureStoriesReponse)
  : M (Response unit) :=
  match json_body r with
  | None => ret (mkResponse StatusNotAcceptable None)
  | Some featureStories =>
      let featureUuid := FeatureUuid (Output featureStories) in
      _ <- store_stories featureUuid (Stories (Output featureStories)) 0 ;;
      ret (mkResponse StatusOK (Some (JString "User stories added successfully")))
  end.

End Handlers.

(** Two states of the tables that differ in the feature stories at most. *)
Definition stories_apart (t t' : tables) : Prop :=
  tickets t' = tickets t
  /\ workspaces t' = workspaces t
  /\ workspace_features t' = workspace_features t
  /\ feature_phases t' = feature_phases t
  /\ bounty t' = bounty t
  /\ chat_messages t' = chat_messages t.

End FeatureHandlers.

(** ** The ticket handler *)

Module TicketHandlers.

Record CreateBountyResponse : Type := mkCreateBountyResponse {
  BountyID : Z;
  Success : bool;
  Message : string
}.

(** Modelled from the spec: the handler [TicketToBounty], of which only the
    test is at hand; it "requires a non-empty ticket UUID and authenticated
    caller; fails not-found if the ticket does not exist; on success,
    derives and persists a new Bounty ... and returns the new bounty's
    identifier"; the caller's absence "yields an unauthorized response
    before any body parsing", the answers being 401, 400, 404, 201 and, for
    an "unexpected persistence failure", 500. The ticket is read with
    [GetTicket] and the bounty made by [CreateBountyFromTicket]. The spec
    fixes the status of each failure, not what is written after it; the
    body of the success is the one the test decodes. *)
Definition TicketToBounty {B : Type} (now : time) (r : Request B)
  : M (Response CreateBountyResponse) :=
  let pubKeyFromAuth := ctx_pubkey r in
  if String.eqb pubKeyFromAuth "" then
    ret (mkResponse StatusUnauthorized None)
  else
    let ticketUUID := URLParam r "ticket_uuid" in
    if String.eqb ticketUUID "" then
      ret (mkResponse StatusBadRequest None)
    else
      '(ticket, err) <- TicketsDb.GetTicket ticketUUID ;;
      match err with
      | Some _ =>
          ret (mkResponse StatusNotFound None)
      | None =>
          '(bounty, err) <- TicketsDb.CreateBountyFromTicket now ticket pubKeyFromAuth ;;
          match bounty, err with
          | Some b, None =>
              ret (mkResponse StatusCreated
                     (Some (JValue (mkCreateBountyResponse
                                      (b_ID b) true "Bounty created successfully"))))
          | _, _ =>
              ret (mkResponse StatusInternalServerError None)
          end
      end.

End TicketHandlers.

(** ** The chat handler *)

Module ChatHandlers.

Record ContextTag : Type := mkContextTag {
  tag_Type : string;
  tag_ID : string
}.

Record SendMessageRequest : Type := mkSendMessageRequest {
  ChatID : string;
  Message : string;
  ContextTags : list ContextTag;
  SourceWebsocketID : string;
  WorkspaceUUID : string
}.

Record ChatResponse : Type := mkChatResponse {
  Success : bool;
  ResponseMessage : string;
  Data : option ChatMessage
}.

(** One entry of the ["history"] variable: its ["role"] and ["content"]. *)
Record HistoryEntry : Type := mkHistoryEntry {
  role : string;
  content : string
}.

(** The ["vars"] of the workflow parameters. *)
Record ChatVars : Type := mkChatVars {
  var_chatId : string;
  var_messageId : string;
  var_message : string;
  var_history : list HistoryEntry;
  var_contextTags : string;
  var_sourceWebsocketId : string;
  var_webhook_url : string
}.

Record StakworkChatPayload : Type := mkStakworkChatPayload {
  PayloadName : string;
  WorkflowID : Z;
  WorkflowParams : ChatVars
}.

Record TicketMessage : Type := mkTicketMessage {
  BroadcastType : string;
  SourceSessionID : string;
  WsMessage : string;
  Action : string;
  WsChatMessage : option ChatMessage
}.

(** The answer of the workflow engine to a POST: its status code, its body
    and the project id that the body decodes to, if it does. *)
Record HttpAnswer : Type := mkHttpAnswer {
  StatusCode : Z;
  AnswerBody : string;
  ProjectID : Z + error
}.

(** What a request leaves outside the store: the payloads posted to the
    workflow engine, each with the tables as they were when it left, and
    the messages handed to the websocket pool. *)
Record world : Type := mkWorld {
  store : database;
  posted : list (StakworkChatPayload * tables);
  notified : list TicketMessage
}.

Definition W := state world.

(** A storage call made from the handler. *)
Definition on_store {A : Type} (c : M A) : W A :=
  w <- get ;;
  let (a, d) := runState c (store w) in
  put (mkWorld d (posted w) (notified w)) ;;
  ret a.

Definition set_cm_Status (s : string) (m : ChatMessage) : ChatMessage :=
  mkChatMessage (cm_ID m) (cm_ChatID m) (cm_Message m) (cm_Role m)
                (cm_Timestamp m) s (cm_Source m).

Section Handler.

(** The environment: [SWWFKEY] and [HOST]. *)
Variable SWWFKEY : string.
Variable HOST : string.

(** [ch.httpClient.Do]: a transport error or the engine's answer. *)
Variable httpClient_Do : StakworkChatPayload -> error + HttpAnswer.

(** [websocket.WebsocketPool.SendTicketMessage] *)
Variable SendTicketMessage : TicketMessage -> option error.

(** [GetProductBrief] of package [db], whose body is missing and of which
    the spec says nothing: some reading of the tables. *)
Variable product_brief : tables -> string -> string * option error.

Definition GetProductBrief (workspaceUuid : string) : M (string * option error) :=
  r <- query (fun t => product_brief t workspaceUuid) ;;
  match r with
  | inl res => ret res
  | inr e => ret ("", Some e)
  end.

Definition post (payload : StakworkChatPayload) : W (error + HttpAnswer) :=
  w <- get ;;
  put (mkWorld (store w) (posted w ++ [(payload, tbl (store w))]) (notified w)) ;;
  ret (httpClient_Do payload).

Definition notify (msg : TicketMessage) : W (option error) :=
  w <- get ;;
  put (mkWorld (store w) (posted w) (notified w ++ [msg])) ;;
  ret (SendTicketMessage msg).

(** Marshalling the payload and building the request do not fail on a
    payload of strings; the key is looked up after them and before
    anything is sent. *)
Definition sendToStakwork (payload : StakworkChatPayload) : W (Z * option error) :=
  let apiKey := SWWFKEY in
  if String.eqb apiKey "" then
    ret (0, Some (ErrNew "SWWFKEY environment variable not set"))
  else
    resp <- post payload ;;
    match resp with
    | inl err => ret (0, Some (ErrNew ("error sending request: " ++ Error err)))
    | inr resp =>
        if negb (Z.eqb (StatusCode resp) StatusOK) then
          ret (0, Some (ErrNew ("stakwork API error: " ++ AnswerBody resp)))
        else
          match ProjectID resp with
          | inr err => ret (0, Some (ErrNew ("error decoding response: " ++ Error err)))
          | inl id => ret (id, None)
          end
    end.

Definition respond (status : Z) (ok : bool) (msg : string) (data : option ChatMessage)
  : W (Response ChatResponse) :=
  ret (mkResponse status (Some (JValue (mkChatResponse ok msg data)))).

(** [xid] is the identifier that [xid.New()] yields, [now] the time that
    [time.Now()] returns and [project_url] the text that [fmt.Sprintf]
    makes of a project id. *)
Definition SendMessage (xid : string) (now : time) (project_url : Z -> string)
           (r : Request SendMessageRequest) : W (Response ChatResponse) :=
  match json_body r with
  | None => respond StatusBadRequest false "Invalid request body" None
  | Some request =>
      if String.eqb (WorkspaceUUID request) "" then
        respond StatusBadRequest false "workspaceUUID is required" None
      else
        '(context, err) <- on_store (GetProductBrief (WorkspaceUUID request)) ;;
        match err with
        | Some _ =>
            respond StatusInternalServerError false "Error retrieving product brief" None
        | None =>
            '(history, err) <- on_store (DbSpec.GetChatMessagesForChatID (ChatID request)) ;;
            match err with
            | Some e =>
                respond StatusInternalServerError false
                        ("Failed to fetch chat history: " ++ Error e) None
            | None =>
                let start :=
                  if Nat.ltb 20 (List.length history) then (List.length history - 20)%nat
                  else 0%nat in
                let recentHistory := skipn start history in
                let messageHistory :=
                  map (fun msg => mkHistoryEntry (cm_Role msg) (cm_Message msg))
                      recentHistory in
                let message :=
                  {| cm_ID := xid;
                     cm_ChatID := ChatID request;
                     cm_Message := Message request;
                     cm_Role := "user";
                     cm_Timestamp := now;
                     cm_Status := "sending";
                     cm_Source := "user" |} in
                '(createdMessage, err) <- on_store (DbSpec.AddChatMessage message) ;;
                match err with
                | Some e =>
                    respond StatusInternalServerError false
                            ("Failed to save message: " ++ Error e) None
                | None =>
                    let stakworkPayload :=
                      {| PayloadName := "Hive Chat Processor";
                         WorkflowID := 38842;
                         WorkflowParams :=
                           {| var_chatId := ChatID request;
                              var_messageId := cm_ID createdMessage;
                              var_message := Message request;
                              var_history := messageHistory;
                              var_contextTags := context;
                              var_sourceWebsocketId := SourceWebsocketID request;
                              var_webhook_url := HOST ++ "/hivechat/response" |} |} in
                    '(projectID, err) <- sendToStakwork stakworkPayload ;;
                    match err with
                    | Some e =>
                        let createdMessage := set_cm_Status "error" createdMessage in
                        _ <- on_store (DbSpec.UpdateChatMessage createdMessage) ;;
                        respond StatusInternalServerError false
                                ("Failed to process message: " ++ Error e) None
                    | None =>
                        let projectMsg :=
                          {| BroadcastType := "direct";
                             SourceSessionID := SourceWebsocketID request;
                             WsMessage := project_url projectID;
                             Action := "swrun";
                             WsChatMessage := None |} in
                        _ <- notify projectMsg ;;
                        let wsMessage :=
                          {| BroadcastType := "direct";
                             SourceSessionID := SourceWebsocketID request;
                             WsMessage := "Message sent";
                             Action := "process";
                             WsChatMessage := Some createdMessage |} in
                        _ <- notify wsMessage ;;
                        respond StatusOK true "Message sent successfully"
                                (Some createdMessage)
                    end
                end
            end
        end
  end.

(** The body of [GetChatHistory]'s answer when it succeeds. *)
Record HistoryChatResponse : Type := mkHistoryChatResponse {
  HistorySuccess : bool;
  HistoryData : list ChatMessage
}.

Definition GetChatHistory (r : Request unit)
  : W (Response (ChatResponse + HistoryChatResponse)) :=
  let chatID := URLParam r "uuid" in
  if String.eqb chatID "" then
    ret (mkResponse StatusBadRequest
           (Some (JValue (inl (mkChatResponse false "Chat ID is required" None)))))
  else
    '(messages, err) <- on_store (DbSpec.GetChatMessagesForChatID chatID) ;;
    match err with
    | Some e =>
        ret (mkResponse StatusInternalServerError
               (Some (JValue (inl (mkChatResponse false
                                     ("Failed to fetch chat history: " ++ Error e)
                                     None)))))
    | None =>
        ret (mkResponse StatusOK
               (Some (JValue (inr (mkHistoryChatResponse true messages)))))
    end.

(** The ["value"] of the body that the workflow engine posts back; a body
    without it decodes to empty strings. *)
Record ChatResponseValue : Type := mkChatResponseValue {
  ValueChatID : string;
  ValueMessageID : string;
  ValueResponse : string;
  ValueSourceWebsocketID : string
}.

(** [xid] is the identifier that [xid.New()] yields and [now] the time that
    [time.Now()] returns. The error of [SendTicketMessage] is logged and
    changes nothing. *)
Definition ProcessChatResponse (xid : string) (now : time)
           (r : Request ChatResponseValue) : W (Response ChatResponse) :=
  match json_body r with
  | None => respond StatusBadRequest false "Invalid request body" None
  | Some request =>
      let chatID := ValueChatID request in
      let response := ValueResponse request in
      let sourceWebsocketID := ValueSourceWebsocketID request in
      if String.eqb chatID "" then
        respond StatusBadRequest false "ChatID is required for message creation" None
      else
        let message :=
          {| cm_ID := xid;
             cm_ChatID := chatID;
             cm_Message := response;
             cm_Role := "assistant";
             cm_Timestamp := now;
             cm_Status := "sent";
             cm_Source := "agent" |} in
        '(createdMessage, err) <- on_store (DbSpec.AddChatMessage message) ;;
        match err with
        | Some e =>
            respond StatusInternalServerError false
                    ("Failed to save response message: " ++ Error e) None
        | None =>
            let wsMessage :=
              {| BroadcastType := "direct";
                 SourceSessionID := sourceWebsocketID;
                 WsMessage := "Response received";
                 Action := "message";
                 WsChatMessage := Some createdMessage |} in
            _ <- notify wsMessage ;;
            respond StatusOK true "Response processed successfully"
                    (Some createdMessage)
        end
  end.

End Handler.

End ChatHandlers.

(** ** db/metrics.go *)

Module MetricsDb.

Record PaymentDateRange : Type := mkPaymentDateRange {
  StartDate : string;
  EndDate : string;
  PaymentType : string
}.

Section Metrics.

(** How the server reads a text parameter compared with the [created]
    column, a bigint: [None] when it rejects the text. *)
Variable pg_int8 : string -> option Z.

(** [uint(x)] for a double outside the range of [uint]: the language
    leaves the result to the implementation. *)
Variable uint_of_unrepresentable : Z -> N.

(** [uint(x)] for a whole double [x]. *)
Definition uint_of_float64 (x : Z) : N :=
  if (0 <=? x) && (x <? 2 ^ 64) then Z.to_N x else uint_of_unrepresentable x.

(** [created >= StartDate AND created <= EndDate], and
    [workspace_uuid = workspace] when a workspace is given. *)
Definition in_range (lo hi : Z) (workspace : string) (b : NewBounty) : bool :=
  (lo <=? b_Created b) && (b_Created b <=? hi)
  && (if String.eqb workspace "" then true
      else String.eqb (b_WorkspaceUuid b) workspace).

(** The rows of the bounty table that a query of the file selects; a date
    that the server does not read as a number fails the statement. *)
Definition select_rows (keep : NewBounty -> bool) (r : PaymentDateRange)
           (workspace : string) : M (list NewBounty + error) :=
  match pg_int8 (StartDate r), pg_int8 (EndDate r) with
  | Some lo, Some hi =>
      query (fun t => filter (fun b => keep b && in_range lo hi workspace b) (bounty t))
  | _, _ =>
      verdict <- send ;;
      match verdict with
      | Some e => ret (inr e)
      | None => ret (inr (ErrDriver "invalid input syntax for type bigint"))
      end
  end.

Definition sum_price (rows : list NewBounty) : N :=
  fold_right (fun b acc => (b_Price b + acc)%N) 0%N rows.

(** [query.Select("SUM(price)").Row().Scan(&sum)] with [sum] a [uint]
    that starts at zero: a failed statement, the NULL that is the sum of
    no row and a sum that does not fit leave it untouched. *)
Definition scan_sum (rows : list NewBounty + error) : N :=
  match rows with
  | inr _ => 0%N
  | inl [] => 0%N
  | inl rows => if (sum_price rows <? uint_modulus)%N then sum_price rows else 0%N
  end.

(** [query.Count(&count)] with [count] an [int64] that starts at zero. *)
Definition scan_count (rows : list NewBounty + error) : Z :=
  match rows with
  | inr _ => 0
  | inl rows => Z.of_nat (List.length rows)
  end.

Definition TotalSatsPosted (r : PaymentDateRange) (workspace : string) : M N :=
  rows <- select_rows (fun _ => true) r workspace ;;
  ret (scan_sum rows).

Definition TotalSatsPaid (r : PaymentDateRange) (workspace : string) : M N :=
  rows <- select_rows (fun b => b_Paid b) r workspace ;;
  ret (scan_sum rows).

Definition SatsPaidPercentage (r : PaymentDateRange) (workspace : string)
  : M (outcome N) :=
  satsPosted <- TotalSatsPosted r workspace ;;
  satsPaid <- TotalSatsPaid r workspace ;;
  if negb (N.eqb satsPaid 0) && negb (N.eqb satsPosted 0) then
    match uint_div (uint_mul satsPaid 100) satsPosted with
    | Panics msg => ret (Panics msg)
    | Returns value =>
        let paidPercentage := math_Round (Z.of_N (float64_of_N value)) in
        ret (Returns (uint_of_float64 paidPercentage))
    end
  else ret (Returns 0%N).

Definition TotalPaidBounties (r : PaymentDateRange) (workspace : string) : M Z :=
  rows <- select_rows (fun b => b_Paid b) r workspace ;;
  ret (scan_count rows).

(** [assignee != ''] and [paid = false] *)
Definition TotalAssignedBounties (r : PaymentDateRange) (workspace : string) : M Z :=
  rows <- select_rows (fun b => negb (String.eqb (b_Assignee b) "") && negb (b_Paid b))
                      r workspace ;;
  ret (scan_count rows).

(** The model [Bounty] of this query and the model [NewBounty] of the others
    name the same table. *)
Definition TotalBountiesPosted (r : PaymentDateRange) (workspace : string) : M Z :=
  rows <- select_rows (fun _ => true) r workspace ;;
  ret (scan_count rows).

Definition BountiesPaidPercentage (r : PaymentDateRange) (workspace : string)
  : M (outcome N) :=
  bountiesPosted <- TotalBountiesPosted r workspace ;;
  bountiesPaid <- TotalPaidBounties r workspace ;;
  if negb (Z.eqb bountiesPaid 0) && negb (Z.eqb bountiesPosted 0) then
    match int64_div (int64_mul bountiesPaid 100) bountiesPosted with
    | Panics msg => ret (Panics msg)
    | Returns value =>
        let paidPercentage := math_Round (float64_of_int64 value) in
        ret (Returns (uint_of_float64 paidPercentage))
    end
  else ret (Returns 0%N).

End Metrics.

End MetricsDb.

(** ** The rows of the tests

    The workspace, feature, phase and ticket that the handler tests set up,
    with fixed identifiers in place of the random ones. *)

Module Fixtures.

Definition workspace : Workspace :=
  mkWorkspace 1 "workspace-uuid" "test-workspace" "test-pubkey" "test-description".

Definition feature : WorkspaceFeatures :=
  mkWorkspaceFeatures 1 "feature-uuid" "workspace-uuid" "test-feature"
                      "https://github.com/test-feature" 0 "" "".

Definition featurePhase : FeaturePhase :=
  mkFeaturePhase "phase-uuid" "feature-uuid" "test-phase" 0.

Definition ticket : Tickets :=
  {| UUID := "6f1d0a3e-0d5c-4c55-8a53-2f0a3f8f7a11";
     TicketGroup := None;
     FeatureUUID := "feature-uuid";
     PhaseUUID := "phase-uuid";
     Name := "Test Ticket";
     Sequence := 1;
     Description := "Test Description";
     Status := TicketsDb.DraftTicket;
     Version := 0;
     Author := None;
     AuthorID := None;
     CreatedAt := 1700000000;
     UpdatedAt := 1700000000 |}.

(** A payload that carries the UUID, a description and a status only. *)
Definition description_and_status : Tickets :=
  {| UUID := "6f1d0a3e-0d5c-4c55-8a53-2f0a3f8f7a11";
     TicketGroup := None;
     FeatureUUID := "";
     PhaseUUID := "";
     Name := "";
     Sequence := 0;
     Description := "Updated Description";
     Status := TicketsDb.ReadyTicket;
     Version := 0;
     Author := None;
     AuthorID := None;
     CreatedAt := 0;
     UpdatedAt := 0 |}.

Definition bounty : NewBounty :=
  {| b_ID := 1;
     b_OwnerID := "test-pubkey";
     b_Paid := false;
     b_Show := false;
     b_Completed := false;
     b_Type := "coding_task";
     b_Price := 1000%N;
     b_Title := "test-bounty";
     b_Assignee := "";
     b_WorkspaceUuid := "workspace-uuid";
     b_Description := "test-description";
     b_WantedType := "";
     b_Created := 1700000100;
     b_Updated := None;
     b_CodingLanguages := [];
     b_PhaseUuid := "phase-uuid";
     b_FeatureUuid := "" |}.

Definition paid_bounty : NewBounty :=
  {| b_ID := 2;
     b_OwnerID := "test-pubkey";
     b_Paid := true;
     b_Show := false;
     b_Completed := true;
     b_Type := "coding_task";
     b_Price := 500%N;
     b_Title := "paid-bounty";
     b_Assignee := "assignee-pubkey";
     b_WorkspaceUuid := "workspace-uuid";
     b_Description := "test-description";
     b_WantedType := "";
     b_Created := 1700000200;
     b_Updated := None;
     b_CodingLanguages := [];
     b_PhaseUuid := "phase-uuid";
     b_FeatureUuid := "" |}.

(** The store after the setup of the ticket tests: no bounty yet. *)
Definition tables0 : tables :=
  mkTables [ticket] [workspace] [feature] [featurePhase] [] [] [].

Definition db0 : database := mkDatabase tables0 [].

(** The same store with two bounties, one of them paid. *)
Definition db1 : database :=
  mkDatabase (mkTables [ticket] [workspace] [feature] [featurePhase] []
                       [bounty; paid_bounty] []) [].

(** A request with a caller, route parameters and a body. *)
Definition request {B : Type} (pubkey : string) (params : list (string * string))
           (body : option B) : Request B :=
  mkRequest pubkey
    (fun key =>
       match find (fun kv => String.eqb (fst kv) key) params with
       | Some kv => snd kv
       | None => ""
       end)
    (fun _ => "")
    body.

(** [n] messages of one chat, oldest first. *)
Fixpoint chat_history (n : nat) : list ChatMessage :=
  match n with
  | O => []
  | S k =>
      chat_history k
      ++ [mkChatMessage "m" "chat-1" "hello"
                        (if Nat.even k then "user" else "assistant")
                        (1700000000 + Z.of_nat k) "sent" "user"]
  end.

(** A ticket that the store does not hold yet, without a status. *)
Definition second_ticket : Tickets :=
  {| UUID := "0b9c2f64-7a1e-4d0b-9c3a-5e8f1d2a4b77";
     TicketGroup := None;
     FeatureUUID := "feature-uuid";
     PhaseUUID := "phase-uuid";
     Name := "Second Ticket";
     Sequence := 2;
     Description := "Second Description";
     Status := "";
     Version := 0;
     Author := None;
     AuthorID := None;
     CreatedAt := 0;
     UpdatedAt := 0 |}.

(** The year 2023 as a date range, and how the server reads its two
    texts. *)
Definition year_2023 : MetricsDb.PaymentDateRange :=
  MetricsDb.mkPaymentDateRange "1672531200" "1704067199" "".

Definition pg_int8 (s : string) : option Z :=
  if String.eqb s "1672531200" then Some 1672531200
  else if String.eqb s "1704067199" then Some 1704067199
  else None.

(** A workflow engine that cannot be reached. *)
Definition unreachable (_ : ChatHandlers.StakworkChatPayload)
  : error + ChatHandlers.HttpAnswer :=
  inl (ErrNew "connection refused").

(** A request to send ["hello"] to the chat ["chat-1"]. *)
Definition hello : ChatHandlers.SendMessageRequest :=
  ChatHandlers.mkSendMessageRequest "chat-1" "hello" [] "session-1" "workspace-uuid".

End Fixtures.

(** * Properties *)

Import TicketsDb.

(** ** Running the store monad *)

Section StoreFacts.

Context {A B : Type}.

Lemma run_bind (m : M A) (f : A -> M B) (d : database) :
  runState (bind m f) d
  = runState (f (fst (runState m d))) (snd (runState m d)).
Proof. cbn. destruct (runState m d); reflexivity. Qed.

Lemma run_ret (a : A) (d : database) : runState (ret a) d = (a, d).
Proof. reflexivity. Qed.

Lemma run_send (d : database) : runState send d = (verdict d, sent d).
Proof. destruct d as [t [|f fs]]; reflexivity. Qed.

Lemma run_query (q : tables -> A) (d : database) :
  runState (query q) d
  = (match verdict d with Some e => inr e | None => inl (q (tbl d)) end, sent d).
Proof. destruct d as [t [|[m|] fs]]; reflexivity. Qed.

Lemma run_exec (w : tables -> tables) (d : database) :
  runState (exec w) d
  = (verdict d,
     match verdict d with
     | Some _ => sent d
     | None => mkDatabase (w (tbl d)) (tl (faults d))
     end).
Proof. destruct d as [t [|[m|] fs]]; reflexivity. Qed.

Lemma tbl_sent (d : database) : tbl (sent d) = tbl d.
Proof. reflexivity. Qed.

Lemma no_faults_verdict (d : database) : faults d = [] -> verdict d = None.
Proof. unfold verdict. now intros ->. Qed.

Lemma no_faults_sent (d : database) : faults d = [] -> sent d = d.
Proof. destruct d as [t fs]. cbn. now intros ->. Qed.

End StoreFacts.

(** C4. A ticket upsert whose UUID is the nil UUID fails with the validation
    error "ticket UUID is required", through [CreateOrEditTicket] and through
    [UpdateTicket] alike, and leaves the store exactly as it was: no ticket
    row is created. *)
Theorem upsert_without_uuid_rejected (now : time) (ticket : Tickets) (d : database) :
  UUID ticket = uuid_Nil ->
  runState (CreateOrEditTicket now ticket) d
    = ((Tickets_zero, Some (ErrNew "ticket UUID is required")), d)
  /\ runState (UpdateTicket now ticket) d
    = ((Tickets_zero, Some (ErrNew "ticket UUID is required")), d).
Proof.
  intros H. unfold CreateOrEditTicket, UpdateTicket. rewrite H. 
  split; reflexivity.
Qed.

(** ** Ticket statuses *)

Lemma IsValidTicketStatus_In (s : TicketStatus) :
  IsValidTicketStatus s = true <-> In s ticket_statuses.
Proof.
  unfold IsValidTicketStatus, ticket_statuses. split.
  - repeat match goal with
           | |- context [String.eqb s ?c] =>
               destruct (String.eqb_spec s c) as [->|_]; [simpl; tauto|]
           end.
    intros H. discriminate H.
  - intros H. simpl in H.
    repeat (destruct H as [<-|H]; [reflexivity|]). contradiction.
Qed.

Lemma IsValidTicketStatus_not_In (s : TicketStatus) :
  ~ In s ticket_statuses -> IsValidTicketStatus s = false.
Proof.
  intros H. destruct (IsValidTicketStatus s) eqn:E; [|reflexivity].
  apply IsValidTicketStatus_In in E. contradiction.
Qed.

(** C5. A ticket upsert whose status is neither empty nor one of the seven
    listed values is rejected with an error and leaves the store exactly as
    it was: no statement is sent, no ticket row is created or modified. The
    error is "invalid ticket status", unless the UUID is missing as well,
    which is reported first. *)
Theorem upsert_with_invalid_status_rejected (now : time) (ticket : Tickets) (d : database) :
  Status ticket <> "" ->
  ~ In (Status ticket) ticket_statuses ->
  let e := if String.eqb (UUID ticket) uuid_Nil
           then ErrNew "ticket UUID is required"
           else ErrNew "invalid ticket status" in
  runState (CreateOrEditTicket now ticket) d = ((Tickets_zero, Some e), d)
  /\ runState (UpdateTicket now ticket) d = ((Tickets_zero, Some e), d).
Proof.
  intros Hne Hbad e. subst e.
  apply IsValidTicketStatus_not_In in Hbad.
  apply String.eqb_neq in Hne.
  unfold CreateOrEditTicket, UpdateTicket. rewrite Hbad, Hne.
  destruct (String.eqb (UUID ticket) uuid_Nil); split; reflexivity.
Qed.

(** ** The gorm calls on the tickets table *)

Lemma run_First (u : Go.uuid_t) (d : database) :
  runState (First u) d
  = (match verdict d with
     | Some e => (Tickets_zero, Some e)
     | None =>
         match find (has_uuid u) (tickets (tbl d)) with
         | Some row => (row, None)
         | None => (Tickets_zero, Some ErrRecordNotFound)
         end
     end, sent d).
Proof.
  unfold First. rewrite run_bind, run_query. cbn [fst snd].
  destruct (verdict d); [reflexivity|].
  destruct (find _ _); reflexivity.
Qed.

Lemma run_Find (u : string) (d : database) :
  runState (Find u) d
  = (match verdict d with
     | Some e => (Tickets_zero, 0, Some e)
     | None =>
         match find (has_uuid u) (tickets (tbl d)) with
         | Some row => (row, 1, None)
         | None => (Tickets_zero, 0, None)
         end
     end, sent d).
Proof.
  unfold Find. rewrite run_bind, run_query. cbn [fst snd].
  destruct (verdict d); [reflexivity|].
  destruct (find _ _); reflexivity.
Qed.

Lemma driver_error_is_not_ErrRecordNotFound (d : database) (e : error) :
  verdict d = Some e -> is_ErrRecordNotFound e = false.
Proof.
  unfold verdict. destruct (faults d) as [|[m|] fs]; cbn; intros H;
    try discriminate H.
  now injection H as <-.
Qed.

Lemma find_none_iff {A : Type} (p : A -> bool) (l : list A) :
  find p l = None <-> (forall x, In x l -> p x = false).
Proof.
  split.
  - intros H x Hx. exact (find_none p l H x Hx).
  - induction l as [|y l IH]; intros H; [reflexivity|].
    cbn. rewrite (H y (or_introl eq_refl)). apply IH.
    intros x Hx. apply H. now right.
Qed.

(** Rewriting the rows that satisfy [p] by a function that keeps them in [p]
    rewrites the first of them. *)
Lemma find_map_update {A : Type} (p : A -> bool) (h : A -> A) (l : list A) (x : A) :
  (forall y, p y = true -> p (h y) = true) ->
  find p l = Some x ->
  find p (map (fun y => if p y then h y else y) l) = Some (h x).
Proof.
  intros Hh. induction l as [|y l IH]; cbn; [discriminate|].
  destruct (p y) eqn:Ey.
  - intros [= ->]. now rewrite (Hh _ Ey).
  - rewrite Ey. exact IH.
Qed.

Lemma has_uuid_assign_nonzero (ticket row : Tickets) :
  UUID ticket <> uuid_Nil ->
  has_uuid (UUID ticket) (assign_nonzero ticket row) = true.
Proof.
  intros Hu. unfold has_uuid, assign_nonzero, pick_uuid. cbn.
  apply String.eqb_neq in Hu. rewrite Hu. apply String.eqb_refl.
Qed.

Lemma has_uuid_found (u : Go.uuid_t) (l : list Tickets) (row : Tickets) :
  find (has_uuid u) l = Some row -> UUID row = u.
Proof.
  intros H. apply find_some in H as [_ H]. now apply String.eqb_eq in H.
Qed.

(** [UpdateTicket] is [CreateOrEditTicket] on a copy of the ticket. *)
Lemma UpdateTicket_is_CreateOrEditTicket (now : time) (ticket : Tickets) (d : database) :
  runState (UpdateTicket now ticket) d = runState (CreateOrEditTicket now ticket) d.
Proof.
  unfold UpdateTicket, CreateOrEditTicket.
  destruct (String.eqb (UUID ticket) uuid_Nil); [reflexivity|].
  destruct (_ && _); [reflexivity|].
  rewrite !run_bind, run_First. cbn [fst snd].
  destruct (verdict d) as [e|]; [reflexivity|].
  destruct (find _ _); reflexivity.
Qed.

Lemma retains_refl (ticket old : Tickets) : retains ticket old old.
Proof. unfold retains. tauto. Qed.

Lemma retains_assign_nonzero (now : time) (ticket old : Tickets) :
  retains ticket old (assign_nonzero (set_UpdatedAt now ticket) old).
Proof.
  unfold retains, assign_nonzero, set_UpdatedAt, pick_string, pick_int, pick_ptr.
  cbn. repeat split; intros ->; reflexivity.
Qed.

(** C6. A partial update of an existing ticket: whatever the driver does, the
    stored row keeps, in every field that the payload leaves at its zero
    value, the value it had before; so a payload with a description and a
    status only leaves the name, the feature UUID and the phase UUID as they
    were. When the call returns no error the ticket it returns is the stored
    row, which is the old row with the non-zero fields of the payload written
    over it; and it returns no error when the payload is well formed and the
    driver fails no statement. [UpdateTicket] behaves as [CreateOrEditTicket]
    does. *)
Theorem partial_update_retains_omitted_fields
        (now : time) (ticket old : Tickets) (d : database) :
  find (has_uuid (UUID ticket)) (tickets (tbl d)) = Some old ->
  let res := runState (CreateOrEditTicket now ticket) d in
  runState (UpdateTicket now ticket) d = res
  /\ exists new,
      find (has_uuid (UUID ticket)) (tickets (tbl (snd res))) = Some new
      /\ retains ticket old new
      /\ (snd (fst res) = None ->
          fst (fst res) = new
          /\ new = assign_nonzero (set_UpdatedAt now ticket) old)
      /\ (UUID ticket <> uuid_Nil ->
          Status ticket = "" \/ In (Status ticket) ticket_statuses ->
          faults d = [] ->
          snd (fst res) = None).
Proof.
  intros Hold res. split; [apply UpdateTicket_is_CreateOrEditTicket|].
  subst res. unfold CreateOrEditTicket.
  destruct (String.eqb_spec (UUID ticket) uuid_Nil) as [Hnil|Hu].
  { exists old. cbn. split; [exact Hold|]. split; [apply retains_refl|].
    split; [discriminate|]. intros H; contradiction. }
  destruct (negb (String.eqb (Status ticket) "")
            && negb (IsValidTicketStatus (Status ticket))) eqn:Hguard.
  { exists old. cbn. split; [exact Hold|]. split; [apply retains_refl|].
    split; [discriminate|].
    intros _ Hs _. exfalso.
    apply andb_true_iff in Hguard as [H1 H2].
    apply negb_true_iff in H1, H2. apply String.eqb_neq in H1.
    destruct Hs as [Hs|Hs]; [contradiction|].
    apply IsValidTicketStatus_In in Hs. congruence. }
  rewrite run_bind, run_First. cbn [fst snd].
  destruct (verdict d) as [e|] eqn:Hv1.
  { (* the lookup fails *)
    cbn [errors_Is_ErrRecordNotFound].
    rewrite (driver_error_is_not_ErrRecordNotFound d e Hv1).
    exists old. cbn. split; [exact Hold|]. split; [apply retains_refl|].
    split; [discriminate|].
    intros _ _ Hf. rewrite (no_faults_verdict d Hf) in Hv1. discriminate. }
  rewrite Hold. cbn [errors_Is_ErrRecordNotFound].
  rewrite run_bind. unfold Updates. rewrite run_exec. cbn [fst snd].
  destruct (verdict (sent d)) as [e|] eqn:Hv2.
  { (* the update fails *)
    exists old. cbn. split; [exact Hold|]. split; [apply retains_refl|].
    split; [discriminate|].
    intros _ _ Hf. rewrite (no_faults_sent d Hf), (no_faults_verdict d Hf) in Hv2.
    discriminate. }
  rewrite run_bind, run_First. cbn [fst snd tbl tickets with_tickets].
  change (tbl (sent d)) with (tbl d).
  assert (Hnew :
    find (has_uuid (UUID ticket))
         (map (fun row => if has_uuid (UUID old) row
                          then assign_nonzero (set_UpdatedAt now ticket) row
                          else row) (tickets (tbl d)))
    = Some (assign_nonzero (set_UpdatedAt now ticket) old)).
  { rewrite (has_uuid_found _ _ _ Hold).
    apply find_map_update; [|exact Hold].
    intros y _. now apply (has_uuid_assign_nonzero (set_UpdatedAt now ticket) y). }
  exists (assign_nonzero (set_UpdatedAt now ticket) old).
  match goal with
  | |- context [verdict (mkDatabase ?t ?f)] =>
      destruct (verdict (mkDatabase t f)) as [e|] eqn:Hv3
  end.
  - cbn. split; [exact Hnew|]. split; [apply retains_assign_nonzero|].
    split; [discriminate|].
    intros _ _ Hf. exfalso. revert Hv3.
    unfold verdict. cbn. rewrite Hf. discriminate.
  - change (UUID (set_UpdatedAt now ticket)) with (UUID ticket).
    rewrite Hnew. cbn. split; [exact Hnew|]. split; [apply retains_assign_nonzero|].
    split; [intros _; split; reflexivity|]. reflexivity.
Qed.

(** ** Ticket to bounty *)

Lemma run_GetFeatureByUuid (u : string) (d : database) :
  runState (DbSpec.GetFeatureByUuid u) d
  = (match verdict d with
     | Some _ => WorkspaceFeatures_zero
     | None =>
         match find (fun f => String.eqb (wf_Uuid f) u) (workspace_features (tbl d)) with
         | Some f => f
         | None => WorkspaceFeatures_zero
         end
     end, sent d).
Proof.
  unfold DbSpec.GetFeatureByUuid. rewrite run_bind, run_query. cbn [fst snd].
  destruct (verdict d); [reflexivity|].
  destruct (find _ _); reflexivity.
Qed.

Lemma run_CreateBounty (b : NewBounty) (d : database) :
  runState (CreateBounty b) d
  = match verdict d with
    | Some e => ((b, Some e), sent d)
    | None =>
        ((stored_bounty b (tbl d), None),
         mkDatabase (with_bounty (bounty (tbl d) ++ [stored_bounty b (tbl d)]) (tbl d))
                    (tl (faults d)))
    end.
Proof.
  destruct d as [t [|[m|] fs]]; reflexivity.
Qed.

Lemma next_id_positive (ids : list Z) : 0 < next_id ids.
Proof.
  unfold next_id.
  assert (0 <= fold_right Z.max 0 ids) by (induction ids; cbn; lia).
  lia.
Qed.

(** C1. Converting a ticket to a bounty: for a ticket with title T,
    description D, phase P and feature F, when the feature row of F has
    workspace W and the driver runs the two statements,
    [CreateBountyFromTicket] stores and returns a bounty with Title T,
    Description D, PhaseUuid P, FeatureUuid F, WorkspaceUuid W, Type
    "freelance_job_request", Price 21 and Show true (and a non-zero id). *)
Theorem bounty_from_ticket_fields
        (now : time) (ticket : Tickets) (pubkey : string) (d : database)
        (feature : WorkspaceFeatures) :
  find (fun f => String.eqb (wf_Uuid f) (FeatureUUID ticket))
       (workspace_features (tbl d)) = Some feature ->
  verdict d = None ->
  verdict (sent d) = None ->
  exists b,
    runState (CreateBountyFromTicket now ticket pubkey) d
    = ((Some b, None),
       mkDatabase (with_bounty (bounty (tbl d) ++ [b]) (tbl d)) (tl (tl (faults d))))
    /\ b_Title b = Name ticket
    /\ b_Description b = Description ticket
    /\ b_PhaseUuid b = PhaseUUID ticket
    /\ b_FeatureUuid b = FeatureUUID ticket
    /\ b_WorkspaceUuid b = wf_WorkspaceUuid feature
    /\ b_Type b = "freelance_job_request"
    /\ b_Price b = 21%N
    /\ b_Show b = true
    /\ b_OwnerID b = pubkey
    /\ 0 < b_ID b.
Proof.
  intros Hf Hv1 Hv2. unfold CreateBountyFromTicket.
  rewrite run_bind, run_GetFeatureByUuid, Hv1, Hf. cbn [fst snd].
  rewrite run_bind, run_CreateBounty, Hv2. cbn [fst snd].
  eexists. split; [reflexivity|].
  unfold stored_bounty. cbn. repeat split. apply next_id_positive.
Qed.

Lemma run_GetTicket (u : string) (d : database) :
  runState (GetTicket u) d
  = (match verdict d with
     | Some e => (Tickets_zero, Some (ErrWrap "failed to get ticket: " e))
     | None =>
         match find (has_uuid u) (tickets (tbl d)) with
         | Some row => (row, None)
         | None => (Tickets_zero, Some (ErrNew "ticket not found"))
         end
     end, sent d).
Proof.
  unfold GetTicket. rewrite run_bind, run_Find. cbn [fst snd].
  destruct (verdict d); [reflexivity|].
  destruct (find _ _); reflexivity.
Qed.

(** C2. Ticket-to-bounty conversion of a ticket UUID that no stored ticket
    bears, asked by an authenticated caller: [GetTicket] returns an error
    ("ticket not found" when the statement runs), the handler answers 404 and
    the tables, the bounties among them, are unchanged: no bounty row is
    created. *)
Theorem ticket_to_bounty_unknown_ticket
        {B : Type} (now : time) (r : Request B) (d : database) :
  ctx_pubkey r <> "" ->
  URLParam r "ticket_uuid" <> "" ->
  (forall t, In t (tickets (tbl d)) -> UUID t <> URLParam r "ticket_uuid") ->
  let res := runState (TicketHandlers.TicketToBounty now r) d in
  (exists e,
      runState (GetTicket (URLParam r "ticket_uuid")) d = ((Tickets_zero, Some e), sent d)
      /\ (verdict d = None -> e = ErrNew "ticket not found"))
  /\ code (fst res) = StatusNotFound
  /\ tbl (snd res) = tbl d
  /\ bounty (tbl (snd res)) = bounty (tbl d).
Proof.
  intros Hk Hu Hnone res.
  assert (Hfind : find (has_uuid (URLParam r "ticket_uuid")) (tickets (tbl d)) = None).
  { apply find_none_iff. intros t Ht. apply String.eqb_neq. now apply Hnone. }
  assert (Hget : exists e,
             runState (GetTicket (URLParam r "ticket_uuid")) d
             = ((Tickets_zero, Some e), sent d)
             /\ (verdict d = None -> e = ErrNew "ticket not found")).
  { rewrite run_GetTicket, Hfind. destruct (verdict d) as [e|].
    - eexists. split; [reflexivity|discriminate].
    - eexists. split; reflexivity. }
  split; [exact Hget|].
  destruct Hget as (e & Hget & _).
  subst res. unfold TicketHandlers.TicketToBounty.
  apply String.eqb_neq in Hk, Hu. rewrite Hk, Hu.
  rewrite run_bind, Hget. cbn. repeat split.
Qed.

(** ** Features *)

Import FeatureHandlers.

Lemma run_GetWorkspaceByUuid (u : string) (d : database) :
  runState (DbSpec.GetWorkspaceByUuid u) d
  = (match verdict d with
     | Some _ => Workspace_zero
     | None =>
         match find (fun w => String.eqb (ws_Uuid w) u) (workspaces (tbl d)) with
         | Some w => w
         | None => Workspace_zero
         end
     end, sent d).
Proof.
  unfold DbSpec.GetWorkspaceByUuid. rewrite run_bind, run_query. cbn [fst snd].
  destruct (verdict d); [reflexivity|].
  destruct (find _ _); reflexivity.
Qed.

Lemma wf_WorkspaceUuid_stamped (xid_New : nat -> string) (k : string) (f : WorkspaceFeatures) :
  wf_WorkspaceUuid (stamped xid_New k f) = wf_WorkspaceUuid f.
Proof.
  unfold stamped. cbn. destruct (String.eqb (wf_Uuid f) ""); reflexivity.
Qed.

(** C3, as amended. An authenticated feature-creation request whose body
    decodes to a feature that names a non-empty workspace UUID borne by no
    stored workspace persists no Feature row, and fails: with 401 when the
    feature passes the struct validation, with 400 when it does not. *)
Theorem feature_for_unknown_workspace_rejected
        (Validate_Struct : WorkspaceFeatures -> option error) (xid_New : nat -> string)
        (r : Request WorkspaceFeatures) (features : WorkspaceFeatures) (d : database) :
  ctx_pubkey r <> "" ->
  json_body r = Some features ->
  wf_WorkspaceUuid features <> "" ->
  (forall w, In w (workspaces (tbl d)) -> ws_Uuid w <> wf_WorkspaceUuid features) ->
  let res := runState (CreateOrEditFeatures Validate_Struct xid_New r) d in
  code (fst res)
  = match Validate_Struct (stamped xid_New (ctx_pubkey r) features) with
    | None => StatusUnauthorized
    | Some _ => StatusBadRequest
    end
  /\ tbl (snd res) = tbl d
  /\ workspace_features (tbl (snd res)) = workspace_features (tbl d).
Proof.
  intros Hk Hbody Hne Hnone res.
  enough (H : code (fst res)
              = match Validate_Struct (stamped xid_New (ctx_pubkey r) features) with
                | None => StatusUnauthorized
                | Some _ => StatusBadRequest
                end
              /\ tbl (snd res) = tbl d).
  { destruct H as [H1 H2]. rewrite H2. auto. }
  subst res. unfold CreateOrEditFeatures.
  apply String.eqb_neq in Hk. rewrite Hk, Hbody.
  destruct (Validate_Struct _) as [err|]; [split; reflexivity|].
  rewrite run_bind, run_GetWorkspaceByUuid. cbn [fst snd].
  rewrite wf_WorkspaceUuid_stamped.
  assert (Hfind : find (fun w => String.eqb (ws_Uuid w) (wf_WorkspaceUuid features))
                       (workspaces (tbl d)) = None).
  { apply find_none_iff. intros w Hw. apply String.eqb_neq. now apply Hnone. }
  rewrite Hfind.
  assert (Hz : String.eqb (ws_Uuid Workspace_zero) (wf_WorkspaceUuid features) = false).
  { apply String.eqb_neq. cbn. congruence. }
  destruct (verdict d); rewrite Hz; split; reflexivity.
Qed.

(** C3, as stated. A request that names the empty workspace UUID, which no
    workspace bears, is answered 200 and its feature stored when the
    validation has no rule against it, and 400 when the validation requires
    the field; a request that names an unknown workspace and has no name is
    answered 400 when the validation requires a name. None is answered 401. *)
Lemma feature_for_unknown_workspace_other_answers :
  let d := mkDatabase (mkTables [] [] [] [] [] [] []) [] in
  let no_rule := fun _ : WorkspaceFeatures => @None error in
  let required :=
    fun f : WorkspaceFeatures =>
      if String.eqb (wf_WorkspaceUuid f) "" || String.eqb (wf_Name f) ""
      then Some (ErrNew "required") else None in
  let xid_New := fun _ : nat => "xid0" in
  let f0 := mkWorkspaceFeatures 0 "feature-1" "" "test-feature" "" 0 "" "" in
  let f1 := mkWorkspaceFeatures 0 "feature-1" "non-existent-uuid" "" "" 0 "" "" in
  let req := fun f => mkRequest "test-pubkey" (fun _ => "") (fun _ => "") (Some f) in
  code (fst (runState (CreateOrEditFeatures no_rule xid_New (req f0)) d)) = StatusOK
  /\ workspace_features (tbl (snd (runState (CreateOrEditFeatures no_rule xid_New (req f0)) d)))
     = [mkWorkspaceFeatures 1 "feature-1" "" "test-feature" "" 0 "test-pubkey" "test-pubkey"]
  /\ code (fst (runState (CreateOrEditFeatures required xid_New (req f0)) d)) = StatusBadRequest
  /\ code (fst (runState (CreateOrEditFeatures required xid_New (req f1)) d)) = StatusBadRequest.
Proof.
  cbv zeta. repeat split; vm_compute; reflexivity.
Qed.


Lemma paginate_nil (page : DbSpec.url_values -> option (nat * nat)) (q : DbSpec.url_values) :
  DbSpec.paginate page q [] = [].
Proof.
  unfold DbSpec.paginate. destruct (page q) as [[offset limit]|]; [|reflexivity].
  rewrite skipn_nil. apply firstn_nil.
Qed.

Lemma filter_nil_iff {A : Type} (p : A -> bool) (l : list A) :
  (forall x, In x l -> p x = false) -> filter p l = [].
Proof.
  induction l as [|y l IH]; intros H; [reflexivity|].
  cbn. rewrite (H y (or_introl eq_refl)). apply IH.
  intros x Hx. apply H. now right.
Qed.

(** C7. An authenticated listing of the bounties of a feature and phase: when
    no stored bounty matches the pair (and the filters of the request),
    whether or not the UUIDs exist, the answer is 404 with no body, not 200
    with an empty list. *)
Theorem listing_without_bounties_not_found
        (keeps : DbSpec.url_values -> NewBounty -> bool)
        (before : DbSpec.url_values -> NewBounty -> NewBounty -> bool)
        (page : DbSpec.url_values -> option (nat * nat))
        (BountyResponse : Type)
        (generateBountyHandler : list NewBounty -> list BountyResponse)
        {B : Type} (r : Request B) (d : database) :
  ctx_pubkey r <> "" ->
  (forall b, In b (bounty (tbl d)) ->
             DbSpec.of_feature_phase (URLParam r "feature_uuid")
                                     (URLParam r "phase_uuid") (tbl d) b
             && keeps (URL_Query r) b = false) ->
  runState (GetBountiesByFeatureAndPhaseUuid
              keeps before page BountyResponse generateBountyHandler r) d
  = (mkResponse StatusNotFound None, sent d).
Proof.
  intros Hk Hnone. unfold GetBountiesByFeatureAndPhaseUuid.
  apply String.eqb_neq in Hk. rewrite Hk.
  unfold DbSpec.GetBountiesByFeatureAndPhaseUuid.
  rewrite !run_bind, run_query. cbn [fst snd].
  destruct (verdict d); [reflexivity|].
  unfold DbSpec.select_bounties.
  rewrite (filter_nil_iff _ _ Hnone). cbn [DbSpec.sort_by fold_right].
  rewrite paginate_nil. reflexivity.
Qed.

Lemma store_stories_unknown_feature
      (xid_New : nat -> string) (time_Now : nat -> time) (featureUuid : string)
      (stories : list FeatureStories) :
  forall (calls : nat) (d : database),
    find (fun f => String.eqb (wf_Uuid f) featureUuid) (workspace_features (tbl d)) = None ->
    tbl (snd (runState (store_stories xid_New time_Now featureUuid stories calls) d))
    = tbl d.
Proof.
  induction stories as [|story rest IH]; intros calls d Hfind; [reflexivity|].
  cbn [store_stories]. rewrite run_bind, run_GetFeatureByUuid, Hfind. cbn [fst snd].
  assert (Hz : Z.eqb (wf_ID WorkspaceFeatures_zero) 0 = true) by reflexivity.
  destruct (verdict d); rewrite Hz; rewrite IH; auto.
Qed.

(** C8. Bulk ingestion of feature stories addressed to a feature UUID that no
    stored feature bears: every story of the payload is skipped, the answer is
    200 "User stories added successfully", the tables are unchanged and so is
    the number of stories of every feature. *)
Theorem stories_for_unknown_feature_skipped
        (xid_New : nat -> string) (time_Now : nat -> time)
        (r : Request FeatureStoriesReponse) (payload : FeatureStoriesReponse)
        (d : database) :
  json_body r = Some payload ->
  (forall f, In f (workspace_features (tbl d)) ->
             wf_Uuid f <> FeatureUuid (Output payload)) ->
  let res := runState (GetFeatureStories xid_New time_Now r) d in
  fst res = mkResponse StatusOK (Some (JString "User stories added successfully"))
  /\ tbl (snd res) = tbl d
  /\ forall featureUuid,
      List.length (filter (fun s => String.eqb (fs_FeatureUuid s) featureUuid)
                          (feature_stories (tbl (snd res))))
      = List.length (filter (fun s => String.eqb (fs_FeatureUuid s) featureUuid)
                            (feature_stories (tbl d))).
Proof.
  intros Hbody Hnone res.
  assert (Hfind : find (fun f => String.eqb (wf_Uuid f) (FeatureUuid (Output payload)))
                       (workspace_features (tbl d)) = None).
  { apply find_none_iff. intros f Hf. apply String.eqb_neq. now apply Hnone. }
  assert (Htbl : tbl (snd res) = tbl d).
  { subst res. unfold GetFeatureStories. rewrite Hbody, run_bind. cbn [snd runState ret].
    cbn. now apply store_stories_unknown_feature. }
  split; [|split; [exact Htbl|]].
  - subst res. unfold GetFeatureStories. rewrite Hbody, run_bind. reflexivity.
  - intros u. now rewrite Htbl.
Qed.

(** ** Chat *)

Import ChatHandlers.

Section WorldFacts.

Context {A B : Type}.

Lemma run_bind_W (m : W A) (f : A -> W B) (w : world) :
  runState (bind m f) w
  = runState (f (fst (runState m w))) (snd (runState m w)).
Proof. cbn. destruct (runState m w); reflexivity. Qed.

Lemma run_on_store (c : M A) (w : world) :
  runState (on_store c) w
  = (fst (runState c (store w)),
     mkWorld (snd (runState c (store w))) (posted w) (notified w)).
Proof. unfold on_store. cbn. destruct (runState c (store w)); reflexivity. Qed.

End WorldFacts.

Lemma run_GetChatMessagesForChatID (chatID : string) (d : database) :
  runState (DbSpec.GetChatMessagesForChatID chatID) d
  = (match verdict d with
     | Some e => ([], Some e)
     | None => (filter (fun m => String.eqb (cm_ChatID m) chatID)
                       (chat_messages (tbl d)), None)
     end, sent d).
Proof.
  unfold DbSpec.GetChatMessagesForChatID. rewrite run_bind, run_query. cbn [fst snd].
  destruct (verdict d); reflexivity.
Qed.

Lemma run_AddChatMessage (message : ChatMessage) (d : database) :
  runState (DbSpec.AddChatMessage message) d
  = match verdict d with
    | Some e => ((ChatMessage_zero, Some e), sent d)
    | None =>
        ((message, None),
         mkDatabase (with_chat_messages (chat_messages (tbl d) ++ [message]) (tbl d))
                    (tl (faults d)))
    end.
Proof.
  unfold DbSpec.AddChatMessage. rewrite run_bind, run_exec. cbn [fst snd].
  destruct (verdict d); reflexivity.
Qed.

Lemma run_GetProductBrief (product_brief : tables -> string -> string * option error)
      (u : string) (d : database) :
  runState (GetProductBrief product_brief u) d
  = (match verdict d with
     | Some e => ("", Some e)
     | None => product_brief (tbl d) u
     end, sent d).
Proof.
  unfold GetProductBrief. rewrite run_bind, run_query. cbn [fst snd].
  destruct (verdict d); reflexivity.
Qed.

Lemma run_sendToStakwork (SWWFKEY : string)
      (httpClient_Do : StakworkChatPayload -> error + HttpAnswer)
      (payload : StakworkChatPayload) (w : world) :
  snd (runState (sendToStakwork SWWFKEY httpClient_Do payload) w)
  = if String.eqb SWWFKEY "" then w
    else mkWorld (store w) (posted w ++ [(payload, tbl (store w))]) (notified w).
Proof.
  unfold sendToStakwork. destruct (String.eqb SWWFKEY ""); [reflexivity|].
  rewrite run_bind_W. cbn.
  destruct (httpClient_Do payload) as [e|a]; [reflexivity|].
  destruct (negb _); [reflexivity|].
  destruct (ProjectID a); reflexivity.
Qed.

Lemma skipn_start_length {A : Type} (l : list A) :
  let n := List.length l in
  List.length (skipn (n - Nat.min n 20) l) = Nat.min n 20.
Proof. cbn. rewrite length_skipn. lia. Qed.

Lemma start_is_length_minus_min (n : nat) :
  (if Nat.ltb 20 n then (n - 20)%nat else 0%nat) = (n - Nat.min n 20)%nat.
Proof. destruct (Nat.ltb_spec 20 n); lia. Qed.

(** The handler returns before it posts anything: the list of payloads is as
    it was, and what remains is the case in which it would have posted. *)
Ltac nothing_posted :=
  exists []; rewrite app_nil_r; split; [reflexivity|]; split; [intros ? ? []|].

(** C9. [SendMessage] posts at most one payload to the workflow engine, and
    every payload it posts carries, of the n messages that the chat had when
    the request came, exactly the last min(n, 20), in their order, as role and
    content; when the payload leaves, the store holds the new user message,
    appended with status "sending". It does post one when the body decodes,
    names a workspace, the API key is set, the product brief is found and the
    driver fails no statement. *)
Theorem send_message_dispatch
        (SWWFKEY HOST : string)
        (httpClient_Do : StakworkChatPayload -> error + HttpAnswer)
        (SendTicketMessage : TicketMessage -> option error)
        (product_brief : tables -> string -> string * option error)
        (xid : string) (now : time) (project_url : Z -> string)
        (r : Request SendMessageRequest) (w : world) :
  let w' := snd (runState (SendMessage SWWFKEY HOST httpClient_Do SendTicketMessage
                                       product_brief xid now project_url r) w) in
  exists added,
    posted w' = (posted w ++ added)%list
    /\ (forall payload t,
          In (payload, t) added ->
          exists request message,
            json_body r = Some request
            /\ let history := filter (fun m => String.eqb (cm_ChatID m) (ChatID request))
                                     (chat_messages (tbl (store w))) in
               let n := List.length history in
               var_history (WorkflowParams payload)
               = map (fun m => mkHistoryEntry (cm_Role m) (cm_Message m))
                     (skipn (n - Nat.min n 20) history)
               /\ List.length (var_history (WorkflowParams payload)) = Nat.min n 20
               /\ chat_messages t = (chat_messages (tbl (store w)) ++ [message])%list
               /\ cm_Status message = "sending"
               /\ cm_ID message = var_messageId (WorkflowParams payload)
               /\ cm_ChatID message = ChatID request
               /\ cm_Message message = Message request
               /\ cm_Role message = "user")
    /\ (forall request,
          json_body r = Some request ->
          WorkspaceUUID request <> "" ->
          SWWFKEY <> "" ->
          faults (store w) = [] ->
          snd (product_brief (tbl (store w)) (WorkspaceUUID request)) = None ->
          exists payload t, added = [(payload, t)]).
Proof.
  intros w'. subst w'. unfold SendMessage.
  destruct (json_body r) as [request|] eqn:Hbody.
  2:{ nothing_posted. intros ? H. discriminate H. }
  destruct (String.eqb_spec (WorkspaceUUID request) "") as [Hws|Hws].
  { nothing_posted. intros ? [= <-] H. contradiction. }
  rewrite run_bind_W, run_on_store, run_GetProductBrief. cbn [fst snd].
  destruct (verdict (store w)) as [e1|] eqn:Hv1.
  { nothing_posted.
    intros ? _ _ _ Hf. rewrite (no_faults_verdict _ Hf) in Hv1. discriminate. }
  destruct (product_brief (tbl (store w)) (WorkspaceUUID request)) as [context [e2|]] eqn:Hpb.
  { nothing_posted. intros ? [= <-] _ _ _ H. rewrite Hpb in H. discriminate. }
  rewrite run_bind_W, run_on_store, run_GetChatMessagesForChatID. cbn [fst snd store].
  destruct (verdict (sent (store w))) as [e3|] eqn:Hv2.
  { nothing_posted.
    intros ? _ _ _ Hf. rewrite (no_faults_sent _ Hf), (no_faults_verdict _ Hf) in Hv2.
    discriminate. }
  change (tbl (sent (store w))) with (tbl (store w)).
  set (history := filter (fun m => String.eqb (cm_ChatID m) (ChatID request))
                         (chat_messages (tbl (store w)))).
  rewrite start_is_length_minus_min.
  rewrite run_bind_W, run_on_store, run_AddChatMessage. cbn [fst snd store posted notified].
  destruct (verdict (sent (sent (store w)))) as [e4|] eqn:Hv3.
  { nothing_posted.
    intros ? _ _ _ Hf. rewrite !(no_faults_sent _ Hf), (no_faults_verdict _ Hf) in Hv3.
    discriminate. }
  cbn [fst snd].
  rewrite run_bind_W.
  match goal with
  | |- context [runState (sendToStakwork _ _ ?p) ?w0] =>
      set (payload := p); set (w3 := w0);
      pose proof (run_sendToStakwork SWWFKEY httpClient_Do payload w3) as Hsend;
      destruct (runState (sendToStakwork SWWFKEY httpClient_Do payload) w3)
        as [[projectID err] w4]
  end.
  cbn [fst snd] in *. subst w4.
  exists (if String.eqb SWWFKEY "" then [] else [(payload, tbl (store w3))]).
  split; [|split].
  - destruct err as [e5|].
    + rewrite run_bind_W, run_on_store.
      destruct (String.eqb SWWFKEY ""); cbn; rewrite ?app_nil_r; reflexivity.
    + destruct (String.eqb SWWFKEY ""); cbn; rewrite ?app_nil_r; reflexivity.
  - intros p t Hin.
    destruct (String.eqb SWWFKEY ""); [destruct Hin|].
    destruct Hin as [[= <- <-]|[]].
    exists request. eexists. split; [reflexivity|].
    cbn. split; [reflexivity|]. split.
    { rewrite length_map. apply skipn_start_length. }
    split; [reflexivity|]. repeat split.
  - intros ? [= <-] _ Hkey _ _.
    apply String.eqb_neq in Hkey. rewrite Hkey. eauto.
Qed.

(** ** Metrics *)

Import MetricsDb.

Lemma float64_of_small (n : N) : (n < 2 ^ 53)%N -> float64_of_N n = n.
Proof.
  intros H. unfold float64_of_N.
  destruct (N.ltb_spec n (2 ^ 53)); [reflexivity|lia].
Qed.

Section MetricsFacts.

Variable pg_int8 : string -> option Z.
Variable uint_of_unrepresentable : Z -> N.

Lemma uint_of_float64_small (n : N) :
  (n < 2 ^ 64)%N -> uint_of_float64 uint_of_unrepresentable (Z.of_N n) = n.
Proof.
  intros H. unfold uint_of_float64.
  assert (H64 : Z.of_N n < 2 ^ 64).
  { change (2 ^ 64) with (Z.of_N (2 ^ 64)). lia. }
  destruct (Z.leb_spec 0 (Z.of_N n)); [|lia].
  destruct (Z.ltb_spec (Z.of_N n) (2 ^ 64)); [|lia].
  cbn. apply N2Z.id.
Qed.

(** The rows that a query of the file gets when the statement runs. *)
Lemma run_select_rows (keep : NewBounty -> bool) (r : PaymentDateRange)
      (workspace : string) (d : database) :
  snd (runState (select_rows pg_int8 keep r workspace) d) = sent d
  /\ match fst (runState (select_rows pg_int8 keep r workspace) d) with
     | inl rows =>
         exists lo hi,
           pg_int8 (StartDate r) = Some lo /\ pg_int8 (EndDate r) = Some hi
           /\ rows = filter (fun b => keep b && in_range lo hi workspace b)
                            (bounty (tbl d))
     | inr _ => True
     end.
Proof.
  unfold select_rows.
  destruct (pg_int8 (StartDate r)) as [lo|]; [destruct (pg_int8 (EndDate r)) as [hi|]|].
  - rewrite run_query. cbn [fst snd]. split; [reflexivity|].
    destruct (verdict d); [exact I|]. now exists lo, hi.
  - rewrite run_bind, run_send. cbn [fst snd].
    destruct (verdict d); cbn; auto.
  - rewrite run_bind, run_send. cbn [fst snd].
    destruct (verdict d); cbn; auto.
Qed.

Lemma sum_price_filter_le (p q : NewBounty -> bool) (l : list NewBounty) :
  (forall b, p b = true -> q b = true) ->
  (sum_price (filter p l) <= sum_price (filter q l))%N.
Proof.
  intros Hpq. unfold sum_price. induction l as [|b l IH]; [reflexivity|].
  cbn [filter]. destruct (p b) eqn:Ep.
  - rewrite (Hpq b Ep). cbn [fold_right]. lia.
  - destruct (q b); cbn [fold_right]; lia.
Qed.

Lemma length_filter_le (p q : NewBounty -> bool) (l : list NewBounty) :
  (forall b, p b = true -> q b = true) ->
  (List.length (filter p l) <= List.length (filter q l))%nat.
Proof.
  intros Hpq. induction l as [|b l IH]; [reflexivity|].
  cbn [filter]. destruct (p b) eqn:Ep.
  - rewrite (Hpq b Ep). cbn [List.length]. lia.
  - destruct (q b); cbn [List.length]; lia.
Qed.

Lemma scan_sum_le (rows : list NewBounty) :
  (scan_sum (inl rows) <= sum_price rows)%N.
Proof.
  unfold scan_sum. destruct rows as [|b rows]; [cbn; lia|].
  destruct (N.ltb_spec (sum_price (b :: rows)) uint_modulus); lia.
Qed.

Lemma scan_sum_nonzero (rows : list NewBounty) :
  scan_sum (inl rows) <> 0%N ->
  scan_sum (inl rows) = sum_price rows /\ (sum_price rows < uint_modulus)%N.
Proof.
  unfold scan_sum. destruct rows as [|b rows]; [congruence|].
  destruct (N.ltb_spec (sum_price (b :: rows)) uint_modulus); [auto|congruence].
Qed.

(** What was paid is part of what was posted. *)
Lemma sats_paid_le_posted (r : PaymentDateRange) (workspace : string)
      (d d' : database) :
  tbl d' = tbl d ->
  let posted := fst (runState (TotalSatsPosted pg_int8 r workspace) d) in
  let paid := fst (runState (TotalSatsPaid pg_int8 r workspace) d') in
  posted <> 0%N -> (paid <= posted /\ posted < uint_modulus)%N.
Proof.
  intros Ht posted paid. subst posted paid.
  unfold TotalSatsPosted, TotalSatsPaid. rewrite !run_bind, !run_ret.
  cbn [fst].
  destruct (run_select_rows (fun _ => true) r workspace d) as [_ H1].
  destruct (run_select_rows (fun b => b_Paid b) r workspace d') as [_ H2].
  destruct (fst (runState (select_rows pg_int8 (fun _ => true) r workspace) d))
    as [rows|e]; [|cbn; congruence].
  destruct H1 as (lo & hi & Hlo & Hhi & ->).
  intros Hnz. apply scan_sum_nonzero in Hnz as [-> Hlt]. split; [|exact Hlt].
  destruct (fst (runState (select_rows pg_int8 (fun b => b_Paid b) r workspace) d'))
    as [rows'|e]; [|cbn; lia].
  destruct H2 as (lo' & hi' & Hlo' & Hhi' & ->).
  rewrite Hlo in Hlo'. rewrite Hhi in Hhi'.
  injection Hlo' as <-. injection Hhi' as <-. rewrite Ht.
  etransitivity; [apply scan_sum_le|].
  apply sum_price_filter_le. intros b Hb.
  apply andb_true_iff in Hb as [_ Hb]. exact Hb.
Qed.

Lemma counts_paid_le_posted (r : PaymentDateRange) (workspace : string)
      (d d' : database) :
  tbl d' = tbl d ->
  let posted := fst (runState (TotalBountiesPosted pg_int8 r workspace) d) in
  let paid := fst (runState (TotalPaidBounties pg_int8 r workspace) d') in
  0 <= paid /\ 0 <= posted /\ (posted <> 0 -> paid <= posted).
Proof.
  intros Ht posted paid. subst posted paid.
  unfold TotalBountiesPosted, TotalPaidBounties. rewrite !run_bind, !run_ret.
  cbn [fst].
  destruct (run_select_rows (fun _ => true) r workspace d) as [_ H1].
  destruct (run_select_rows (fun b => b_Paid b) r workspace d') as [_ H2].
  destruct (fst (runState (select_rows pg_int8 (fun _ => true) r workspace) d))
    as [rows|e];
  destruct (fst (runState (select_rows pg_int8 (fun b => b_Paid b) r workspace) d'))
    as [rows'|e']; cbn [scan_count]; try lia.
  destruct H1 as (lo & hi & Hlo & Hhi & ->).
  destruct H2 as (lo' & hi' & Hlo' & Hhi' & ->).
  rewrite Hlo in Hlo'. rewrite Hhi in Hhi'.
  injection Hlo' as <-. injection Hhi' as <-. rewrite Ht.
  split; [lia|]. split; [lia|]. intros _.
  apply inj_le. apply length_filter_le. intros b Hb.
  apply andb_true_iff in Hb as [_ Hb]. exact Hb.
Qed.

End MetricsFacts.

Lemma uint_mul_fits (a b : N) : (a * b < 2 ^ 64)%N -> uint_mul a b = (a * b)%N.
Proof. intros H. unfold uint_mul, uint_wrap, uint_modulus. now apply N.mod_small. Qed.

Lemma int64_mul_fits (a b : Z) : 0 <= a * b < 2 ^ 63 -> int64_mul a b = a * b.
Proof.
  intros H. unfold int64_mul, int64_wrap.
  rewrite Z.mod_small; lia.
Qed.

Lemma percent_le_100 (paid posted : N) :
  (paid <= posted)%N -> posted <> 0%N -> (uint_mul paid 100 / posted <= 100)%N.
Proof.
  intros Hle Hnz. apply N.Div0.div_le_upper_bound.
  unfold uint_mul, uint_wrap, uint_modulus.
  etransitivity; [apply N.Div0.mod_le|]. nia.
Qed.

(** C10. [SatsPaidPercentage] and [BountiesPaidPercentage] never divide by
    zero (they return, they do not panic): when the posted total or the paid
    total is zero they return 0; otherwise they return (paid * 100) / posted in
    the machine arithmetic of the operands, which is the integer percentage
    whenever paid * 100 fits the operand type. The conversion to a double and
    back changes nothing, since what was paid is part of what was posted and
    the quotient is at most 100. *)
Theorem paid_percentages_guard_zero
        (pg_int8 : string -> option Z) (uint_of_unrepresentable : Z -> N)
        (r : PaymentDateRange) (workspace : string) (d : database) :
  let satsPosted := fst (runState (TotalSatsPosted pg_int8 r workspace) d) in
  let satsPaid := fst (runState (TotalSatsPaid pg_int8 r workspace) (sent d)) in
  let bountiesPosted := fst (runState (TotalBountiesPosted pg_int8 r workspace) d) in
  let bountiesPaid := fst (runState (TotalPaidBounties pg_int8 r workspace) (sent d)) in
  let sats := runState (SatsPaidPercentage pg_int8 uint_of_unrepresentable r workspace) d in
  let bounties :=
    runState (BountiesPaidPercentage pg_int8 uint_of_unrepresentable r workspace) d in
  (satsPosted = 0%N \/ satsPaid = 0%N -> sats = (Returns 0%N, sent (sent d)))
  /\ (satsPosted <> 0%N -> satsPaid <> 0%N ->
      sats = (Returns (uint_mul satsPaid 100 / satsPosted)%N, sent (sent d))
      /\ ((satsPaid * 100 < 2 ^ 64)%N ->
          sats = (Returns (satsPaid * 100 / satsPosted)%N, sent (sent d))))
  /\ (bountiesPosted = 0 \/ bountiesPaid = 0 -> bounties = (Returns 0%N, sent (sent d)))
  /\ (bountiesPosted <> 0 -> bountiesPaid <> 0 ->
      (exists n, bounties = (Returns n, sent (sent d)))
      /\ (bountiesPaid * 100 < 2 ^ 63 ->
          bounties = (Returns (Z.to_N (bountiesPaid * 100 / bountiesPosted)),
                      sent (sent d)))).
Proof.
  intros satsPosted satsPaid bountiesPosted bountiesPaid sats bounties.
  assert (Hs1 : snd (runState (TotalSatsPosted pg_int8 r workspace) d) = sent d).
  { unfold TotalSatsPosted. rewrite run_bind, run_ret. cbn [snd].
    apply run_select_rows. }
  assert (Hs2 : snd (runState (TotalSatsPaid pg_int8 r workspace) (sent d))
                = sent (sent d)).
  { unfold TotalSatsPaid. rewrite run_bind, run_ret. cbn [snd].
    apply run_select_rows. }
  assert (Hc1 : snd (runState (TotalBountiesPosted pg_int8 r workspace) d) = sent d).
  { unfold TotalBountiesPosted. rewrite run_bind, run_ret. cbn [snd].
    apply run_select_rows. }
  assert (Hc2 : snd (runState (TotalPaidBounties pg_int8 r workspace) (sent d))
                = sent (sent d)).
  { unfold TotalPaidBounties. rewrite run_bind, run_ret. cbn [snd].
    apply run_select_rows. }
  assert (Hsats :
    sats = (if negb (N.eqb satsPaid 0) && negb (N.eqb satsPosted 0)
            then Returns (uint_mul satsPaid 100 / satsPosted)%N
            else Returns 0%N, sent (sent d))).
  { subst sats. unfold SatsPaidPercentage.
    rewrite run_bind, Hs1. fold satsPosted.
    rewrite run_bind, Hs2. fold satsPaid.
    destruct (N.eqb_spec satsPaid 0) as [|Hpaid]; [reflexivity|].
    destruct (N.eqb_spec satsPosted 0) as [|Hposted]; [reflexivity|].
    cbn [negb andb]. unfold uint_div.
    destruct (N.eqb_spec satsPosted 0) as [|_]; [contradiction|].
    rewrite run_ret. f_equal. f_equal. unfold math_Round.
    destruct (sats_paid_le_posted pg_int8 r workspace d (sent d) eq_refl Hposted)
      as [Hle _].
    fold satsPaid satsPosted in Hle.
    pose proof (percent_le_100 satsPaid satsPosted Hle Hposted) as H100.
    rewrite float64_of_small by (change (2 ^ 53)%N with 9007199254740992%N; lia).
    apply uint_of_float64_small.
    change (2 ^ 64)%N with 18446744073709551616%N. lia. }
  assert (Hbounties :
    bounties = (if negb (Z.eqb bountiesPaid 0) && negb (Z.eqb bountiesPosted 0)
                then Returns (uint_of_float64 uint_of_unrepresentable
                                (float64_of_int64
                                   (Z.quot (int64_mul bountiesPaid 100) bountiesPosted)))
                else Returns 0%N, sent (sent d))).
  { subst bounties. unfold BountiesPaidPercentage.
    rewrite run_bind, Hc1. fold bountiesPosted.
    rewrite run_bind, Hc2. fold bountiesPaid.
    destruct (Z.eqb_spec bountiesPaid 0) as [|Hpaid]; [reflexivity|].
    destruct (Z.eqb_spec bountiesPosted 0) as [|Hposted]; [reflexivity|].
    cbn [negb andb]. unfold int64_div.
    destruct (Z.eqb_spec bountiesPosted 0) as [|_]; [contradiction|].
    reflexivity. }
  split; [|split; [|split]].
  - rewrite Hsats. intros [-> | ->]; [|reflexivity].
    now rewrite andb_false_r.
  - intros Hposted Hpaid. rewrite Hsats.
    apply N.eqb_neq in Hposted, Hpaid. rewrite Hposted, Hpaid. cbn [negb andb].
    split; [reflexivity|]. intros Hfit. now rewrite uint_mul_fits.
  - rewrite Hbounties. intros [-> | ->]; [|reflexivity].
    now rewrite andb_false_r.
  - intros Hposted Hpaid. rewrite Hbounties.
    pose proof (counts_paid_le_posted pg_int8 r workspace d (sent d) eq_refl)
      as (Hp0 & Hq0 & Hle).
    fold bountiesPaid bountiesPosted in Hp0, Hq0, Hle. specialize (Hle Hposted).
    apply Z.eqb_neq in Hposted, Hpaid. rewrite Hposted, Hpaid. cbn [negb andb].
    split; [eauto|]. intros Hfit.
    apply Z.eqb_neq in Hposted, Hpaid.
    rewrite int64_mul_fits by lia.
    rewrite Z.quot_div_nonneg by lia.
    assert (H100 : 0 <= bountiesPaid * 100 / bountiesPosted <= 100).
    { split; [apply Z.div_pos; lia|].
      apply Z.div_le_upper_bound; lia. }
    set (v := bountiesPaid * 100 / bountiesPosted) in *.
    unfold float64_of_int64.
    destruct (Z.ltb_spec v 0); [lia|].
    rewrite float64_of_small.
    2:{ change (2 ^ 53)%N with 9007199254740992%N. lia. }
    rewrite N2Z.inj_abs_N, Z.abs_eq by lia.
    unfold uint_of_float64.
    destruct (Z.leb_spec 0 v); [|lia].
    destruct (Z.ltb_spec v (2 ^ 64)); [reflexivity|].
    change (2 ^ 64) with 18446744073709551616 in *. lia.
Qed.

(** * The properties on the rows of the tests *)


Lemma bounty_from_ticket_fields_witness :
  exists b,
    fst (runState (CreateBountyFromTicket 1700000500 Fixtures.ticket "test-pubkey")
                  Fixtures.db0) = (Some b, None)
    /\ b_Title b = "Test Ticket"
    /\ b_Description b = "Test Description"
    /\ b_PhaseUuid b = "phase-uuid"
    /\ b_WorkspaceUuid b = "workspace-uuid"
    /\ b_Type b = "freelance_job_request"
    /\ b_Price b = 21%N
    /\ b_Show b = true.
Proof.
  destruct (bounty_from_ticket_fields 1700000500 Fixtures.ticket "test-pubkey"
              Fixtures.db0 Fixtures.feature eq_refl eq_refl eq_refl)
    as (b & Hrun & Ht & Hd & Hp & _ & Hw & Hty & Hpr & Hs & _).
  exists b. rewrite Hrun. repeat split; assumption.
Defined.

Lemma ticket_to_bounty_unknown_ticket_witness :
  let r := Fixtures.request (B := unit) "test-pubkey"
             [("ticket_uuid", "0b9c1f2e-58d1-4c0b-9d0e-2a4d7c1e9f00")] None in
  code (fst (runState (TicketHandlers.TicketToBounty 1700000500 r) Fixtures.db0))
  = StatusNotFound
  /\ bounty (tbl (snd (runState (TicketHandlers.TicketToBounty 1700000500 r) Fixtures.db0)))
     = [].
Proof.
  intros r.
  destruct (ticket_to_bounty_unknown_ticket 1700000500 r Fixtures.db0)
    as (_ & Hcode & _ & Hb).
  - discriminate.
  - discriminate.
  - intros t [<-|[]]. discriminate.
  - split; [exact Hcode | exact Hb].
Defined.

Lemma feature_for_unknown_workspace_rejected_witness :
  let f := mkWorkspaceFeatures 0 "new-feature-uuid" "non-existent-uuid" "test-feature"
                               "https://github.com/test-feature" 0 "" "" in
  let r := Fixtures.request "test-pubkey" [] (Some f) in
  let res := runState (CreateOrEditFeatures (fun _ => None) (fun _ => "xid0") r)
                      Fixtures.db0 in
  code (fst res) = StatusUnauthorized
  /\ workspace_features (tbl (snd res)) = [Fixtures.feature].
Proof.
  intros f r res.
  destruct (feature_for_unknown_workspace_rejected
              (fun _ => None) (fun _ => "xid0") r f Fixtures.db0)
    as (Hcode & _ & Hf).
  - discriminate.
  - reflexivity.
  - discriminate.
  - intros w [<-|[]]. discriminate.
  - split; [exact Hcode | exact Hf].
Defined.

Lemma upsert_without_uuid_rejected_witness :
  let t := set_Status ReadyTicket Tickets_zero in
  runState (CreateOrEditTicket 1700000500 t) Fixtures.db0
  = ((Tickets_zero, Some (ErrNew "ticket UUID is required")), Fixtures.db0)
  /\ runState (UpdateTicket 1700000500 t) Fixtures.db0
     = ((Tickets_zero, Some (ErrNew "ticket UUID is required")), Fixtures.db0).
Proof.
  intros t.
  exact (upsert_without_uuid_rejected 1700000500 t Fixtures.db0 eq_refl).
Defined.

Lemma upsert_with_invalid_status_rejected_witness :
  let t := set_Status "done" Fixtures.ticket in
  runState (CreateOrEditTicket 1700000500 t) Fixtures.db0
  = ((Tickets_zero, Some (ErrNew "invalid ticket status")), Fixtures.db0)
  /\ runState (UpdateTicket 1700000500 t) Fixtures.db0
     = ((Tickets_zero, Some (ErrNew "invalid ticket status")), Fixtures.db0).
Proof.
  intros t.
  apply (upsert_with_invalid_status_rejected 1700000500 t Fixtures.db0).
  - discriminate.
  - cbn. intros H.
    repeat (destruct H as [H|H]; [discriminate H|]). exact H.
Defined.

Lemma partial_update_retains_omitted_fields_witness :
  let res := runState (CreateOrEditTicket 1700000500 Fixtures.description_and_status)
                      Fixtures.db0 in
  snd (fst res) = None
  /\ Name (fst (fst res)) = "Test Ticket"
  /\ FeatureUUID (fst (fst res)) = "feature-uuid"
  /\ PhaseUUID (fst (fst res)) = "phase-uuid"
  /\ Description (fst (fst res)) = "Updated Description"
  /\ Status (fst (fst res)) = ReadyTicket.
Proof.
  intros res.
  destruct (partial_update_retains_omitted_fields
              1700000500 Fixtures.description_and_status Fixtures.ticket Fixtures.db0
              eq_refl)
    as (_ & new & _ & Hret & Hok & Hno).
  fold res in Hok, Hno.
  assert (Herr : snd (fst res) = None).
  { apply Hno.
    - discriminate.
    - right. cbn. tauto.
    - reflexivity. }
  destruct (Hok Herr) as [-> Hnew].
  destruct Hret as (Hn & Hf & Hp & _).
  split; [exact Herr|].
  rewrite (Hn eq_refl), (Hf eq_refl), (Hp eq_refl), Hnew.
  repeat split.
Defined.

Lemma listing_without_bounties_not_found_witness :
  let r := Fixtures.request (B := unit) "test-pubkey"
             [("feature_uuid", "feature-uuid"); ("phase_uuid", "phase-uuid")] None in
  runState (GetBountiesByFeatureAndPhaseUuid
              (fun _ _ => true) (fun _ a b => Z.leb (b_ID a) (b_ID b)) (fun _ => None)
              NewBounty (fun bs => bs) r) Fixtures.db0
  = (mkResponse StatusNotFound None, Fixtures.db0).
Proof.
  intros r.
  apply (listing_without_bounties_not_found
           (fun _ _ => true) (fun _ a b => Z.leb (b_ID a) (b_ID b)) (fun _ => None)
           NewBounty (fun bs => bs) r Fixtures.db0).
  - discriminate.
  - intros b [].
Defined.

Lemma stories_for_unknown_feature_skipped_witness :
  let stories := [mkFeatureStories "This is a test user story 4" "This is a test rationale 4" 4;
                  mkFeatureStories "This is a test user story 5" "This is a test rationale 5" 5;
                  mkFeatureStories "This is a test user story 6" "This is a test rationale 6" 6] in
  let payload := mkFeatureStoriesReponse
                   (mkFeatureOutput "Feature Context" "Fake-feature-uuid" stories) in
  let r := Fixtures.request "" [] (Some payload) in
  let res := runState (GetFeatureStories (fun _ => "xid0") (fun _ => 1700000500) r)
                      Fixtures.db0 in
  fst res = mkResponse StatusOK (Some (JString "User stories added successfully"))
  /\ feature_stories (tbl (snd res)) = [].
Proof.
  intros stories payload r res.
  destruct (stories_for_unknown_feature_skipped
              (fun _ => "xid0") (fun _ => 1700000500) r payload Fixtures.db0)
    as (Hresp & Htbl & _).
  - reflexivity.
  - intros f [<-|[]]. discriminate.
  - fold res in Hresp, Htbl. split; [exact Hresp|]. now rewrite Htbl.
Defined.

(** The ticket of the tests becomes bounty number 1, answered 201. *)
Example ticket_to_bounty_created :
  let r := Fixtures.request (B := unit) "test-pubkey"
             [("ticket_uuid", "6f1d0a3e-0d5c-4c55-8a53-2f0a3f8f7a11")] None in
  let res := runState (TicketHandlers.TicketToBounty 1700000500 r) Fixtures.db0 in
  fst res = mkResponse StatusCreated
              (Some (JValue (TicketHandlers.mkCreateBountyResponse
                               1 true "Bounty created successfully")))
  /\ map b_Title (bounty (tbl (snd res))) = ["Test Ticket"].
Proof. vm_compute. split; reflexivity. Qed.

(** A listing of a phase that has bounties is answered 200. *)
Example listing_with_bounties_ok :
  let r := Fixtures.request (B := unit) "test-pubkey"
             [("feature_uuid", "feature-uuid"); ("phase_uuid", "phase-uuid")] None in
  fst (runState (GetBountiesByFeatureAndPhaseUuid
                   (fun _ _ => true) (fun _ a b => Z.leb (b_ID a) (b_ID b)) (fun _ => None)
                   NewBounty (fun bs => bs) r) Fixtures.db1)
  = mkResponse StatusOK (Some (JValue [Fixtures.bounty; Fixtures.paid_bounty])).
Proof. vm_compute. reflexivity. Qed.

(** Stories addressed to the feature of the tests are stored. *)
Example stories_for_known_feature_stored :
  let stories := [mkFeatureStories "This is a test user story" "This is a test rationale" 1;
                  mkFeatureStories "This is a test user story 2" "This is a test rationale 2" 2] in
  let payload := mkFeatureStoriesReponse
                   (mkFeatureOutput "Feature Context" "feature-uuid" stories) in
  let r := Fixtures.request "" [] (Some payload) in
  let res := runState (GetFeatureStories (fun n => if Nat.eqb n 0 then "xid0" else "xid1")
                                         (fun _ => 1700000500) r)
                      Fixtures.db0 in
  code (fst res) = StatusOK
  /\ map fs_Description (feature_stories (tbl (snd res)))
     = ["This is a test user story"; "This is a test user story 2"].
Proof. vm_compute. split; reflexivity. Qed.

(** With 25 messages in the chat, the payload carries the last 20 and the new
    message is stored as [sending] when the payload leaves. *)
Example send_message_with_25_messages :
  let tables25 := with_chat_messages (Fixtures.chat_history 25) Fixtures.tables0 in
  let w := mkWorld (mkDatabase tables25 []) [] [] in
  let request := mkSendMessageRequest "chat-1" "How are you?" [] "ws-session" "workspace-uuid" in
  let r := Fixtures.request "" [] (Some request) in
  let w' := snd (runState
                   (SendMessage "key" "https://host"
                                (fun _ => inr (mkHttpAnswer 200 "" (inl 7)))
                                (fun _ => None)
                                (fun _ _ => ("brief", None))
                                "xid-new" 1700000500 (fun _ => "project-url") r) w) in
  map (fun p => List.length (var_history (WorkflowParams (fst p)))) (posted w') = [20%nat]
  /\ map (fun p => map cm_Timestamp (firstn 1 (skipn 5 (chat_messages (snd p))))) (posted w')
     = [[1700000005]]
  /\ map (fun p => map cm_Status (skipn 25 (chat_messages (snd p)))) (posted w')
     = [["sending"]]
  /\ List.length (notified w') = 2%nat.
Proof. vm_compute. repeat split; reflexivity. Qed.

(** Of 1500 sats posted 500 are paid, of two bounties one; with no bounty in
    the range both percentages are 0. *)
Example paid_percentages_of_the_tests :
  let pg_int8 := fun s : string =>
                   if String.eqb s "1700000000" then Some 1700000000
                   else if String.eqb s "1800000000" then Some 1800000000
                   else if String.eqb s "1900000000" then Some 1900000000
                   else None in
  let r := mkPaymentDateRange "1700000000" "1800000000" "payment" in
  let later := mkPaymentDateRange "1800000000" "1900000000" "payment" in
  fst (runState (SatsPaidPercentage pg_int8 (fun _ => 0%N) r "") Fixtures.db1)
  = Returns 33%N
  /\ fst (runState (BountiesPaidPercentage pg_int8 (fun _ => 0%N) r "workspace-uuid")
                   Fixtures.db1) = Returns 50%N
  /\ fst (runState (SatsPaidPercentage pg_int8 (fun _ => 0%N) later "") Fixtures.db1)
     = Returns 0%N
  /\ fst (runState (BountiesPaidPercentage pg_int8 (fun _ => 0%N) later "") Fixtures.db1)
     = Returns 0%N.
Proof. vm_compute. repeat split; reflexivity. Qed.

(** Doubles have 53 significant bits: ties go to the even neighbour. *)
Example float64_of_N_rounds :
  float64_of_N (2 ^ 53 + 1) = (2 ^ 53)%N
  /\ float64_of_N (2 ^ 53 + 3) = (2 ^ 53 + 4)%N
  /\ float64_of_N (2 ^ 64 - 1) = (2 ^ 64)%N
  /\ float64_of_N 100 = 100%N.
Proof. vm_compute. repeat split; reflexivity. Qed.

(** * Further properties *)

(** ** Tickets: insert, delete, listings *)

Lemma run_FindAll (q : tables -> list Tickets) (d : database) :
  runState (FindAll q) d
  = (match verdict d with
     | Some e => ([], 0, Some e)
     | None => (q (tbl d), Z.of_nat (List.length (q (tbl d))), None)
     end, sent d).
Proof.
  unfold FindAll. rewrite run_bind, run_query. cbn [fst snd].
  destruct (verdict d); reflexivity.
Qed.

Lemma run_Create (ticket : Tickets) (d : database) :
  runState (Create ticket) d
  = (verdict d,
     match verdict d with
     | Some _ => sent d
     | None => mkDatabase (with_tickets (tickets (tbl d) ++ [ticket]) (tbl d))
                          (tl (faults d))
     end).
Proof. unfold Create. rewrite run_exec. reflexivity. Qed.

Lemma find_app_none {A : Type} (p : A -> bool) (l : list A) (x : A) :
  find p l = None -> p x = true -> find p (l ++ [x]) = Some x.
Proof.
  induction l as [|y l IH]; cbn; intros Hn Hx.
  - now rewrite Hx.
  - destruct (p y); [discriminate|]. now apply IH.
Qed.


(** X1. An upsert of a ticket whose UUID no row bears inserts it: when the
    ticket passes the checks and the driver runs the lookup and the insert,
    [CreateOrEditTicket] returns the ticket with both timestamps set to the
    time of the call and with the status draft when it had none, appends
    exactly that row to the tickets table, the stored status is one of the
    seven, and a following [GetTicket] of that UUID returns the same
    ticket. *)
Theorem upsert_of_unknown_uuid_inserts
        (now : time) (ticket : Tickets) (d : database) :
  UUID ticket <> uuid_Nil ->
  Status ticket = "" \/ In (Status ticket) ticket_statuses ->
  (forall row, In row (tickets (tbl d)) -> UUID row <> UUID ticket) ->
  verdict d = None ->
  verdict (sent d) = None ->
  let res := runState (CreateOrEditTicket now ticket) d in
  fst res = (created_ticket now ticket, None)
  /\ tbl (snd res)
     = with_tickets (tickets (tbl d) ++ [created_ticket now ticket]) (tbl d)
  /\ In (Status (created_ticket now ticket)) ticket_statuses
  /\ (verdict (snd res) = None ->
      fst (runState (GetTicket (UUID ticket)) (snd res))
      = (created_ticket now ticket, None)).
Proof.
  intros Hu Hs Hnew Hv1 Hv2 res.
  assert (Hfind : find (has_uuid (UUID ticket)) (tickets (tbl d)) = None).
  { apply find_none_iff. intros row Hrow. apply String.eqb_neq. now apply Hnew. }
  assert (Hres : res = ((created_ticket now ticket, None),
                        mkDatabase (with_tickets (tickets (tbl d)
                                                  ++ [created_ticket now ticket]) (tbl d))
                                   (tl (tl (faults d))))).
  { subst res. unfold CreateOrEditTicket.
    apply String.eqb_neq in Hu. rewrite Hu.
    assert (Hg : negb (String.eqb (Status ticket) "")
                 && negb (IsValidTicketStatus (Status ticket)) = false).
    { destruct Hs as [->|Hs]; [reflexivity|].
      apply IsValidTicketStatus_In in Hs. rewrite Hs. apply andb_false_r. }
    rewrite Hg, run_bind, run_First, Hv1, Hfind. cbn [fst snd errors_Is_ErrRecordNotFound
                                                       is_ErrRecordNotFound].
    rewrite run_bind, run_Create, Hv2. cbn [fst snd]. reflexivity. }
  rewrite Hres. cbn [fst snd tbl]. split; [reflexivity|]. split; [reflexivity|].
  split.
  - unfold created_ticket. cbn.
    destruct (String.eqb_spec (Status ticket) "") as [He|Hne]; cbn.
    + left. reflexivity.
    + destruct Hs as [Hs|Hs]; [contradiction|exact Hs].
  - intros Hv3. rewrite run_GetTicket, Hv3. cbn [fst tbl tickets with_tickets].
    rewrite (find_app_none _ _ (created_ticket now ticket) Hfind); [reflexivity|].
    unfold has_uuid, created_ticket. cbn.
    destruct (String.eqb (Status ticket) ""); cbn; apply String.eqb_refl.
Qed.

Lemma run_Delete (u : string) (d : database) :
  runState (Delete u) d
  = match verdict d with
    | Some e => ((0, Some e), sent d)
    | None =>
        ((Z.of_nat (List.length (filter (has_uuid u) (tickets (tbl d)))), None),
         mkDatabase (with_tickets (filter (fun row => negb (has_uuid u row))
                                          (tickets (tbl d))) (tbl d))
                    (tl (faults d)))
    end.
Proof. destruct d as [t [|[m|] fs]]; reflexivity. Qed.

Lemma length_filter_zero {A : Type} (p : A -> bool) (l : list A) :
  Z.eqb (Z.of_nat (List.length (filter p l))) 0 = negb (existsb p l).
Proof.
  induction l as [|x l IH]; [reflexivity|].
  cbn [filter existsb]. destruct (p x); [reflexivity|]. exact IH.
Qed.

Lemma filter_negb_id {A : Type} (p : A -> bool) (l : list A) :
  (forall x, In x l -> p x = false) -> filter (fun x => negb (p x)) l = l.
Proof.
  induction l as [|y l IH]; intros H; [reflexivity|].
  cbn. rewrite (H y (or_introl eq_refl)). cbn. f_equal. apply IH.
  intros x Hx. apply H. now right.
Qed.

Lemma find_filter_negb {A : Type} (p : A -> bool) (l : list A) :
  find p (filter (fun x => negb (p x)) l) = None.
Proof.
  apply find_none_iff. intros x Hx. apply filter_In in Hx as [_ Hx].
  now apply negb_true_iff in Hx.
Qed.

Lemma find_filter_other {A : Type} (p q : A -> bool) (l : list A) :
  (forall x, p x = true -> q x = true) ->
  find p (filter q l) = find p l.
Proof.
  intros Hpq. induction l as [|y l IH]; [reflexivity|].
  cbn. destruct (p y) eqn:Ep.
  - rewrite (Hpq y Ep). cbn. now rewrite Ep.
  - destruct (q y); cbn; [rewrite Ep|]; exact IH.
Qed.

Lemma existsb_filter_negb {A : Type} (p : A -> bool) (l : list A) :
  existsb p (filter (fun x => negb (p x)) l) = false.
Proof.
  induction l as [|y l IH]; [reflexivity|].
  cbn. destruct (p y) eqn:Ep; cbn; [exact IH|]. now rewrite Ep.
Qed.

(** X2. [DeleteTicket] removes every row of the given UUID and no other
    row. When the driver fails the statement the error is wrapped and no
    table changes; otherwise the result is nil when some row bore the UUID
    and "ticket not found" when none did, in which case the tables are as
    they were. Rows of other UUIDs are found as before, and afterwards
    [GetTicket] of that UUID and a second [DeleteTicket] both answer
    "ticket not found". *)
Theorem delete_ticket_removes_the_row (uuid : string) (d : database) :
  let res := runState (DeleteTicket uuid) d in
  match verdict d with
  | Some e =>
      res = (Some (ErrWrap "failed to delete ticket: " e), sent d)
  | None =>
      fst res = (if existsb (has_uuid uuid) (tickets (tbl d)) then None
                 else Some (ErrNew "ticket not found"))
      /\ tbl (snd res)
         = with_tickets (filter (fun row => negb (has_uuid uuid row)) (tickets (tbl d)))
                        (tbl d)
      /\ ((forall row, In row (tickets (tbl d)) -> UUID row <> uuid) ->
          tbl (snd res) = tbl d)
      /\ (forall other, other <> uuid ->
            find (has_uuid other) (tickets (tbl (snd res)))
            = find (has_uuid other) (tickets (tbl d)))
      /\ (verdict (snd res) = None ->
          fst (runState (GetTicket uuid) (snd res))
          = (Tickets_zero, Some (ErrNew "ticket not found"))
          /\ fst (runState (DeleteTicket uuid) (snd res))
             = Some (ErrNew "ticket not found"))
  end.
Proof.
  intros res. subst res. unfold DeleteTicket.
  rewrite run_bind, run_Delete.
  destruct (verdict d) as [e|] eqn:Hv; [reflexivity|].
  cbn [fst snd tbl]. rewrite length_filter_zero.
  split; [destruct (existsb _ _); reflexivity|].
  assert (Hsnd : forall b : bool,
             tbl (snd (runState (if b then ret (Some (ErrNew "ticket not found"))
                                 else ret (@None error))
                                (mkDatabase
                                   (with_tickets
                                      (filter (fun row => negb (has_uuid uuid row))
                                              (tickets (tbl d))) (tbl d))
                                   (tl (faults d)))))
             = with_tickets (filter (fun row => negb (has_uuid uuid row))
                                    (tickets (tbl d))) (tbl d)).
  { intros []; reflexivity. }
  rewrite Hsnd. split; [reflexivity|]. split; [|split].
  - intros Hnone. rewrite filter_negb_id.
    + destruct (tbl d); reflexivity.
    + intros row Hrow. apply String.eqb_neq. now apply Hnone.
  - intros other Hother. cbn [tickets with_tickets].
    apply find_filter_other. intros row Hrow. apply negb_true_iff.
    unfold has_uuid in *. apply String.eqb_eq in Hrow. apply String.eqb_neq. congruence.
  - intros Hv2. split.
    + rewrite run_GetTicket, Hv2. cbn [fst]. rewrite Hsnd. cbn [tickets with_tickets].
      now rewrite find_filter_negb.
    + rewrite run_bind, run_Delete, Hv2. cbn [fst snd]. rewrite Hsnd.
      cbn [tickets with_tickets]. rewrite length_filter_zero, existsb_filter_negb.
      reflexivity.
Qed.

(** ** Insertion sort, as [ORDER BY] is read *)

Section SortFacts.

Context {A : Type} (le : A -> A -> bool).

Lemma insert_by_perm (x : A) (l : list A) :
  Permutation (DbSpec.insert_by le x l) (x :: l).
Proof.
  induction l as [|y l IH]; cbn; [reflexivity|].
  destruct (le x y); [reflexivity|].
  rewrite IH. apply perm_swap.
Qed.

Lemma sort_by_perm (l : list A) : Permutation (DbSpec.sort_by le l) l.
Proof.
  unfold DbSpec.sort_by. induction l as [|x l IH]; cbn; [reflexivity|].
  rewrite insert_by_perm. now constructor.
Qed.

Hypothesis le_total : forall a b, le a b = true \/ le b a = true.
Hypothesis le_trans : forall a b c, le a b = true -> le b c = true -> le a c = true.

Lemma insert_by_sorted (x : A) (l : list A) :
  StronglySorted (fun a b => le a b = true) l ->
  StronglySorted (fun a b => le a b = true) (DbSpec.insert_by le x l).
Proof.
  induction 1 as [|y l Hs IH Hy]; cbn.
  - repeat constructor.
  - destruct (le x y) eqn:Exy.
    + constructor; [now constructor|].
      constructor; [exact Exy|].
      eapply Forall_impl; [|exact Hy]. intros z Hz. now apply (le_trans x y z).
    + constructor; [exact IH|].
      assert (Hyx : le y x = true) by (destruct (le_total x y); congruence).
      eapply Permutation_Forall; [symmetry; apply insert_by_perm|].
      now constructor.
Qed.

Lemma sort_by_sorted (l : list A) :
  StronglySorted (fun a b => le a b = true) (DbSpec.sort_by le l).
Proof.
  unfold DbSpec.sort_by. induction l as [|x l IH]; cbn; [constructor|].
  now apply insert_by_sorted.
Qed.

End SortFacts.

Lemma StronglySorted_weaken {A : Type} (R S : A -> A -> Prop) (l : list A) :
  (forall a b, R a b -> S a b) -> StronglySorted R l -> StronglySorted S l.
Proof.
  intros HRS. induction 1 as [|x l Hs IH Hx]; constructor; [exact IH|].
  eapply Forall_impl; [|exact Hx]. intros b. apply HRS.
Qed.

(** X3. [GetTicketsByPhaseUUID] changes no table and returns, when the
    statement runs, exactly the tickets of the given feature and phase (a
    permutation of them, none lost, none added), in ascending order of
    their sequence number; when the driver fails the statement it returns
    the wrapped error and no ticket. *)
Theorem tickets_of_phase_in_sequence (featureUUID phaseUUID : string) (d : database) :
  let res := runState (GetTicketsByPhaseUUID featureUUID phaseUUID) d in
  snd res = sent d
  /\ match verdict d with
     | Some e => fst res = ([], Some (ErrWrap "failed to fetch tickets: " e))
     | None =>
         snd (fst res) = None
         /\ StronglySorted (fun a b => Sequence a <= Sequence b) (fst (fst res))
         /\ Permutation (fst (fst res))
                        (filter (of_phase featureUUID phaseUUID) (tickets (tbl d)))
         /\ (forall t, In t (fst (fst res)) <->
                       In t (tickets (tbl d))
                       /\ FeatureUUID t = featureUUID /\ PhaseUUID t = phaseUUID)
     end.
Proof.
  intros res. subst res. unfold GetTicketsByPhaseUUID.
  rewrite run_bind, run_FindAll. cbn [fst snd].
  destruct (verdict d) as [e|]; [split; reflexivity|].
  set (rows := DbSpec.sort_by by_sequence
                 (filter (of_phase featureUUID phaseUUID) (tickets (tbl d)))).
  assert (Hperm : Permutation rows
                    (filter (of_phase featureUUID phaseUUID) (tickets (tbl d))))
    by apply sort_by_perm.
  assert (Hsorted : StronglySorted (fun a b => Sequence a <= Sequence b) rows).
  { eapply StronglySorted_weaken; [|apply (sort_by_sorted by_sequence)].
    - intros a b H. now apply Z.leb_le in H.
    - intros a b. unfold by_sequence.
      destruct (Z.leb_spec (Sequence a) (Sequence b)); [now left|].
      right. apply Z.leb_le. lia.
    - intros a b c. unfold by_sequence. rewrite !Z.leb_le. lia. }
  assert (Hrows : (if Z.eqb (Z.of_nat (List.length rows)) 0
                   then ret ([], None) else ret (rows, None))
                  = (ret (rows, None) : M (list Tickets * option error))).
  { destruct rows; reflexivity. }
  rewrite Hrows. cbn [fst snd runState ret]. rewrite run_ret. cbn [fst snd].
  split; [reflexivity|]. split; [reflexivity|]. split; [exact Hsorted|].
  split; [exact Hperm|].
  intros t. split.
  - intros Ht. apply (Permutation_in _ Hperm) in Ht.
    apply filter_In in Ht as [Hin Hp]. unfold of_phase in Hp.
    apply andb_true_iff in Hp as [H1 H2].
    apply String.eqb_eq in H1, H2. auto.
  - intros (Hin & H1 & H2). apply (Permutation_in _ (Permutation_sym Hperm)).
    apply filter_In. split; [exact Hin|]. unfold of_phase.
    now rewrite H1, H2, !String.eqb_refl.
Qed.

(** ** Ticket groups *)

Lemma in_group_iff (g : string) (t : Tickets) :
  in_group g t = true <-> TicketGroup t = Some g.
Proof.
  unfold in_group. destruct (TicketGroup t) as [g'|]; [|split; discriminate].
  rewrite String.eqb_eq. split; [now intros ->|now intros [= ->]].
Qed.

(** The head of the rows in descending version has the greatest version. *)
Lemma string_leb_trans (a b c : string) :
  String.leb a b = true -> String.leb b c = true -> String.leb a c = true.
Proof.
  revert b c. induction a as [|x a IH]; intros [|y b] [|z c]; unfold String.leb in *;
    cbn; try (intros; reflexivity); try (intros; discriminate).
  unfold Ascii.compare.
  destruct (N.compare_spec (Ascii.N_of_ascii x) (Ascii.N_of_ascii y)) as [Hxy|Hxy|Hxy];
    destruct (N.compare_spec (Ascii.N_of_ascii y) (Ascii.N_of_ascii z)) as [Hyz|Hyz|Hyz];
    destruct (N.compare_spec (Ascii.N_of_ascii x) (Ascii.N_of_ascii z)) as [Hxz|Hxz|Hxz];
    try (intros; reflexivity); try (intros; discriminate); try lia.
  apply IH.
Qed.

Lemma by_version_desc_total (a b : Tickets) :
  by_version_desc a b = true \/ by_version_desc b a = true.
Proof.
  unfold by_version_desc.
  destruct (Z.ltb_spec (Version b) (Version a)); [now left|].
  destruct (Z.ltb_spec (Version a) (Version b)); [now right|].
  assert (Heq : Version a = Version b) by lia.
  rewrite Heq, Z.eqb_refl. cbn [orb andb]. apply String.leb_total.
Qed.

Lemma by_version_desc_trans (a b c : Tickets) :
  by_version_desc a b = true -> by_version_desc b c = true ->
  by_version_desc a c = true.
Proof.
  unfold by_version_desc. intros Hab Hbc.
  apply orb_true_iff in Hab as [Hab|Hab]; apply orb_true_iff in Hbc as [Hbc|Hbc];
    apply orb_true_iff;
    repeat match goal with
           | H : _ && _ = true |- _ => apply andb_true_iff in H as [? ?]
           | H : Z.ltb _ _ = true |- _ => apply Z.ltb_lt in H
           | H : Z.eqb _ _ = true |- _ => apply Z.eqb_eq in H
           end.
  - left. apply Z.ltb_lt. lia.
  - left. apply Z.ltb_lt. lia.
  - left. apply Z.ltb_lt. lia.
  - right. apply andb_true_iff. split; [apply Z.eqb_eq; lia|].
    eapply string_leb_trans; eassumption.
Qed.

Lemma latest_of_rows (rows : list Tickets) :
  match hd_error (DbSpec.sort_by by_version_desc rows) with
  | None => rows = []
  | Some t => In t rows /\ forall t', In t' rows -> by_version_desc t t' = true
  end.
Proof.
  pose proof (sort_by_perm by_version_desc rows) as Hperm.
  assert (Hsorted : StronglySorted (fun a b => by_version_desc a b = true)
                                   (DbSpec.sort_by by_version_desc rows)).
  { apply sort_by_sorted; [apply by_version_desc_total|apply by_version_desc_trans]. }
  destruct (DbSpec.sort_by by_version_desc rows) as [|t sorted]; cbn.
  - now apply Permutation_nil.
  - split; [apply (Permutation_in _ Hperm); now left|].
    intros t' Ht'. apply (Permutation_in _ (Permutation_sym Hperm)) in Ht'.
    destruct Ht' as [<-|Ht'].
    + destruct (by_version_desc_total t t); assumption.
    + apply StronglySorted_inv in Hsorted as [_ Hall].
      rewrite Forall_forall in Hall. exact (Hall t' Ht').
Qed.

(** X4. [GetLatestTicketByGroup] changes no table. When the statement runs
    and no ticket is in the group it returns the error "no tickets found for
    group ..."; when some ticket is in the group it returns, without an
    error, a stored ticket of that group whose version is at least the
    version of every ticket of the group, and whose UUID comes first among
    the tickets of the group that have that version. A failure of the
    driver is wrapped as "failed to fetch latest ticket". *)
Theorem latest_ticket_of_group (ticketGroup : Go.uuid_t) (d : database) :
  let res := runState (GetLatestTicketByGroup ticketGroup) d in
  snd res = sent d
  /\ match verdict d with
     | Some e =>
         fst res = (Tickets_zero, Some (ErrWrap "failed to fetch latest ticket: " e))
     | None =>
         ((forall t, In t (tickets (tbl d)) -> TicketGroup t <> Some ticketGroup) ->
          fst res = (Tickets_zero,
                     Some (ErrNew ("no tickets found for group " ++ ticketGroup))))
         /\ ((exists t, In t (tickets (tbl d)) /\ TicketGroup t = Some ticketGroup) ->
             exists latest,
               fst res = (latest, None)
               /\ In latest (tickets (tbl d))
               /\ TicketGroup latest = Some ticketGroup
               /\ forall t, In t (tickets (tbl d)) ->
                            TicketGroup t = Some ticketGroup ->
                            Version t <= Version latest
                            /\ (Version t = Version latest ->
                                String.leb (UUID latest) (UUID t) = true))
     end.
Proof.
  intros res. subst res. unfold GetLatestTicketByGroup.
  rewrite run_bind, run_query. cbn [fst snd].
  destruct (verdict d) as [e|]; [split; reflexivity|].
  split; [destruct (hd_error _); reflexivity|].
  pose proof (latest_of_rows (filter (in_group ticketGroup) (tickets (tbl d)))) as Hl.
  destruct (hd_error _) as [latest|]; cbn [fst].
  - destruct Hl as [Hin Hmax]. apply filter_In in Hin as [Hin Hg].
    apply in_group_iff in Hg. split.
    + intros Hnone. exfalso. exact (Hnone latest Hin Hg).
    + intros _. exists latest. split; [reflexivity|]. split; [exact Hin|].
      split; [exact Hg|].
      intros row Hrow Hgrow.
      assert (Hle : by_version_desc latest row = true).
      { apply Hmax. apply filter_In. split; [exact Hrow|]. now apply in_group_iff. }
      unfold by_version_desc in Hle. apply orb_true_iff in Hle as [Hlt|Heq].
      * apply Z.ltb_lt in Hlt. split; [lia|]. intros Hv. lia.
      * apply andb_true_iff in Heq as [Hv Hu]. apply Z.eqb_eq in Hv.
        split; [lia|]. intros _. exact Hu.
  - split; [reflexivity|].
    intros (t & Ht & Hg). exfalso.
    assert (Hin : In t (filter (in_group ticketGroup) (tickets (tbl d)))).
    { apply filter_In. split; [exact Ht|]. now apply in_group_iff. }
    rewrite Hl in Hin. exact Hin.
Qed.

Lemma groups_of_In (rows : list Tickets) (g : Go.uuid_t) :
  In g (groups_of rows) <-> exists t, In t rows /\ TicketGroup t = Some g.
Proof.
  induction rows as [|row rows IH]; cbn.
  - split; [contradiction|]. now intros (t & [] & _).
  - destruct (TicketGroup row) as [g'|] eqn:Eg; cbn; rewrite ?IH; split.
    + intros [->|(t & Ht & Hg)]; [exists row; auto|exists t; auto].
    + intros (t & [<-|Ht] & Hg); [left; congruence|right; exists t; auto].
    + intros (t & Ht & Hg). exists t; auto.
    + intros (t & [<-|Ht] & Hg); [congruence|exists t; auto].
Qed.

(** X5. [GetAllTicketGroups] changes no table and returns, when the
    statement runs, every group that some ticket belongs to, each exactly
    once, and nothing else; and for every group it returns,
    [GetLatestTicketByGroup] finds a ticket and [GetTicketsByGroup] returns
    a non-empty list on the same tables. *)
Theorem ticket_groups_are_distinct_and_inhabited (d : database) :
  let res := runState GetAllTicketGroups d in
  snd res = sent d
  /\ match verdict d with
     | Some e => fst res = ([], Some (ErrWrap "failed to fetch ticket groups: " e))
     | None =>
         snd (fst res) = None
         /\ NoDup (fst (fst res))
         /\ (forall g, In g (fst (fst res)) <->
                       exists t, In t (tickets (tbl d)) /\ TicketGroup t = Some g)
         /\ (forall g d',
               In g (fst (fst res)) -> tbl d' = tbl d -> verdict d' = None ->
               snd (fst (runState (GetLatestTicketByGroup g) d')) = None
               /\ fst (fst (runState (GetTicketsByGroup g) d')) <> [])
     end.
Proof.
  intros res. subst res. unfold GetAllTicketGroups.
  rewrite run_bind, run_query. cbn [fst snd].
  destruct (verdict d) as [e|]; [split; reflexivity|].
  cbn [fst snd]. split; [reflexivity|]. split; [reflexivity|].
  split; [apply NoDup_nodup|].
  assert (Hin : forall g, In g (nodup string_dec (groups_of (tickets (tbl d)))) <->
                          exists t, In t (tickets (tbl d)) /\ TicketGroup t = Some g).
  { intros g. rewrite nodup_In. apply groups_of_In. }
  split; [exact Hin|].
  intros g d' Hg Ht Hv. apply Hin in Hg.
  split.
  - unfold GetLatestTicketByGroup. rewrite run_bind, run_query, Hv, Ht. cbn [fst snd].
    pose proof (latest_of_rows (filter (in_group g) (tickets (tbl d)))) as Hl.
    destruct (hd_error _); [reflexivity|]. exfalso.
    destruct Hg as (t & Hin_t & Hgt).
    assert (Hf : In t (filter (in_group g) (tickets (tbl d)))).
    { apply filter_In. split; [exact Hin_t|]. now apply in_group_iff. }
    rewrite Hl in Hf. exact Hf.
  - unfold GetTicketsByGroup. rewrite run_bind, run_FindAll, Hv, Ht. cbn [fst snd].
    destruct Hg as (t & Hin_t & Hgt).
    assert (Hf : In t (filter (in_group g) (tickets (tbl d)))).
    { apply filter_In. split; [exact Hin_t|]. now apply in_group_iff. }
    destruct (filter (in_group g) (tickets (tbl d))); [contradiction|]. discriminate.
Qed.

Lemma without_group_after_grouping
      (now : time) (u : Go.uuid_t) (data : group_data) (rows : list Tickets) :
  data_ticket_group data = u ->
  u <> uuid_Nil ->
  filter without_group
         (map (fun row => if has_uuid u row then assign_data now data row else row) rows)
  = filter (fun row => without_group row && negb (has_uuid u row)) rows.
Proof.
  intros Hd Hu. induction rows as [|row rows IH]; [reflexivity|].
  cbn [map filter]. destruct (has_uuid u row) eqn:Eu.
  - assert (Hw : without_group (assign_data now data row) = false).
    { unfold without_group, assign_data. cbn. rewrite Hd. now apply String.eqb_neq. }
    rewrite Hw, andb_false_r. exact IH.
  - rewrite andb_true_r. destruct (without_group row); [f_equal|]; exact IH.
Qed.

Lemma find_map_other {A : Type} (p q : A -> bool) (h : A -> A) (l : list A) :
  (forall x, p x = true -> q x = false) ->
  (forall x, q x = true -> p (h x) = false) ->
  find p (map (fun x => if q x then h x else x) l) = find p l.
Proof.
  intros Hpq Hqh. induction l as [|y l IH]; [reflexivity|].
  cbn. destruct (q y) eqn:Eq.
  - rewrite (Hqh y Eq). destruct (p y) eqn:Ep; [|exact IH].
    rewrite (Hpq y Ep) in Eq. discriminate.
  - destruct (p y); [reflexivity|exact IH].
Qed.

(** X6. [UpdateTicketsWithoutGroup] makes the rows of the ticket's UUID a
    group of their own: when the statement runs, every row of that UUID has
    the UUID as its group, the author "HUMAN" when the argument names no
    author and the author id "12345" when it names none; rows of other
    UUIDs are found as before; and, for a UUID other than the nil UUID,
    [GetTicketsWithoutGroup] afterwards lists the tickets it would have
    listed before, less those of that UUID. A failure of the driver is
    wrapped and changes no table. *)
Theorem grouping_a_ticket_takes_it_off_the_list
        (now : time) (ticket : Tickets) (d : database) :
  let res := runState (UpdateTicketsWithoutGroup now ticket) d in
  match verdict d with
  | Some e => res = (Some (ErrWrap "failed to update ticket: " e), sent d)
  | None =>
      fst res = None
      /\ (forall other, other <> UUID ticket ->
            find (has_uuid other) (tickets (tbl (snd res)))
            = find (has_uuid other) (tickets (tbl d)))
      /\ (forall row, In row (tickets (tbl (snd res))) -> UUID row = UUID ticket ->
            TicketGroup row = Some (UUID ticket)
            /\ (Author ticket = None -> Author row = Some "HUMAN")
            /\ (AuthorID ticket = None -> AuthorID row = Some "12345"))
      /\ (UUID ticket <> uuid_Nil ->
          forall d', tbl d' = tbl (snd res) -> verdict d' = None ->
            fst (runState GetTicketsWithoutGroup d')
            = (filter (fun row => without_group row
                                  && negb (has_uuid (UUID ticket) row))
                      (tickets (tbl d)), None))
  end.
Proof.
  intros res. subst res. unfold UpdateTicketsWithoutGroup.
  rewrite run_bind, run_exec. cbn [fst snd].
  destruct (verdict d) as [e|] eqn:Hv; [reflexivity|].
  cbn [fst snd runState ret]. rewrite run_ret. cbn [fst snd tbl tickets with_tickets].
  split; [reflexivity|]. split; [|split].
  - intros other Hother. apply find_map_other.
    + intros row Hrow. unfold has_uuid in *. apply String.eqb_eq in Hrow.
      apply String.eqb_neq. congruence.
    + intros row Hrow. unfold has_uuid in *. apply String.eqb_eq in Hrow.
      unfold assign_data. cbn. apply String.eqb_neq. congruence.
  - intros row Hrow Hu. apply in_map_iff in Hrow as (old & Hrow & Hold).
    destruct (has_uuid (UUID ticket) old) eqn:Eu.
    + subst row. unfold assign_data. cbn.
      split; [reflexivity|]. split; intros ->; reflexivity.
    + subst row. unfold has_uuid in Eu. apply String.eqb_neq in Eu. contradiction.
  - intros Hnil d' Ht Hv'. unfold GetTicketsWithoutGroup.
    rewrite run_bind, run_FindAll, Hv', Ht. cbn [fst snd tbl tickets with_tickets].
    rewrite without_group_after_grouping by (auto || reflexivity).
    destruct (filter _ _); reflexivity.
Qed.

(** ** Converting a ticket twice *)

Lemma fold_max_app (l : list Z) (x : Z) :
  fold_right Z.max 0 (l ++ [x]) = Z.max (fold_right Z.max 0 l) (Z.max x 0).
Proof. induction l as [|y l IH]; cbn [app fold_right]; [lia|]. rewrite IH. lia. Qed.

Lemma next_id_after_insert (ids : list Z) :
  next_id (ids ++ [next_id ids]) = next_id ids + 1.
Proof.
  unfold next_id. rewrite fold_max_app.
  assert (0 <= fold_right Z.max 0 ids) by (induction ids; cbn; lia).
  lia.
Qed.

Lemma conversion_on_quiet_store
      (now : time) (ticket : Tickets) (pubkey : string) (t : tables)
      (feature : WorkspaceFeatures) :
  find (fun f => String.eqb (wf_Uuid f) (FeatureUUID ticket))
       (workspace_features t) = Some feature ->
  exists b,
    runState (CreateBountyFromTicket now ticket pubkey) (mkDatabase t [])
    = ((Some b, None), mkDatabase (with_bounty (bounty t ++ [b]) t) [])
    /\ b_ID b = next_id (map b_ID (bounty t))
    /\ b_Title b = Name ticket
    /\ b_Description b = Description ticket
    /\ b_WorkspaceUuid b = wf_WorkspaceUuid feature.
Proof.
  intros Hf. unfold CreateBountyFromTicket.
  rewrite run_bind, run_GetFeatureByUuid. cbn [verdict faults hd_error sent tl tbl].
  rewrite Hf. cbn [fst snd].
  rewrite run_bind, run_CreateBounty. cbn [verdict faults hd_error sent tl tbl fst snd].
  eexists. split; [reflexivity|].
  unfold stored_bounty. cbn. repeat split.
Qed.

(** X7. Converting a ticket is not idempotent: two calls of
    [CreateBountyFromTicket] for the same ticket, on a store whose driver
    fails nothing and that holds the ticket's feature, both succeed and
    leave two bounties of the same title, description and workspace at the
    end of the bounty table, the second with the id that follows the id of
    the first. *)
Theorem converting_twice_makes_two_bounties
        (now now' : time) (ticket : Tickets) (pubkey : string) (d : database)
        (feature : WorkspaceFeatures) :
  find (fun f => String.eqb (wf_Uuid f) (FeatureUUID ticket))
       (workspace_features (tbl d)) = Some feature ->
  faults d = [] ->
  let first := runState (CreateBountyFromTicket now ticket pubkey) d in
  let second := runState (CreateBountyFromTicket now' ticket pubkey) (snd first) in
  exists b b',
    fst first = (Some b, None)
    /\ fst second = (Some b', None)
    /\ bounty (tbl (snd second)) = (bounty (tbl d) ++ [b; b'])%list
    /\ b_ID b' = b_ID b + 1
    /\ b_Title b = Name ticket /\ b_Title b' = Name ticket
    /\ b_Description b' = b_Description b
    /\ b_WorkspaceUuid b' = b_WorkspaceUuid b.
Proof.
  intros Hf Hfaults first second. subst first second.
  destruct d as [t fs]. cbn [faults] in Hfaults. subst fs. cbn [tbl] in Hf |- *.
  destruct (conversion_on_quiet_store now ticket pubkey t feature Hf)
    as (b & -> & Hid & Htitle & Hdesc & Hws).
  cbn [fst snd].
  destruct (conversion_on_quiet_store now' ticket pubkey
              (with_bounty (bounty t ++ [b]) t) feature Hf)
    as (b' & -> & Hid' & Htitle' & Hdesc' & Hws').
  cbn [fst snd tbl bounty with_bounty] in *.
  exists b, b'. split; [reflexivity|]. split; [reflexivity|].
  split; [now rewrite <- app_assoc|].
  split.
  - rewrite Hid', map_app, Hid. cbn [map]. rewrite <- Hid at 1. rewrite Hid.
    apply next_id_after_insert.
  - repeat split; congruence.
Qed.

Lemma converting_twice_makes_two_bounties_witness :
  let first := runState (CreateBountyFromTicket 1700000500 Fixtures.ticket "test-pubkey")
                        Fixtures.db0 in
  let second := runState (CreateBountyFromTicket 1700000600 Fixtures.ticket "test-pubkey")
                         (snd first) in
  map b_ID (bounty (tbl (snd second))) = [1; 2].
Proof.
  intros first second.
  destruct (converting_twice_makes_two_bounties
              1700000500 1700000600 Fixtures.ticket "test-pubkey" Fixtures.db0
              Fixtures.feature eq_refl eq_refl)
    as (b & b' & H1 & H2 & Hb & _).
  reflexivity.
Defined.

(** ** Metrics: bounds and inclusions *)

Section PercentageFacts.

Variable pg_int8 : string -> option Z.
Variable uint_of_unrepresentable : Z -> N.
Variable r : PaymentDateRange.
Variable workspace : string.

Lemma snd_run_total (keep : NewBounty -> bool) {A : Type}
      (scan : list NewBounty + error -> A) (d : database) :
  snd (runState (rows <- select_rows pg_int8 keep r workspace ;; ret (scan rows)) d)
  = sent d.
Proof.
  rewrite run_bind, run_ret. cbn [snd]. apply run_select_rows.
Qed.

Lemma run_SatsPaidPercentage (d : database) :
  let satsPosted := fst (runState (TotalSatsPosted pg_int8 r workspace) d) in
  let satsPaid := fst (runState (TotalSatsPaid pg_int8 r workspace) (sent d)) in
  runState (SatsPaidPercentage pg_int8 uint_of_unrepresentable r workspace) d
  = (if negb (N.eqb satsPaid 0) && negb (N.eqb satsPosted 0)
     then Returns (uint_mul satsPaid 100 / satsPosted)%N
     else Returns 0%N, sent (sent d)).
Proof.
  intros satsPosted satsPaid. unfold SatsPaidPercentage.
  pose proof (snd_run_total (fun _ => true) scan_sum d) as Hs1.
  pose proof (snd_run_total (fun b => b_Paid b) scan_sum (sent d)) as Hs2.
  fold (TotalSatsPosted pg_int8 r workspace) in Hs1.
  fold (TotalSatsPaid pg_int8 r workspace) in Hs2.
  rewrite run_bind, Hs1. fold satsPosted.
  rewrite run_bind, Hs2. fold satsPaid.
  destruct (N.eqb_spec satsPaid 0) as [|Hpaid]; [reflexivity|].
  destruct (N.eqb_spec satsPosted 0) as [|Hposted]; [reflexivity|].
  cbn [negb andb]. unfold uint_div.
  destruct (N.eqb_spec satsPosted 0) as [|_]; [contradiction|].
  rewrite run_ret. f_equal. f_equal. unfold math_Round.
  destruct (sats_paid_le_posted pg_int8 r workspace d (sent d) eq_refl Hposted)
    as [Hle _].
  fold satsPaid satsPosted in Hle.
  pose proof (percent_le_100 satsPaid satsPosted Hle Hposted) as H100.
  rewrite float64_of_small by (change (2 ^ 53)%N with 9007199254740992%N; lia).
  apply uint_of_float64_small.
  change (2 ^ 64)%N with 18446744073709551616%N. lia.
Qed.

Lemma run_BountiesPaidPercentage (d : database) :
  let bountiesPosted := fst (runState (TotalBountiesPosted pg_int8 r workspace) d) in
  let bountiesPaid := fst (runState (TotalPaidBounties pg_int8 r workspace) (sent d)) in
  runState (BountiesPaidPercentage pg_int8 uint_of_unrepresentable r workspace) d
  = (if negb (Z.eqb bountiesPaid 0) && negb (Z.eqb bountiesPosted 0)
     then Returns (uint_of_float64 uint_of_unrepresentable
                     (float64_of_int64
                        (Z.quot (int64_mul bountiesPaid 100) bountiesPosted)))
     else Returns 0%N, sent (sent d)).
Proof.
  intros bountiesPosted bountiesPaid. unfold BountiesPaidPercentage.
  pose proof (snd_run_total (fun _ => true) scan_count d) as Hc1.
  pose proof (snd_run_total (fun b => b_Paid b) scan_count (sent d)) as Hc2.
  fold (TotalBountiesPosted pg_int8 r workspace) in Hc1.
  fold (TotalPaidBounties pg_int8 r workspace) in Hc2.
  rewrite run_bind, Hc1. fold bountiesPosted.
  rewrite run_bind, Hc2. fold bountiesPaid.
  destruct (Z.eqb_spec bountiesPaid 0) as [|Hpaid]; [reflexivity|].
  destruct (Z.eqb_spec bountiesPosted 0) as [|Hposted]; [reflexivity|].
  cbn [negb andb]. unfold int64_div.
  destruct (Z.eqb_spec bountiesPosted 0) as [|_]; [contradiction|].
  reflexivity.
Qed.

End PercentageFacts.

(** X8. The percentages stay within 0..100: [SatsPaidPercentage] returns a
    number that is at most 100 on every store, whatever the driver does and
    even when the product paid * 100 wraps around; [BountiesPaidPercentage]
    does when the number of paid bounties times 100 fits an int64. *)
Theorem paid_percentages_at_most_100
        (pg_int8 : string -> option Z) (uint_of_unrepresentable : Z -> N)
        (r : PaymentDateRange) (workspace : string) (d : database) :
  let sats :=
    fst (runState (SatsPaidPercentage pg_int8 uint_of_unrepresentable r workspace) d) in
  let bounties :=
    fst (runState (BountiesPaidPercentage pg_int8 uint_of_unrepresentable r workspace) d) in
  let bountiesPaid := fst (runState (TotalPaidBounties pg_int8 r workspace) (sent d)) in
  (exists n, sats = Returns n /\ (n <= 100)%N)
  /\ (bountiesPaid * 100 < 2 ^ 63 ->
      exists n, bounties = Returns n /\ (n <= 100)%N).
Proof.
  intros sats bounties bountiesPaid. split.
  - subst sats. rewrite run_SatsPaidPercentage. cbn [fst].
    set (satsPosted := fst (runState (TotalSatsPosted pg_int8 r workspace) d)).
    set (satsPaid := fst (runState (TotalSatsPaid pg_int8 r workspace) (sent d))).
    destruct (N.eqb_spec satsPaid 0) as [|Hpaid]; [exists 0%N; split; [reflexivity|lia]|].
    destruct (N.eqb_spec satsPosted 0) as [|Hposted];
      [exists 0%N; split; [reflexivity|lia]|].
    cbn [negb andb]. eexists. split; [reflexivity|].
    apply percent_le_100; [|exact Hposted].
    now apply (sats_paid_le_posted pg_int8 r workspace d (sent d) eq_refl).
  - intros Hfit. subst bounties. rewrite run_BountiesPaidPercentage. cbn [fst].
    fold bountiesPaid.
    set (bountiesPosted := fst (runState (TotalBountiesPosted pg_int8 r workspace) d)).
    pose proof (counts_paid_le_posted pg_int8 r workspace d (sent d) eq_refl)
      as (Hp0 & Hq0 & Hle).
    fold bountiesPaid bountiesPosted in Hp0, Hq0, Hle.
    destruct (Z.eqb_spec bountiesPaid 0) as [|Hpaid]; [exists 0%N; split; [reflexivity|lia]|].
    destruct (Z.eqb_spec bountiesPosted 0) as [|Hposted];
      [exists 0%N; split; [reflexivity|lia]|].
    cbn [negb andb]. specialize (Hle Hposted). eexists. split; [reflexivity|].
    rewrite int64_mul_fits by lia.
    rewrite Z.quot_div_nonneg by lia.
    assert (H100 : 0 <= bountiesPaid * 100 / bountiesPosted <= 100).
    { split; [apply Z.div_pos; lia|].
      apply Z.div_le_upper_bound; lia. }
    set (v := bountiesPaid * 100 / bountiesPosted) in *.
    unfold float64_of_int64.
    destruct (Z.ltb_spec v 0); [lia|].
    rewrite float64_of_small.
    2:{ change (2 ^ 53)%N with 9007199254740992%N. lia. }
    rewrite N2Z.inj_abs_N, Z.abs_eq by lia.
    unfold uint_of_float64.
    destruct (Z.leb_spec 0 v); [|lia].
    destruct (Z.ltb_spec v (2 ^ 64)); cbn [andb]; [lia|].
    change (2 ^ 64) with 18446744073709551616 in *. lia.
Qed.

Lemma length_filter_disjoint {A : Type} (p q k : A -> bool) (l : list A) :
  (forall x, p x = true -> k x = true) ->
  (forall x, q x = true -> k x = true) ->
  (forall x, p x = true -> q x = false) ->
  (List.length (filter p l) + List.length (filter q l) <= List.length (filter k l))%nat.
Proof.
  intros Hp Hq Hpq. induction l as [|x l IH]; [reflexivity|].
  cbn [filter]. destruct (p x) eqn:Ep.
  - rewrite (Hp x Ep), (Hpq x Ep). cbn [List.length]. lia.
  - destruct (q x) eqn:Eq.
    + rewrite (Hq x Eq). cbn [List.length]. lia.
    + destruct (k x); cbn [List.length]; lia.
Qed.

(** X9. On one state of the bounty table, the bounties that
    [TotalPaidBounties] counts and those that [TotalAssignedBounties] counts
    are disjoint and are among those that [TotalBountiesPosted] counts:
    paid + assigned <= posted, for the same date range and workspace,
    whenever the statement of [TotalBountiesPosted] runs; neither count is
    negative. *)
Theorem assigned_and_paid_within_posted
        (pg_int8 : string -> option Z) (r : PaymentDateRange) (workspace : string)
        (d d' d'' : database) :
  tbl d' = tbl d -> tbl d'' = tbl d -> verdict d = None ->
  let posted := fst (runState (TotalBountiesPosted pg_int8 r workspace) d) in
  let paid := fst (runState (TotalPaidBounties pg_int8 r workspace) d') in
  let assigned := fst (runState (TotalAssignedBounties pg_int8 r workspace) d'') in
  0 <= paid /\ 0 <= assigned /\ paid + assigned <= posted.
Proof.
  intros Ht' Ht'' Hv posted paid assigned. subst posted paid assigned.
  unfold TotalBountiesPosted, TotalPaidBounties, TotalAssignedBounties.
  rewrite !run_bind, !run_ret. cbn [fst].
  unfold select_rows.
  destruct (pg_int8 (StartDate r)) as [lo|]; [destruct (pg_int8 (EndDate r)) as [hi|]|].
  - rewrite !run_query, Hv, Ht', Ht''. cbn [fst scan_count].
    set (k := fun b : NewBounty => true && in_range lo hi workspace b).
    set (p := fun b : NewBounty => b_Paid b && in_range lo hi workspace b).
    set (q := fun b : NewBounty =>
                negb (String.eqb (b_Assignee b) "") && negb (b_Paid b)
                && in_range lo hi workspace b).
    assert (Hle : (List.length (filter p (bounty (tbl d)))
                   + List.length (filter q (bounty (tbl d)))
                   <= List.length (filter k (bounty (tbl d))))%nat).
    { apply length_filter_disjoint; subst p q k; cbn beta.
      - intros b Hb. apply andb_true_iff in Hb as [_ Hb]. exact Hb.
      - intros b Hb. apply andb_true_iff in Hb as [_ Hb]. exact Hb.
      - intros b Hb. apply andb_true_iff in Hb as [Hb _]. rewrite Hb.
        now rewrite andb_false_r. }
    destruct (verdict d'), (verdict d''); cbn [fst scan_count List.length]; lia.
  - rewrite !run_bind, !run_send, Hv. cbn [fst].
    destruct (verdict d'), (verdict d''); cbn; lia.
  - rewrite !run_bind, !run_send, Hv. cbn [fst].
    destruct (verdict d'), (verdict d''); cbn; lia.
Qed.

(** X10. Restricting a count to a workspace never increases it: for every
    date range and on every store, [TotalBountiesPosted],
    [TotalPaidBounties] and [TotalAssignedBounties] for a workspace are at
    most what they are for no workspace ([""]). *)
Theorem workspace_totals_within_overall
        (pg_int8 : string -> option Z) (r : PaymentDateRange) (workspace : string)
        (d : database) :
  fst (runState (TotalBountiesPosted pg_int8 r workspace) d)
    <= fst (runState (TotalBountiesPosted pg_int8 r "") d)
  /\ fst (runState (TotalPaidBounties pg_int8 r workspace) d)
    <= fst (runState (TotalPaidBounties pg_int8 r "") d)
  /\ fst (runState (TotalAssignedBounties pg_int8 r workspace) d)
    <= fst (runState (TotalAssignedBounties pg_int8 r "") d).
Proof.
  assert (H : forall keep,
    scan_count (fst (runState (select_rows pg_int8 keep r workspace) d))
    <= scan_count (fst (runState (select_rows pg_int8 keep r "") d))).
  { intros keep. unfold select_rows.
    destruct (pg_int8 (StartDate r)) as [lo|]; [destruct (pg_int8 (EndDate r)) as [hi|]|].
    - rewrite !run_query. destruct (verdict d); cbn [fst scan_count]; [lia|].
      apply inj_le. apply length_filter_le. intros b Hb.
      apply andb_true_iff in Hb as [Hk Hb]. rewrite Hk. cbn [andb].
      unfold in_range in *. apply andb_true_iff in Hb as [Hb _]. rewrite Hb.
      reflexivity.
    - rewrite !run_bind, !run_send. lia.
    - rewrite !run_bind, !run_send. lia. }
  unfold TotalBountiesPosted, TotalPaidBounties, TotalAssignedBounties.
  rewrite !run_bind, !run_ret. cbn [fst]. repeat split; apply H.
Qed.

(** ** Chat: the outcome of a message and the answer of the engine *)

Lemma run_UpdateChatMessage (message : ChatMessage) (d : database) :
  runState (DbSpec.UpdateChatMessage message) d
  = match verdict d with
    | Some e => ((ChatMessage_zero, Some e), sent d)
    | None =>
        ((message, None),
         mkDatabase
           (with_chat_messages
              (map (fun m => if String.eqb (cm_ID m) (cm_ID message) then message else m)
                   (chat_messages (tbl d))) (tbl d))
           (tl (faults d)))
    end.
Proof.
  unfold DbSpec.UpdateChatMessage. rewrite run_bind, run_exec. cbn [fst snd].
  destruct (verdict d); reflexivity.
Qed.

Lemma run_sendToStakwork_result (SWWFKEY : string)
      (httpClient_Do : StakworkChatPayload -> error + HttpAnswer)
      (payload : StakworkChatPayload) (w : world) :
  fst (runState (sendToStakwork SWWFKEY httpClient_Do payload) w)
  = if String.eqb SWWFKEY "" then
      (0, Some (ErrNew "SWWFKEY environment variable not set"))
    else
      match httpClient_Do payload with
      | inl err => (0, Some (ErrNew ("error sending request: " ++ Error err)))
      | inr resp =>
          if negb (Z.eqb (StatusCode resp) StatusOK) then
            (0, Some (ErrNew ("stakwork API error: " ++ AnswerBody resp)))
          else
            match ProjectID resp with
            | inr err => (0, Some (ErrNew ("error decoding response: " ++ Error err)))
            | inl id => (id, None)
            end
      end.
Proof.
  unfold sendToStakwork. destruct (String.eqb SWWFKEY ""); [reflexivity|].
  rewrite run_bind_W. cbn.
  destruct (httpClient_Do payload) as [e|a]; [reflexivity|].
  destruct (negb _); [reflexivity|].
  destruct (ProjectID a); reflexivity.
Qed.

Ltac refused :=
  right; split; [auto|]; split; [reflexivity|]; eexists; reflexivity.

(** X11. [SendMessage] answers 200, 400 or 500, and it notifies the websocket
    pool exactly when it answers 200. With 200 the workflow engine accepted
    the one payload that was posted (status 200 and a project id that
    decodes), the pool was handed two messages for the session of the
    request, first the project ("swrun"), then the message ("process"), the
    body carries the new message, and that message is the last of the
    stored ones, with status "sending". With 400 or 500 nothing was handed
    to the pool and the body reports a failure without data. What the pool
    answers changes nothing. *)
Theorem send_message_notifies_on_success
        (SWWFKEY HOST : string)
        (httpClient_Do : StakworkChatPayload -> error + HttpAnswer)
        (SendTicketMessage : TicketMessage -> option error)
        (product_brief : tables -> string -> string * option error)
        (xid : string) (now : time) (project_url : Z -> string)
        (r : Request SendMessageRequest) (w : world) :
  let res := runState (SendMessage SWWFKEY HOST httpClient_Do SendTicketMessage
                                   product_brief xid now project_url r) w in
  (code (fst res) = StatusOK
   /\ exists request message payload answer projectID,
       json_body r = Some request
       /\ written (fst res)
          = Some (JValue (mkChatResponse true "Message sent successfully" (Some message)))
       /\ posted (snd res) = (posted w ++ [(payload, tbl (store (snd res)))])%list
       /\ httpClient_Do payload = inr answer
       /\ StatusCode answer = StatusOK
       /\ ProjectID answer = inl projectID
       /\ notified (snd res)
          = (notified w
             ++ [mkTicketMessage "direct" (SourceWebsocketID request)
                                 (project_url projectID) "swrun" None;
                 mkTicketMessage "direct" (SourceWebsocketID request)
                                 "Message sent" "process" (Some message)])%list
       /\ chat_messages (tbl (store (snd res)))
          = (chat_messages (tbl (store w)) ++ [message])%list
       /\ cm_ID message = xid
       /\ cm_Status message = "sending")
  \/ ((code (fst res) = StatusBadRequest \/ code (fst res) = StatusInternalServerError)
      /\ notified (snd res) = notified w
      /\ exists msg, written (fst res) = Some (JValue (mkChatResponse false msg None))).
Proof.
  intros res. subst res. unfold SendMessage.
  destruct (json_body r) as [request|] eqn:Hbody; [|refused].
  destruct (String.eqb_spec (WorkspaceUUID request) "") as [Hws|Hws]; [refused|].
  rewrite run_bind_W, run_on_store, run_GetProductBrief. cbn [fst snd].
  destruct (verdict (store w)) as [e1|] eqn:Hv1; [refused|].
  destruct (product_brief (tbl (store w)) (WorkspaceUUID request)) as [context [e2|]] eqn:Hpb;
    [refused|].
  rewrite run_bind_W, run_on_store, run_GetChatMessagesForChatID. cbn [fst snd store].
  destruct (verdict (sent (store w))) as [e3|] eqn:Hv2; [refused|].
  rewrite run_bind_W, run_on_store, run_AddChatMessage. cbn [fst snd store posted notified].
  destruct (verdict (sent (sent (store w)))) as [e4|] eqn:Hv3; [refused|].
  cbn [fst snd].
  rewrite run_bind_W.
  match goal with
  | |- context [runState (sendToStakwork _ _ ?p) ?w0] =>
      set (payload := p); set (w3 := w0);
      pose proof (run_sendToStakwork SWWFKEY httpClient_Do payload w3) as Hsend;
      pose proof (run_sendToStakwork_result SWWFKEY httpClient_Do payload w3) as Hres;
      destruct (runState (sendToStakwork SWWFKEY httpClient_Do payload) w3)
        as [[projectID err] w4]
  end.
  cbn [fst snd] in *. subst w4.
  destruct (String.eqb SWWFKEY "").
  { injection Hres as -> ->. rewrite run_bind_W, run_on_store. refused. }
  destruct (httpClient_Do payload) as [e5|answer] eqn:Hdo.
  { injection Hres as -> ->. rewrite run_bind_W, run_on_store. refused. }
  destruct (Z.eqb_spec (StatusCode answer) StatusOK) as [Hcode|Hcode]; cbn [negb] in Hres.
  2:{ injection Hres as -> ->. rewrite run_bind_W, run_on_store. refused. }
  destruct (ProjectID answer) as [id|e6] eqn:Hid.
  2:{ injection Hres as -> ->. rewrite run_bind_W, run_on_store. refused. }
  injection Hres as -> ->.
  left. split; [reflexivity|].
  exists request, (mkChatMessage xid (ChatID request) (Message request) "user" now
                                 "sending" "user"), payload, answer, id.
  split; [reflexivity|]. split; [reflexivity|].
  split; [reflexivity|]. split; [exact Hdo|]. split; [exact Hcode|].
  split; [exact Hid|].
  split; [cbn; now rewrite <- app_assoc|]. split; [reflexivity|].
  split; reflexivity.
Qed.

(** X12. When the message has been stored and the dispatch fails (the API
    key is not set, the engine cannot be reached, answers with another
    status than 200, or with a body that does not decode), on a store whose
    driver fails nothing, [SendMessage] answers 500 with "Failed to process
    message: ...", hands nothing to the websocket pool, and leaves the new
    message stored last with status "error"; no stored message of that id
    has another status. *)
Theorem failed_dispatch_marks_message
        (SWWFKEY HOST : string)
        (httpClient_Do : StakworkChatPayload -> error + HttpAnswer)
        (SendTicketMessage : TicketMessage -> option error)
        (product_brief : tables -> string -> string * option error)
        (xid : string) (now : time) (project_url : Z -> string)
        (r : Request SendMessageRequest) (w : world) (request : SendMessageRequest) :
  json_body r = Some request ->
  WorkspaceUUID request <> "" ->
  faults (store w) = [] ->
  snd (product_brief (tbl (store w)) (WorkspaceUUID request)) = None ->
  (SWWFKEY = ""
   \/ forall payload,
        match httpClient_Do payload with
        | inl _ => True
        | inr answer =>
            StatusCode answer <> StatusOK \/ exists e, ProjectID answer = inr e
        end) ->
  let res := runState (SendMessage SWWFKEY HOST httpClient_Do SendTicketMessage
                                   product_brief xid now project_url r) w in
  let failed := mkChatMessage xid (ChatID request) (Message request) "user" now
                              "error" "user" in
  code (fst res) = StatusInternalServerError
  /\ (exists reason,
        written (fst res)
        = Some (JValue (mkChatResponse false ("Failed to process message: " ++ reason)
                                       None)))
  /\ notified (snd res) = notified w
  /\ chat_messages (tbl (store (snd res)))
     = (map (fun m => if String.eqb (cm_ID m) xid then failed else m)
            (chat_messages (tbl (store w))) ++ [failed])%list
  /\ (forall m, In m (chat_messages (tbl (store (snd res)))) ->
                cm_ID m = xid -> cm_Status m = "error").
Proof.
  intros Hbody Hws Hfaults Hpb Hrefused res failed.
  assert (Hrun :
    code (fst res) = StatusInternalServerError
    /\ (exists reason,
          written (fst res)
          = Some (JValue (mkChatResponse false ("Failed to process message: " ++ reason)
                                         None)))
    /\ notified (snd res) = notified w
    /\ chat_messages (tbl (store (snd res)))
       = (map (fun m => if String.eqb (cm_ID m) xid then failed else m)
              (chat_messages (tbl (store w))) ++ [failed])%list).
  { subst res. unfold SendMessage. rewrite Hbody.
    destruct (String.eqb_spec (WorkspaceUUID request) "") as [|_]; [contradiction|].
    destruct w as [[t fs] ps ns]. cbn [store faults tbl posted notified] in *. subst fs.
    rewrite run_bind_W, run_on_store, run_GetProductBrief.
    cbn [fst snd store verdict faults sent tl tbl posted notified].
    destruct (product_brief t (WorkspaceUUID request)) as [context err].
    cbn [snd] in Hpb. subst err.
    rewrite run_bind_W, run_on_store, run_GetChatMessagesForChatID.
    cbn [fst snd store verdict faults sent tl tbl posted notified].
    rewrite run_bind_W, run_on_store, run_AddChatMessage.
    cbn [fst snd store verdict faults sent tl tbl posted notified].
    rewrite run_bind_W.
    match goal with
    | |- context [runState (sendToStakwork _ _ ?p) ?w0] =>
        set (payload := p); set (w3 := w0);
        pose proof (run_sendToStakwork SWWFKEY httpClient_Do payload w3) as Hsend;
        pose proof (run_sendToStakwork_result SWWFKEY httpClient_Do payload w3) as Hres;
        destruct (runState (sendToStakwork SWWFKEY httpClient_Do payload) w3)
          as [[projectID err] w4]
    end.
    cbn [fst snd] in *. subst w4.
    assert (Herr : exists e, err = Some e
                             /\ notified (if String.eqb SWWFKEY "" then w3
                                          else mkWorld (store w3)
                                                 (posted w3 ++ [(payload, tbl (store w3))])
                                                 (notified w3)) = ns
                             /\ store (if String.eqb SWWFKEY "" then w3
                                       else mkWorld (store w3)
                                              (posted w3 ++ [(payload, tbl (store w3))])
                                              (notified w3)) = store w3).
    { destruct (String.eqb_spec SWWFKEY "") as [Hkey|Hkey].
      - injection Hres as _ ->. eauto.
      - destruct Hrefused as [Hempty|Hrefused]; [contradiction|].
        specialize (Hrefused payload).
        destruct (httpClient_Do payload) as [e|answer].
        + injection Hres as _ ->. eauto.
        + destruct (Z.eqb_spec (StatusCode answer) StatusOK) as [Hcode|Hcode];
            cbn [negb] in Hres.
          * destruct Hrefused as [Hno|[e He]]; [contradiction|].
            rewrite He in Hres. injection Hres as _ ->. eauto.
          * injection Hres as _ ->. eauto. }
    destruct Herr as (e & -> & Hn & Hst).
    rewrite run_bind_W, run_on_store, run_UpdateChatMessage, Hst.
    subst w3. cbn [fst snd store verdict faults sent tl tbl posted notified
                   chat_messages with_chat_messages code written respond] in *.
    cbn. split; [reflexivity|]. split; [eexists; reflexivity|].
    split; [exact Hn|].
    rewrite map_app. cbn [map cm_ID]. rewrite String.eqb_refl. reflexivity. }
  destruct Hrun as (Hcode & Hwritten & Hn & Hm).
  split; [exact Hcode|]. split; [exact Hwritten|]. split; [exact Hn|].
  split; [exact Hm|].
  intros m Hin Hid. rewrite Hm in Hin. apply in_app_or in Hin as [Hin|[<-|[]]].
  - apply in_map_iff in Hin as (old & <- & _).
    destruct (String.eqb_spec (cm_ID old) xid) as [|Hne]; [reflexivity|].
    contradiction.
  - reflexivity.
Qed.

Lemma failed_dispatch_marks_message_witness :
  let w := mkWorld Fixtures.db0 [] [] in
  let res := runState (SendMessage "key" "https://host" Fixtures.unreachable
                                   (fun _ => None) (fun _ _ => ("brief", None))
                                   "m-2" 1700000900 (fun _ => "")
                                   (Fixtures.request "test-pubkey" [] (Some Fixtures.hello)))
                      w in
  code (fst res) = StatusInternalServerError.
Proof.
  intros w res.
  apply (failed_dispatch_marks_message
           "key" "https://host" Fixtures.unreachable (fun _ => None)
           (fun _ _ => ("brief", None)) "m-2" 1700000900 (fun _ => "")
           (Fixtures.request "test-pubkey" [] (Some Fixtures.hello)) w Fixtures.hello
           eq_refl).
  - discriminate.
  - reflexivity.
  - reflexivity.
  - right. intros payload. exact I.
Defined.

Lemma run_notify (SendTicketMessage : TicketMessage -> option error)
      (msg : TicketMessage) (w : world) :
  runState (notify SendTicketMessage msg) w
  = (SendTicketMessage msg,
     mkWorld (store w) (posted w) (notified w ++ [msg])).
Proof. reflexivity. Qed.

Lemma run_respond (status : Z) (ok : bool) (msg : string) (data : option ChatMessage)
      (w : world) :
  runState (respond status ok msg data) w
  = (mkResponse status (Some (JValue (mkChatResponse ok msg data))), w).
Proof. reflexivity. Qed.

(** X13. [ProcessChatResponse] answers 400 and changes nothing when the body
    does not decode or names no chat. Otherwise it posts nothing to the
    workflow engine; when the driver fails the insert it answers 500, no
    table changes and the pool is not notified; when the insert runs it
    answers 200 whatever the websocket pool answers, appends the response
    as a message of role "assistant", status "sent" and source "agent",
    hands the pool one "message" for the session of the request, and
    [GetChatHistory] of that chat returns afterwards what it returned
    before followed by the new message. *)
Theorem chat_response_is_stored_and_announced
        (SendTicketMessage : TicketMessage -> option error)
        (xid : string) (now : time) (r : Request ChatResponseValue) (w : world) :
  let res := runState (ProcessChatResponse SendTicketMessage xid now r) w in
  match json_body r with
  | None =>
      res = (mkResponse StatusBadRequest
               (Some (JValue (mkChatResponse false "Invalid request body" None))), w)
  | Some request =>
      if String.eqb (ValueChatID request) "" then
        res = (mkResponse StatusBadRequest
                 (Some (JValue (mkChatResponse false
                                  "ChatID is required for message creation" None))), w)
      else
        let message := mkChatMessage xid (ValueChatID request) (ValueResponse request)
                                     "assistant" now "sent" "agent" in
        posted (snd res) = posted w
        /\ match verdict (store w) with
           | Some e =>
               fst res = mkResponse StatusInternalServerError
                           (Some (JValue (mkChatResponse false
                                            ("Failed to save response message: "
                                             ++ Error e) None)))
               /\ tbl (store (snd res)) = tbl (store w)
               /\ notified (snd res) = notified w
           | None =>
               fst res = mkResponse StatusOK
                           (Some (JValue (mkChatResponse true
                                            "Response processed successfully"
                                            (Some message))))
               /\ notified (snd res)
                  = (notified w
                     ++ [mkTicketMessage "direct" (ValueSourceWebsocketID request)
                                         "Response received" "message"
                                         (Some message)])%list
               /\ chat_messages (tbl (store (snd res)))
                  = (chat_messages (tbl (store w)) ++ [message])%list
               /\ (verdict (store (snd res)) = None ->
                   forall q : Request unit,
                     URLParam q "uuid" = ValueChatID request ->
                     exists history,
                       fst (runState (GetChatHistory q) w)
                       = mkResponse StatusOK
                           (Some (JValue (inr (mkHistoryChatResponse true history))))
                       /\ fst (runState (GetChatHistory q) (snd res))
                          = mkResponse StatusOK
                              (Some (JValue (inr (mkHistoryChatResponse
                                                    true (history ++ [message])))))
                       /\ forall m, In m history -> cm_ChatID m = ValueChatID request)
           end
  end.
Proof.
  intros res. subst res. unfold ProcessChatResponse.
  destruct (json_body r) as [request|]; [|reflexivity].
  destruct (String.eqb_spec (ValueChatID request) "") as [|Hid]; [reflexivity|].
  cbn zeta. rewrite run_bind_W, run_on_store, run_AddChatMessage.
  destruct (verdict (store w)) as [e|] eqn:Hv; cbn [fst snd].
  { repeat split. }
  rewrite run_bind_W, run_notify, run_respond.
  cbn [fst snd store posted notified tbl chat_messages with_chat_messages].
  split; [reflexivity|]. split; [reflexivity|]. split; [reflexivity|].
  split; [reflexivity|].
  intros Hv' q Hq. unfold GetChatHistory. rewrite Hq.
  destruct (String.eqb_spec (ValueChatID request) "") as [|_]; [contradiction|].
  rewrite !run_bind_W, !run_on_store, !run_GetChatMessagesForChatID, Hv.
  cbn [fst snd] in *. cbn [store] in Hv' |- *. rewrite Hv'.
  cbn [fst snd tbl chat_messages with_chat_messages].
  eexists. split; [reflexivity|]. split.
  - rewrite filter_app. cbn [filter cm_ChatID]. rewrite String.eqb_refl. reflexivity.
  - intros m Hm. apply filter_In in Hm as [_ Hm]. now apply String.eqb_eq.
Qed.

(** ** Invariants of the tickets table *)

(** What [CreateOrEditTicket] leaves in the tickets table: the table as it
    was, or one more row for a UUID that no row bore, or the rows of the
    ticket's UUID rewritten by a ticket that passed the checks. *)
Lemma upsert_table (now : time) (ticket : Tickets) (d : database) :
  let rows := tickets (tbl d) in
  let rows' := tickets (tbl (snd (runState (CreateOrEditTicket now ticket) d))) in
  rows' = rows
  \/ (find (has_uuid (UUID ticket)) rows = None
      /\ In (Status (created_ticket now ticket)) ticket_statuses
      /\ rows' = (rows ++ [created_ticket now ticket])%list)
  \/ (UUID ticket <> uuid_Nil
      /\ (Status ticket = "" \/ In (Status ticket) ticket_statuses)
      /\ rows' = map (fun row => if has_uuid (UUID ticket) row
                                 then assign_nonzero (set_UpdatedAt now ticket) row
                                 else row) rows).
Proof.
  intros rows rows'. subst rows rows'. unfold CreateOrEditTicket.
  destruct (String.eqb_spec (UUID ticket) uuid_Nil) as [Hnil|Hu]; [now left|].
  destruct (negb (String.eqb (Status ticket) "")
            && negb (IsValidTicketStatus (Status ticket))) eqn:Hguard; [now left|].
  assert (Hstatus : Status ticket = "" \/ In (Status ticket) ticket_statuses).
  { apply andb_false_iff in Hguard as [H|H]; apply negb_false_iff in H.
    - left. now apply String.eqb_eq.
    - right. now apply IsValidTicketStatus_In. }
  rewrite run_bind, run_First. cbn [fst snd].
  destruct (verdict d) as [e|] eqn:Hv1.
  { cbn [errors_Is_ErrRecordNotFound].
    rewrite (driver_error_is_not_ErrRecordNotFound d e Hv1). now left. }
  destruct (find (has_uuid (UUID ticket)) (tickets (tbl d))) as [old|] eqn:Hfind.
  - cbn [errors_Is_ErrRecordNotFound].
    rewrite run_bind. unfold Updates. rewrite run_exec. cbn [fst snd].
    destruct (verdict (sent d)) as [e|] eqn:Hv2; [now left|].
    rewrite run_bind, run_First. cbn [fst snd tbl tickets with_tickets].
    right. right. split; [exact Hu|]. split; [exact Hstatus|].
    rewrite (has_uuid_found _ _ _ Hfind).
    match goal with
    | |- context [verdict (mkDatabase ?t ?f)] => destruct (verdict (mkDatabase t f))
    end.
    + reflexivity.
    + match goal with
      | |- context [find ?p (map ?h ?l)] => destruct (find p (map h l))
      end; reflexivity.
  - cbn [errors_Is_ErrRecordNotFound is_ErrRecordNotFound].
    rewrite run_bind, run_Create. cbn [fst snd].
    destruct (verdict (sent d)) as [e|] eqn:Hv2; [now left|].
    right. left. split; [reflexivity|]. split.
    + unfold created_ticket. cbn [Status set_CreatedAt set_UpdatedAt].
      destruct (String.eqb_spec (Status ticket) "") as [Hs|Hs].
      * cbn. now left.
      * destruct Hstatus as [|Hin]; [contradiction|exact Hin].
    + reflexivity.
Qed.

Lemma UUID_created_ticket (now : time) (ticket : Tickets) :
  UUID (created_ticket now ticket) = UUID ticket.
Proof. unfold created_ticket. cbn. destruct (String.eqb _ _); reflexivity. Qed.

Lemma find_none_not_in (u : Go.uuid_t) (rows : list Tickets) :
  find (has_uuid u) rows = None -> ~ In u (map UUID rows).
Proof.
  intros Hnone Hin. apply in_map_iff in Hin as (row & Hrow & Hin).
  apply (find_none _ _ Hnone) in Hin. unfold has_uuid in Hin.
  apply String.eqb_neq in Hin. contradiction.
Qed.

Lemma map_UUID_rewrite (u : Go.uuid_t) (h : Tickets -> Tickets) (rows : list Tickets) :
  (forall row, UUID row = u -> UUID (h row) = u) ->
  map UUID (map (fun row => if has_uuid u row then h row else row) rows) = map UUID rows.
Proof.
  intros Hh. rewrite map_map. apply map_ext. intros row.
  unfold has_uuid. destruct (String.eqb_spec (UUID row) u) as [Hrow|]; [|reflexivity].
  rewrite (Hh row Hrow). now symmetry.
Qed.

Lemma unique_uuids_filter (keep : Tickets -> bool) (rows : list Tickets) :
  NoDup (map UUID rows) -> NoDup (map UUID (filter keep rows)).
Proof.
  intros Hrows. induction rows as [|row rows IH]; [constructor|].
  cbn [map] in Hrows. apply NoDup_cons_iff in Hrows as [Hrow Hrest].
  cbn [filter]. destruct (keep row); [|exact (IH Hrest)].
  cbn [map]. apply NoDup_cons; [|exact (IH Hrest)].
  intros Hin. apply Hrow. apply in_map_iff in Hin as (other & Huuid & Hin).
  apply filter_In in Hin as [Hin _]. apply in_map_iff. now exists other.
Qed.

(** X14. No write of db/tickets.go makes two rows of one UUID: when the UUIDs
    of the tickets table are pairwise distinct they still are after
    [CreateOrEditTicket], [UpdateTicket], [DeleteTicket] and
    [UpdateTicketsWithoutGroup], whatever the arguments and whatever the
    driver does. *)
Theorem ticket_uuids_stay_unique
        (now : time) (ticket : Tickets) (uuid : string) (d : database) :
  NoDup (map UUID (tickets (tbl d))) ->
  NoDup (map UUID (tickets (tbl (snd (runState (CreateOrEditTicket now ticket) d)))))
  /\ NoDup (map UUID (tickets (tbl (snd (runState (UpdateTicket now ticket) d)))))
  /\ NoDup (map UUID (tickets (tbl (snd (runState (DeleteTicket uuid) d)))))
  /\ NoDup (map UUID (tickets (tbl (snd (runState (UpdateTicketsWithoutGroup now ticket)
                                                  d))))).
Proof.
  intros Hunique.
  assert (Hupsert :
    NoDup (map UUID (tickets (tbl (snd (runState (CreateOrEditTicket now ticket) d)))))).
  { destruct (upsert_table now ticket d) as [->|[(Hnone & _ & ->)|(Hu & _ & ->)]].
    - exact Hunique.
    - rewrite map_app. cbn [map]. rewrite UUID_created_ticket.
      apply NoDup_app; [exact Hunique|repeat constructor; intros []|].
      intros u Hin [<-|[]]. revert Hin. now apply find_none_not_in.
    - rewrite map_UUID_rewrite; [exact Hunique|].
      intros row Hrow. unfold assign_nonzero, pick_uuid. cbn.
      now rewrite (proj2 (String.eqb_neq _ _) Hu). }
  split; [exact Hupsert|]. split; [|split].
  - now rewrite UpdateTicket_is_CreateOrEditTicket.
  - unfold DeleteTicket. rewrite run_bind, run_Delete.
    destruct (verdict d); cbn [fst snd]; [exact Hunique|].
    destruct (Z.eqb _ 0); rewrite run_ret; cbn [snd tbl tickets with_tickets];
      now apply unique_uuids_filter.
  - unfold UpdateTicketsWithoutGroup. rewrite run_bind, run_exec. cbn [fst snd].
    destruct (verdict d); rewrite run_ret; cbn [snd tbl tickets with_tickets];
      [exact Hunique|].
    rewrite map_UUID_rewrite; [exact Hunique|]. intros row Hrow. exact Hrow.
Qed.

Lemma ticket_uuids_stay_unique_witness :
  NoDup (map UUID (tickets (tbl (snd (runState
           (CreateOrEditTicket 1700000700 Fixtures.description_and_status)
           Fixtures.db0))))).
Proof.
  apply (ticket_uuids_stay_unique 1700000700 Fixtures.description_and_status
                                  "6f1d0a3e-0d5c-4c55-8a53-2f0a3f8f7a11" Fixtures.db0).
  repeat constructor. intros [].
Defined.

(** X15. No write of db/tickets.go stores an invalid status: when every
    stored ticket has one of the seven statuses, every stored ticket still
    has after [CreateOrEditTicket], [UpdateTicket], [DeleteTicket] and
    [UpdateTicketsWithoutGroup], whatever the arguments and whatever the
    driver does. *)
Theorem ticket_statuses_stay_valid
        (now : time) (ticket : Tickets) (uuid : string) (d : database) :
  let valid := Forall (fun row => In (Status row) ticket_statuses) in
  valid (tickets (tbl d)) ->
  valid (tickets (tbl (snd (runState (CreateOrEditTicket now ticket) d))))
  /\ valid (tickets (tbl (snd (runState (UpdateTicket now ticket) d))))
  /\ valid (tickets (tbl (snd (runState (DeleteTicket uuid) d))))
  /\ valid (tickets (tbl (snd (runState (UpdateTicketsWithoutGroup now ticket) d)))).
Proof.
  intros valid Hvalid. subst valid. cbn beta in *.
  assert (Hupsert :
    Forall (fun row => In (Status row) ticket_statuses)
           (tickets (tbl (snd (runState (CreateOrEditTicket now ticket) d))))).
  { destruct (upsert_table now ticket d) as [->|[(_ & Hs & ->)|(_ & Hs & ->)]].
    - exact Hvalid.
    - apply Forall_app. split; [exact Hvalid|]. constructor; [exact Hs|constructor].
    - apply Forall_map. revert Hvalid. apply Forall_impl. intros row Hrow.
      destruct (has_uuid (UUID ticket) row); [|exact Hrow].
      unfold assign_nonzero, pick_string. cbn [Status set_UpdatedAt].
      destruct (String.eqb_spec (Status ticket) "") as [|Hne]; [exact Hrow|].
      destruct Hs as [|Hs]; [contradiction|exact Hs]. }
  split; [exact Hupsert|]. split; [|split].
  - now rewrite UpdateTicket_is_CreateOrEditTicket.
  - unfold DeleteTicket. rewrite run_bind, run_Delete.
    destruct (verdict d); cbn [fst snd]; [exact Hvalid|].
    destruct (Z.eqb _ 0); rewrite run_ret; cbn [snd tbl tickets with_tickets];
      apply Forall_forall; intros row Hrow; apply filter_In in Hrow as [Hrow _];
      exact (proj1 (Forall_forall _ _) Hvalid row Hrow).
  - unfold UpdateTicketsWithoutGroup. rewrite run_bind, run_exec. cbn [fst snd].
    destruct (verdict d); rewrite run_ret; cbn [snd tbl tickets with_tickets];
      [exact Hvalid|].
    apply Forall_map. revert Hvalid. apply Forall_impl. intros row Hrow.
    destruct (has_uuid (UUID ticket) row); exact Hrow.
Qed.

Lemma ticket_statuses_stay_valid_witness :
  Forall (fun row => In (Status row) ticket_statuses)
         (tickets (tbl (snd (runState
            (CreateOrEditTicket 1700000700 Fixtures.description_and_status)
            Fixtures.db0)))).
Proof.
  apply (ticket_statuses_stay_valid 1700000700 Fixtures.description_and_status
                                    "6f1d0a3e-0d5c-4c55-8a53-2f0a3f8f7a11" Fixtures.db0).
  repeat constructor.
Defined.

(** ** Features: the stories webhook and the feature upsert *)

Lemma stories_apart_refl (t : tables) : stories_apart t t.
Proof. unfold stories_apart. tauto. Qed.

Lemma stories_apart_trans (t t' t'' : tables) :
  stories_apart t t' -> stories_apart t' t'' -> stories_apart t t''.
Proof.
  unfold stories_apart. intros (H1 & H2 & H3 & H4 & H5 & H6) (K1 & K2 & K3 & K4 & K5 & K6).
  repeat split; congruence.
Qed.

Lemma story_upsert_rows (story : FeatureStory) (d : database) :
  let d' := snd (runState (DbSpec.CreateOrEditFeatureStory story) d) in
  stories_apart (tbl d) (tbl d')
  /\ (forall s, In s (feature_stories (tbl d')) ->
                In s (feature_stories (tbl d)) \/ exists id, s = DbSpec.set_fs_ID id story)
  /\ (List.length (feature_stories (tbl d')) <= S (List.length (feature_stories (tbl d))))%nat.
Proof.
  intros d'. subst d'. unfold DbSpec.CreateOrEditFeatureStory.
  rewrite run_bind, run_query. cbn [fst snd].
  destruct (verdict d) as [e|].
  { rewrite run_ret. cbn [snd]. rewrite tbl_sent.
    split; [apply stories_apart_refl|]. split; [auto|lia]. }
  destruct (find _ _) as [old|].
  - rewrite run_bind, run_exec. cbn [fst snd].
    destruct (verdict (sent d)); rewrite run_ret; cbn [snd tbl]; rewrite ?tbl_sent.
    { split; [apply stories_apart_refl|]. split; [auto|lia]. }
    split; [repeat split|]. cbn [feature_stories with_feature_stories]. split.
    + intros s Hs. apply in_map_iff in Hs as (s0 & <- & Hs0).
      destruct (String.eqb _ _); eauto.
    + rewrite length_map. lia.
  - rewrite run_bind, run_exec. cbn [fst snd].
    destruct (verdict (sent d)); rewrite run_ret; cbn [snd tbl]; rewrite ?tbl_sent.
    { split; [apply stories_apart_refl|]. split; [auto|lia]. }
    split; [repeat split|]. cbn [feature_stories with_feature_stories]. split.
    + intros s Hs. apply in_app_or in Hs as [Hs|[<-|[]]]; eauto.
    + rewrite length_app. cbn. lia.
Qed.

Lemma store_stories_rows
      (xid_New : nat -> string) (time_Now : nat -> time) (featureUuid : string)
      (stories : list FeatureStories) :
  forall (calls : nat) (d : database),
    let d' := snd (runState (store_stories xid_New time_Now featureUuid stories calls) d) in
    stories_apart (tbl d) (tbl d')
    /\ (forall s, In s (feature_stories (tbl d')) ->
          In s (feature_stories (tbl d))
          \/ (fs_FeatureUuid s = featureUuid
              /\ exists story, In story stories /\ fs_Description s = UserStory story))
    /\ (List.length (feature_stories (tbl d'))
        <= List.length (feature_stories (tbl d)) + List.length stories)%nat.
Proof.
  induction stories as [|story rest IH]; intros calls d d'; subst d'.
  { cbn. split; [apply stories_apart_refl|]. split; [auto|lia]. }
  cbn [store_stories]. rewrite run_bind.
  assert (Hsent : snd (runState (DbSpec.GetFeatureByUuid featureUuid) d) = sent d)
    by now rewrite run_GetFeatureByUuid.
  rewrite Hsent.
  destruct (Z.eqb (wf_ID (fst (runState (DbSpec.GetFeatureByUuid featureUuid) d))) 0).
  - destruct (IH calls (sent d)) as (Ha & Hin & Hlen). rewrite tbl_sent in *.
    split; [exact Ha|]. split.
    + intros s Hs. destruct (Hin s Hs) as [|(Hf & story' & Hst & Hd)]; [now left|].
      right. split; [exact Hf|]. exists story'. split; [now right|exact Hd].
    + cbn [List.length]. lia.
  - rewrite run_bind.
    match goal with
    | |- context [runState (DbSpec.CreateOrEditFeatureStory ?s) (sent d)] =>
        destruct (story_upsert_rows s (sent d)) as (Ha1 & Hin1 & Hlen1);
        set (d1 := snd (runState (DbSpec.CreateOrEditFeatureStory s) (sent d))) in *
    end.
    rewrite tbl_sent in *.
    destruct (IH (S calls) d1) as (Ha & Hin & Hlen).
    split; [exact (stories_apart_trans _ _ _ Ha1 Ha)|]. split.
    + intros s Hs. destruct (Hin s Hs) as [Hold|(Hf & story' & Hst & Hd)].
      * destruct (Hin1 s Hold) as [|[id ->]]; [now left|].
        right. split; [reflexivity|]. exists story. split; [now left|reflexivity].
      * right. split; [exact Hf|]. exists story'. split; [now right|exact Hd].
    + cbn [List.length]. lia.
Qed.

(** X16. [GetFeatureStories] answers 406 and changes nothing when the body
    does not decode; for every body that decodes it answers 200, whatever
    the driver does, changes no table but the feature stories, stores at
    most one story per story of the payload, and every story that it adds
    or rewrites belongs to the feature of the payload and has the text of
    one of the payload's stories as its description. *)
Theorem stories_webhook_stores_only_its_feature
        (xid_New : nat -> string) (time_Now : nat -> time)
        (r : Request FeatureStoriesReponse) (d : database) :
  let res := runState (GetFeatureStories xid_New time_Now r) d in
  match json_body r with
  | None => res = (mkResponse StatusNotAcceptable None, d)
  | Some payload =>
      fst res = mkResponse StatusOK (Some (JString "User stories added successfully"))
      /\ stories_apart (tbl d) (tbl (snd res))
      /\ (forall s, In s (feature_stories (tbl (snd res))) ->
            In s (feature_stories (tbl d))
            \/ (fs_FeatureUuid s = FeatureUuid (Output payload)
                /\ exists story, In story (Stories (Output payload))
                                 /\ fs_Description s = UserStory story))
      /\ (List.length (feature_stories (tbl (snd res)))
          <= List.length (feature_stories (tbl d))
             + List.length (Stories (Output payload)))%nat
  end.
Proof.
  intros res. subst res. unfold GetFeatureStories.
  destruct (json_body r) as [payload|]; [|reflexivity].
  rewrite run_bind, run_ret. cbn [fst snd].
  split; [reflexivity|].
  apply (store_stories_rows xid_New time_Now (FeatureUuid (Output payload))
                            (Stories (Output payload)) 0%nat d).
Qed.

Lemma feature_upsert (m : WorkspaceFeatures) (d : database) :
  let res := runState (DbSpec.CreateOrEditFeature m) d in
  match snd (fst res) with
  | Some _ => tbl (snd res) = tbl d
  | None =>
      exists id,
        fst (fst res) = DbSpec.set_wf_ID id m
        /\ In (DbSpec.set_wf_ID id m) (workspace_features (tbl (snd res)))
  end.
Proof.
  intros res. subst res. unfold DbSpec.CreateOrEditFeature.
  rewrite run_bind, run_query. cbn [fst snd].
  destruct (verdict d) as [e|]; [now rewrite run_ret|].
  destruct (find _ _) as [old|] eqn:Hfind.
  - rewrite run_bind, run_exec. cbn [fst snd].
    destruct (verdict (sent d)); rewrite run_ret; cbn [fst snd tbl]; [reflexivity|].
    exists (wf_ID old). split; [reflexivity|].
    cbn [workspace_features with_workspace_features].
    apply find_some in Hfind as [Hin Hold]. apply in_map_iff.
    exists old. now rewrite Hold.
  - rewrite run_bind, run_exec. cbn [fst snd].
    destruct (verdict (sent d)); rewrite run_ret; cbn [fst snd tbl]; [reflexivity|].
    eexists. split; [reflexivity|].
    cbn [workspace_features with_workspace_features].
    apply in_or_app. right. now left.
Qed.

Ltac turned_away := split; [intros _; now rewrite ?tbl_sent|intros H; discriminate H].

(** X17. [CreateOrEditFeatures] changes a table only when it answers 200, and
    it answers 200 only to an authenticated caller whose body decodes to a
    feature that passes the validation; the feature in the body of the
    answer is then stored, has the caller as its creator, and the workspace
    and the name of the request. *)
Theorem feature_stored_only_on_success
        (Validate_Struct : WorkspaceFeatures -> option error)
        (xid_New : nat -> string)
        (r : Request WorkspaceFeatures) (d : database) :
  let res := runState (CreateOrEditFeatures Validate_Struct xid_New r) d in
  (code (fst res) <> StatusOK -> tbl (snd res) = tbl d)
  /\ (code (fst res) = StatusOK ->
      ctx_pubkey r <> ""
      /\ exists features p,
          json_body r = Some features
          /\ Validate_Struct (stamped xid_New (ctx_pubkey r) features) = None
          /\ written (fst res) = Some (JValue p)
          /\ In p (workspace_features (tbl (snd res)))
          /\ wf_CreatedBy p = ctx_pubkey r
          /\ wf_WorkspaceUuid p = wf_WorkspaceUuid features
          /\ wf_Name p = wf_Name features).
Proof.
  intros res. subst res. unfold CreateOrEditFeatures.
  destruct (String.eqb_spec (ctx_pubkey r) "") as [Hkey|Hkey]; [turned_away|].
  destruct (json_body r) as [features|]; [|turned_away].
  destruct (Validate_Struct (stamped xid_New (ctx_pubkey r) features)) as [e|] eqn:Hvalid;
    [turned_away|].
  rewrite run_bind, run_GetWorkspaceByUuid. cbn [fst snd].
  destruct (negb _); [rewrite run_ret; cbn [fst snd]; turned_away|].
  rewrite run_bind.
  pose proof (feature_upsert (stamped xid_New (ctx_pubkey r) features) (sent d)) as Hup.
  cbn zeta in Hup.
  destruct (runState (DbSpec.CreateOrEditFeature
                        (stamped xid_New (ctx_pubkey r) features)) (sent d))
    as [[p err] d'].
  cbn [fst snd] in *. destruct err as [e|].
  { rewrite run_ret. cbn [fst snd]. rewrite Hup. turned_away. }
  destruct Hup as (id & -> & Hin). rewrite run_ret. cbn [fst snd code written].
  split; [intros H; now contradiction H|]. intros _.
  split; [exact Hkey|]. exists features. eexists.
  split; [reflexivity|]. split; [exact Hvalid|]. split; [reflexivity|].
  split; [exact Hin|].
  unfold stamped. destruct (String.eqb _ _); repeat split.
Qed.

(** ** On the rows of the tests *)

Lemma upsert_of_unknown_uuid_inserts_witness :
  fst (runState (CreateOrEditTicket 1700000800 Fixtures.second_ticket) Fixtures.db0)
  = (created_ticket 1700000800 Fixtures.second_ticket, None).
Proof.
  assert (Hnew : forall row, In row (tickets (tbl Fixtures.db0)) ->
                             UUID row <> UUID Fixtures.second_ticket).
  { intros row [<-|[]]. discriminate. }
  assert (Hnil : UUID Fixtures.second_ticket <> uuid_Nil) by discriminate.
  pose proof (upsert_of_unknown_uuid_inserts
                1700000800 Fixtures.second_ticket Fixtures.db0
                Hnil (or_introl eq_refl) Hnew eq_refl eq_refl) as H.
  exact (proj1 H).
Defined.

Lemma assigned_and_paid_within_posted_witness :
  fst (runState (TotalPaidBounties Fixtures.pg_int8 Fixtures.year_2023 "workspace-uuid")
                Fixtures.db1)
  + fst (runState (TotalAssignedBounties Fixtures.pg_int8 Fixtures.year_2023
                                         "workspace-uuid") Fixtures.db1)
  <= fst (runState (TotalBountiesPosted Fixtures.pg_int8 Fixtures.year_2023
                                        "workspace-uuid") Fixtures.db1).
Proof.
  apply (assigned_and_paid_within_posted
           Fixtures.pg_int8 Fixtures.year_2023 "workspace-uuid"
           Fixtures.db1 Fixtures.db1 Fixtures.db1 eq_refl eq_refl eq_refl).
Defined.
